(** * Lake Tahoe hazard warning system: the data-retrieval core

    A shallow embedding of the processing code of
    [lt-hws/data-retrieval/nws.py] (interval parsing, rounding, hourly
    expansion of National Weather Service samples) and of
    [dataretrieval/aws.py] (merging of the buoy and coast-guard feeds,
    trimming of incomplete rows, outlier cleaning, wind decomposition),
    with the store update of [dataretrieval/service.py] and the path
    helper of [save_model_output.py], and the properties of that code.

    Python values are embedded as follows.
    - [int] is [Z]; [str] is [list ascii] (the strings the services send
      are ASCII); a raised exception is the [Raise] case of [result].
    - [float] (binary64) is a type [F] with the operations of the class
      [Float64].  Two instances are given: Rocq's primitive binary64
      floats, which compute, and the reals extended with NaN.  [np.sin],
      [np.cos] and [np.radians] are the operations of the class
      [Float64Trig]; in binary64 the properties take them through the
      values numpy returns.
    - [datetime.datetime] is the record [datetime]; the calendar date is
      kept as its proleptic Gregorian ordinal ([date.toordinal()]), which
      is how [datetime.__add__] itself computes.
    - a [dict] is an association list in insertion order.
    - a pandas [DataFrame] is an index of row labels and a list of named
      columns; a [Series] is an index and a list of values. *)

From Stdlib Require Import ZArith List Ascii String Lia Bool.
From Stdlib Require Import Reals Lra Floats Uint63.
From Stdlib Require Import Permutation Sorted.
From stdpp Require Import base list option.
Import ListNotations.

Open Scope Z_scope.

(** ** Python exceptions and results *)

Inductive exn : Type :=
| ValueError
| KeyError
| IndexError
| TypeError
| OverflowError
| ParserError
| DataError.

Inductive result (A : Type) : Type :=
| Ok (a : A)
| Raise (e : exn).
Arguments Ok {A} a.
Arguments Raise {A} e.

#[global] Instance result_ret : MRet result := fun A a => Ok a.
#[global] Instance result_bind : MBind result :=
  fun A B f m => match m with Ok a => f a | Raise e => Raise e end.

(** A [for] loop whose body may raise, threading the loop's state. *)
Fixpoint for_fold {A S : Type} (body : A -> S -> result S) (items : list A) (s : S)
  : result S :=
  match items with
  | [] => Ok s
  | a :: rest => s' ← body a s; for_fold body rest s'
  end.

(** [range(lo, lo + n)] *)
Definition range (lo hi : Z) : list Z :=
  map (fun k => lo + Z.of_nat k) (seq 0 (Z.to_nat (hi - lo))).

(** ** Strings *)

Definition str : Type := list ascii.

Definition py (s : string) : str := list_ascii_of_string s.

Fixpoint startswith (p s : str) : bool :=
  match p, s with
  | [], _ => true
  | _ :: _, [] => false
  | a :: p', b :: s' => Ascii.eqb a b && startswith p' s'
  end.

(** [sub in s] *)
Fixpoint contains (sub s : str) : bool :=
  match s with
  | [] => startswith sub []
  | _ :: s' => startswith sub s || contains sub s'
  end.

(** [s.split(sep)] for a non-empty [sep]: the pieces between the leftmost
    non-overlapping occurrences of [sep].  [skip] counts the characters of
    an occurrence still to pass over, [cur] is the piece being read. *)
Fixpoint split_from (sep : str) (skip : nat) (cur s : str) : list str :=
  match s with
  | [] => [cur]
  | c :: s' =>
      match skip with
      | S k => split_from sep k cur s'
      | O =>
          if startswith sep s
          then cur :: split_from sep (length sep - 1) [] s'
          else split_from sep 0 (cur ++ [c]) s'
      end
  end.

Definition str_split (sep s : str) : list str := split_from sep 0 [] s.

(** [c.isdigit()] and [int(c)] on an ASCII character *)
Definition isdigit (c : ascii) : bool :=
  let n := Z.of_nat (nat_of_ascii c) in (48 <=? n) && (n <=? 57).

Definition int_of_digit (c : ascii) : Z := Z.of_nat (nat_of_ascii c) - 48.

(** ** Floating-point numbers *)

Class Float64 (F : Type) : Type := {
  f_nan : F;
  f_isnan : F -> bool;
  f_of_Z : Z -> F;
  f_add : F -> F -> F;
  f_sub : F -> F -> F;
  f_mul : F -> F -> F;
  f_div : F -> F -> F;
  f_sqrt : F -> F;
  f_ltb : F -> F -> bool;
  f_eqb : F -> F -> bool
}.

(** What the code relies on of IEEE comparisons: NaN is NaN, and [<] is
    asymmetric. *)
Class Float64Laws (F : Type) `{Float64 F} : Prop := {
  f_isnan_nan : f_isnan f_nan = true;
  f_ltb_asym : forall a b : F, f_ltb a b = true -> f_ltb b a = false
}.

(** [np.sin], [np.cos] and [np.radians] *)
Class Float64Trig (F : Type) : Type := {
  f_sin : F -> F;
  f_cos : F -> F;
  f_radians : F -> F
}.

(** ** datetime *)

Record datetime : Type := mk_datetime {
  dt_ordinal : Z;
  dt_hour : Z;
  dt_minute : Z;
  dt_second : Z;
  dt_microsecond : Z;
  dt_tz : option Z
}.

(** [dt_tz] is [utcoffset()] in seconds, [None] for a naive datetime. *)

Definition MAXORDINAL : Z := 3652059.

Definition is_leap (year : Z) : bool :=
  (year mod 4 =? 0) && (negb (year mod 100 =? 0) || (year mod 400 =? 0)).

Definition days_before_year (year : Z) : Z :=
  let y := year - 1 in y * 365 + y / 4 - y / 100 + y / 400.

Definition days_before_month (year month : Z) : Z :=
  nth (Z.to_nat month) [0; 0; 31; 59; 90; 120; 151; 181; 212; 243; 273; 304; 334] 0
  + (if (2 <? month) && is_leap year then 1 else 0).

(** [date(year, month, day).toordinal()] *)
Definition ymd2ord (year month day : Z) : Z :=
  days_before_year year + days_before_month year month + day.

Definition valid_datetime (d : datetime) : Prop :=
  1 <= dt_ordinal d <= MAXORDINAL /\ 0 <= dt_hour d < 24 /\ 0 <= dt_minute d < 60
  /\ 0 <= dt_second d < 60 /\ 0 <= dt_microsecond d < 1000000.

(** [d.replace(hour=h, minute=m, second=s)]: the constructor checks the
    new fields and raises [ValueError] outside their ranges; every other
    field, the microsecond included, is kept. *)
Definition replace_hms (d : datetime) (h m s : Z) : result datetime :=
  if (0 <=? h) && (h <? 24) && (0 <=? m) && (m <? 60) && (0 <=? s) && (s <? 60)
  then Ok (mk_datetime (dt_ordinal d) h m s (dt_microsecond d) (dt_tz d))
  else Raise ValueError.

(** The fields of [d + timedelta(hours=h)], as [datetime.__add__] works
    them out: the days and the seconds of the day of the sum. *)
Definition shift_hours (d : datetime) (h : Z) : datetime :=
  let secs := dt_hour d * 3600 + dt_minute d * 60 + dt_second d + h * 3600 in
  let days := dt_ordinal d + secs / 86400 in
  let rem := secs mod 86400 in
  mk_datetime days (rem / 3600) (rem mod 3600 / 60) (rem mod 60)
    (dt_microsecond d) (dt_tz d).

(** [d + timedelta(hours=h)]: an [OverflowError] when the day leaves the
    calendar. *)
Definition add_hours (d : datetime) (h : Z) : result datetime :=
  let t := shift_hours d h in
  if (0 <? dt_ordinal t) && (dt_ordinal t <=? MAXORDINAL)
  then Ok t
  else Raise OverflowError.

(** Microseconds since the start of ordinal day 0, in UTC for an aware
    datetime. *)
Definition instant (d : datetime) : Z :=
  ((dt_ordinal d * 86400 + dt_hour d * 3600 + dt_minute d * 60 + dt_second d)
   - default 0 (dt_tz d)) * 1000000 + dt_microsecond d.

(** [a == b]: aware datetimes are equal when they are the same instant,
    naive ones when their fields agree, and a naive one never equals an
    aware one. *)
Definition datetime_eqb (a b : datetime) : bool :=
  match dt_tz a, dt_tz b with
  | Some _, Some _ | None, None => instant a =? instant b
  | _, _ => false
  end.

(** ** A [defaultdict] of rows *)

Section Defaultdict.
Context {K V : Type} (key_eqb : K -> K -> bool) (default_row : list V).

Definition rows : Type := list (K * list V).

(** [m.get(key)] *)
Fixpoint dd_lookup (key : K) (m : rows) : option (list V) :=
  match m with
  | [] => None
  | (k, row) :: m' => if key_eqb k key then Some row else dd_lookup key m'
  end.

(** [m[key]] on a [defaultdict]: the row of a missing key is the default
    row. *)
Definition dd_row (key : K) (m : rows) : list V :=
  default default_row (dd_lookup key m).

(** [row[idx] = v] *)
Definition list_setitem (row : list V) (idx : nat) (v : V) : result (list V) :=
  if (idx <? length row)%nat then Ok (<[idx := v]> row) else Raise IndexError.

(** [m[key][idx] = v]: a missing key first receives the default row, at
    the end of the dictionary. *)
Fixpoint dd_set_cell (key : K) (idx : nat) (v : V) (m : rows) : result rows :=
  match m with
  | [] => row ← list_setitem default_row idx v; Ok [(key, row)]
  | (k, row) :: m' =>
      if key_eqb k key then row' ← list_setitem row idx v; Ok ((k, row') :: m')
      else m'' ← dd_set_cell key idx v m'; Ok ((k, row) :: m'')
  end.
End Defaultdict.

(** ** nws.py *)

Section NWS.
Context {F : Type} `{Float64 F}.

(** [dateutil.parser.parse], a collaborator of this code. *)
Variable parse : str -> result datetime.

(** One turn of the loop over the duration's letters; the state is
    [(hours, integer)]. *)
Definition duration_step (st : Z * Z) (letter : ascii) : Z * Z :=
  let '(hours, integer) := st in
  if isdigit letter then (hours, 10 * integer + int_of_digit letter)
  else if Ascii.eqb letter "H" then (hours + integer, 0)
  else if Ascii.eqb letter "M" then (hours + integer / 60, 0)
  else if Ascii.eqb letter "S" then (hours + integer / 360, 0)
  else (hours, integer).

Definition parse_interval (interval : str) : result (datetime * Z) :=
  let solidus :=
    if contains (py "/") interval then Some (py "/")
    else if contains (py "--") interval then Some (py "--")
    else None in
  match solidus with
  | None => d ← parse interval; Ok (d, 0)
  | Some sep =>
      match str_split sep interval with
      | [date; duration] =>
          let '(hours, _) := fold_left duration_step duration (0, 0) in
          d ← parse date; Ok (d, hours)
      | _ => Raise ValueError
      end
  end.

Definition round_to_nearest_hour (date : datetime) : result datetime :=
  if 30 <=? dt_minute date
  then replace_hms date (dt_hour date + 1) 0 0
  else replace_hms date (dt_hour date) 0 0.

Record nws_sample : Type := mk_nws_sample {
  validTime : str;
  value : F
}.

Definition labels : list string :=
  ["windDirection"; "windSpeed"; "temperature"; "skyCover"; "relativeHumidity"]%string.

Definition nws_default_row : list F := map (fun _ => f_nan) labels.

Definition nws_rows : Type := list (datetime * list F).

(** [for hour in range(0, duration):
       model_data[time + timedelta(hours=hour)][label_idx] = value] *)
Definition expand_hours (label_idx : nat) (time : datetime) (duration : Z) (v : F)
  (model_data : nws_rows) : result nws_rows :=
  for_fold
    (fun hour m =>
       t ← add_hours time hour;
       dd_set_cell datetime_eqb nws_default_row t label_idx v m)
    (range 0 duration) model_data.

(** The body of the loop over the samples of one label. *)
Definition nws_sample_step (label_idx : nat) (s : nws_sample) (model_data : nws_rows)
  : result nws_rows :=
  '(time, duration) ← parse_interval (validTime s);
  time ← round_to_nearest_hour time;
  expand_hours label_idx time duration (value s) model_data.

(** [data['properties'][label_name]['values']] *)
Fixpoint property_values (data : list (string * list nws_sample)) (label_name : string)
  : result (list nws_sample) :=
  match data with
  | [] => Raise KeyError
  | (name, values) :: data' =>
      if String.eqb name label_name then Ok values else property_values data' label_name
  end.

(** The rows of the returned frame, in the dictionary's order; each is
    [[time] + values]. *)
Definition get_model_nws_data (data : list (string * list nws_sample)) : result nws_rows :=
  for_fold
    (fun '(label_idx, label_name) m =>
       samples ← property_values data label_name;
       for_fold (nws_sample_step label_idx) samples m)
    (combine (seq 0 (length labels)) labels) [].
End NWS.

(** ** pandas: series and frames *)

(** Sorting by a key, as [sort_values] needs it. *)
Section Sorting.
Context {A : Type} (leb : A -> A -> bool).

Fixpoint insert_sorted (x : A) (l : list A) : list A :=
  match l with
  | [] => [x]
  | y :: l' => if leb x y then x :: l else y :: insert_sorted x l'
  end.

Fixpoint isort (l : list A) : list A :=
  match l with
  | [] => []
  | x :: l' => insert_sorted x (isort l')
  end.
End Sorting.

(** Keep the entries of [xs] whose flag is set. *)
Fixpoint keep_by {A : Type} (keep : list bool) (xs : list A) : list A :=
  match keep, xs with
  | k :: keep', x :: xs' => if k then x :: keep_by keep' xs' else keep_by keep' xs'
  | _, _ => []
  end.

(** The positions [enumerate] reports for the set flags, counted from
    [start]. *)
Definition flagged_from (start : nat) (flags : list bool) : list Z :=
  map (fun p => Z.of_nat (fst p))
      (List.filter (fun p => snd p) (combine (seq start (length flags)) flags)).

(** [range(n)] as row labels: the index of a freshly built frame. *)
Definition range_index (n : nat) : list Z := map Z.of_nat (seq 0 n).

Section Pandas.
Context {F : Type} `{Float64 F}.

Inductive column : Type :=
| TimeCol (ts : list datetime)
| NumCol (xs : list F).

Definition column_length (c : column) : nat :=
  match c with TimeCol ts => length ts | NumCol xs => length xs end.

Record DataFrame : Type := mk_df {
  df_index : list Z;
  df_columns : list (string * column)
}.

Record Series : Type := mk_series {
  s_index : list Z;
  s_values : list F
}.

(** The rolling aggregations of pandas on the values of a series,
    [rolling(window=w, center=True, min_periods=1)]: collaborators of
    this code.  They return one value per input value. *)
Class Rolling : Type := {
  rolling_mean : nat -> list F -> list F;
  rolling_std : nat -> list F -> list F;
  rolling_median : nat -> list F -> list F;
  rolling_mean_length : forall w xs, length (rolling_mean w xs) = length xs;
  rolling_std_length : forall w xs, length (rolling_std w xs) = length xs;
  rolling_median_length : forall w xs, length (rolling_median w xs) = length xs
}.

Fixpoint lookup_column (name : string) (cols : list (string * column)) : option column :=
  match cols with
  | [] => None
  | (n, c) :: cols' => if String.eqb n name then Some c else lookup_column name cols'
  end.

Fixpoint replace_column (name : string) (c : column) (cols : list (string * column))
  : list (string * column) :=
  match cols with
  | [] => [(name, c)]
  | (n, c0) :: cols' =>
      if String.eqb n name then (n, c) :: cols' else (n, c0) :: replace_column name c cols'
  end.

(** *** Series operations *)

(** [s[label] = v]: every entry carrying the label is set; a label that
    is not in the index enlarges the series. *)
Definition series_setitem (s : Series) (label : Z) (v : F) : Series :=
  if existsb (Z.eqb label) (s_index s)
  then mk_series (s_index s)
         (zip_with (fun l x => if l =? label then v else x) (s_index s) (s_values s))
  else mk_series (s_index s ++ [label]) (s_values s ++ [v]).

(** [k * s] for an [int] k *)
Definition series_scale (k : Z) (s : Series) : Series :=
  mk_series (s_index s) (map (f_mul (f_of_Z k)) (s_values s)).

Fixpoint series_get (s_idx : list Z) (s_vals : list F) (label : Z) : option F :=
  match s_idx, s_vals with
  | l :: idx', x :: vals' => if l =? label then Some x else series_get idx' vals' label
  | _, _ => None
  end.

Fixpoint dedup (l : list Z) : list Z :=
  match l with
  | [] => []
  | x :: l' => if existsb (Z.eqb x) l' then dedup l' else x :: dedup l'
  end.

(** [a op b]: on one index the values pair up; otherwise the operands
    are aligned on the sorted union of their labels, a label missing on
    either side giving NaN. *)
Definition series_arith (op : F -> F -> F) (a b : Series) : Series :=
  if decide (s_index a = s_index b)
  then mk_series (s_index a) (zip_with op (s_values a) (s_values b))
  else
    let idx := isort Z.leb (dedup (s_index a ++ s_index b)) in
    mk_series idx
      (map (fun l =>
              match series_get (s_index a) (s_values a) l,
                    series_get (s_index b) (s_values b) l with
              | Some x, Some y => op x y
              | _, _ => f_nan
              end) idx).

(** [a < b]: refused unless both carry the same index. *)
Definition series_lt (a b : Series) : result (list bool) :=
  if decide (s_index a = s_index b)
  then Ok (zip_with f_ltb (s_values a) (s_values b))
  else Raise ValueError.

(** [s != k] *)
Definition series_ne (xs : list F) (k : F) : list bool :=
  map (fun x => negb (f_eqb x k)) xs.

(** [self.where(cond, other)] for [cond] and [other] on the index of
    [self]: a value is kept where [cond] holds and taken from [other]
    where it does not. *)
Fixpoint where_ (cond : list bool) (self other : list F) : list F :=
  match cond, self, other with
  | c :: cond', x :: self', o :: other' =>
      (if c then x else o) :: where_ cond' self' other'
  | _, _, _ => []
  end.

(** [np.clip(x, lo, hi)] on one value *)
Definition clip (lo hi x : F) : F :=
  if f_ltb x lo then lo else if f_ltb hi x then hi else x.

(** *** Frames mutated in place *)

(** A computation on the frame [df]: it may raise, and the frame keeps
    whatever was written to it before. *)
Definition PD (A : Type) : Type := DataFrame -> result A * DataFrame.

Definition pd_ret {A : Type} (a : A) : PD A := fun df => (Ok a, df).

Definition pd_raise {A : Type} (e : exn) : PD A := fun df => (Raise e, df).

Definition pd_bind {A B : Type} (m : PD A) (k : A -> PD B) : PD B :=
  fun df =>
    match m df with
    | (Ok a, df') => k a df'
    | (Raise e, df') => (Raise e, df')
    end.

Fixpoint pd_for {A : Type} (items : list A) (body : A -> PD unit) : PD unit :=
  match items with
  | [] => pd_ret tt
  | a :: rest => pd_bind (body a) (fun _ => pd_for rest body)
  end.

(** [df.columns] *)
Definition pd_columns : PD (list string) :=
  fun df => (Ok (map fst (df_columns df)), df).

Definition pd_index : PD (list Z) := fun df => (Ok (df_index df), df).

(** [df[name]] where numbers are expected; [e] is what the operation
    applied to it raises on a column of datetimes. *)
Definition pd_numeric (e : exn) (name : string) : PD (list F) :=
  fun df =>
    match lookup_column name (df_columns df) with
    | None => (Raise KeyError, df)
    | Some (TimeCol _) => (Raise e, df)
    | Some (NumCol xs) => (Ok xs, df)
    end.

(** [df[name] = xs] (and the in-place update of [df[name]]) for values
    on the frame's index; a new name adds a column at the end. *)
Definition pd_assign (name : string) (xs : list F) : PD unit :=
  fun df => (Ok tt, mk_df (df_index df) (replace_column name (NumCol xs) (df_columns df))).

Definition pd_lift {A : Type} (r : result A) : PD A := fun df => (r, df).

(** [df.drop(name, axis=1, inplace=True)] *)
Definition pd_drop_column (name : string) : PD unit :=
  fun df =>
    match lookup_column name (df_columns df) with
    | None => (Raise KeyError, df)
    | Some _ =>
        (Ok tt, mk_df (df_index df)
                  (List.filter (fun nc => negb (String.eqb (fst nc) name)) (df_columns df)))
    end.
End Pandas.

Arguments column F : clear implicits.
Arguments DataFrame F : clear implicits.
Arguments Series F : clear implicits.
Arguments PD F A : clear implicits.
Arguments Rolling F : clear implicits.

#[global] Instance pd_mret {F : Type} : MRet (PD F) := fun A a => pd_ret a.
#[global] Instance pd_mbind {F : Type} : MBind (PD F) := fun A B k m => pd_bind m k.

(** ** aws.py *)

Section AWS.
Context {F : Type} `{Float64 F} `{Float64Trig F} {roll : Rolling F}.

(** A sample of the NASA buoy feed and one of the coast-guard feed, after
    [parse_date] and [float] have read their fields. *)
Record buoy_sample : Type := mk_buoy_sample {
  buoy_TmStamp : datetime;
  AirTemp_1 : F;
  AirTemp_2 : F;
  WindDir_1 : F;
  WindDir_2 : F;
  WindSpeed_1 : F;
  WindSpeed_2 : F
}.

Record uscg_sample : Type := mk_uscg_sample {
  uscg_TmStamp : datetime;
  ShortWaveIn_wm2 : F;
  ShortWaveOut_wm2 : F;
  BP_mbar : F;
  RH_percent : F;
  LongWaveInCorr_wm2 : F
}.

Definition features : list string :=
  ["shortwave"; "air temp"; "atmospheric pressure"; "relative humidity"; "longwave";
   "wind speed"; "wind direction"]%string.

(** [l.index(name)] *)
Fixpoint list_index (name : string) (l : list string) : result nat :=
  match l with
  | [] => Raise ValueError
  | x :: l' => if String.eqb x name then Ok 0%nat else i ← list_index name l'; Ok (S i)
  end.

(** [[np.nan] * len(features)] *)
Definition historical_default : list F := map (fun _ => f_nan) features.

Definition historical_rows : Type := list (datetime * list F).

(** [historical[time][features.index(name)] = v] *)
Definition set_feature (time : datetime) (name : string) (v : F) (historical : historical_rows)
  : result historical_rows :=
  idx ← list_index name features;
  dd_set_cell datetime_eqb historical_default time idx v historical.

Definition mean2 (a b : F) : F := f_div (f_add a b) (f_of_Z 2).

Definition buoy_step (s : buoy_sample) (historical : historical_rows) : result historical_rows :=
  let time := buoy_TmStamp s in
  let wind_dir := mean2 (WindDir_1 s) (WindDir_2 s) in
  let wind_speed := mean2 (WindSpeed_1 s) (WindSpeed_2 s) in
  let air_temp := mean2 (AirTemp_1 s) (AirTemp_2 s) in
  historical ← set_feature time "air temp" air_temp historical;
  historical ← set_feature time "wind speed" wind_speed historical;
  set_feature time "wind direction" wind_dir historical.

Definition uscg_step (s : uscg_sample) (historical : historical_rows) : result historical_rows :=
  let time := uscg_TmStamp s in
  let shortwave := f_sub (ShortWaveIn_wm2 s) (ShortWaveOut_wm2 s) in
  let atmospheric_pressure := f_mul (BP_mbar s) (f_of_Z 100) in
  let relative_humidity := f_div (RH_percent s) (f_of_Z 100) in
  let longwave := LongWaveInCorr_wm2 s in
  historical ← set_feature time "shortwave" shortwave historical;
  historical ← set_feature time "atmospheric pressure" atmospheric_pressure historical;
  historical ← set_feature time "relative humidity" relative_humidity historical;
  set_feature time "longwave" longwave historical.

(** The dictionary after both loops. *)
Definition merge_samples (buoy_json : list buoy_sample) (uscg_json : list uscg_sample)
  : result historical_rows :=
  historical ← for_fold buoy_step buoy_json [];
  for_fold uscg_step uscg_json historical.

(** [pd.DataFrame([[time] + features for time, features in historical.items()],
                  columns=['time'] + features)] *)
Definition frame_of_rows (historical : historical_rows) : DataFrame F :=
  mk_df (range_index (length historical))
    (("time"%string, TimeCol (map fst historical))
     :: map (fun jn => (snd jn, NumCol (map (fun r => nth (fst jn) (snd r) f_nan) historical)))
          (combine (seq 0 (length features)) features)).

(** *** Trimming the rows that hold a NaN *)

Definition cell_isnull (c : column F) (i : nat) : bool :=
  match c with
  | TimeCol _ => false
  | NumCol xs => match xs !! i with Some x => f_isnan x | None => false end
  end.

(** [df.isnull().any(axis=1)] *)
Definition isnull_any (df : DataFrame F) : list bool :=
  map (fun i => existsb (fun nc => cell_isnull (snd nc) i) (df_columns df))
      (seq 0 (length (df_index df))).

(** [[idx for idx, is_nan in enumerate(flags) if is_nan]] *)
Definition flagged_positions (flags : list bool) : list Z :=
  map (fun p => Z.of_nat (fst p))
      (List.filter (fun p => snd p) (combine (seq 0 (length flags)) flags)).

Definition keep_column (keep : list bool) (c : column F) : column F :=
  match c with
  | TimeCol ts => TimeCol (keep_by keep ts)
  | NumCol xs => NumCol (keep_by keep xs)
  end.

(** [df.drop(axis=0, index=row_labels, inplace=True)]: the rows carrying
    one of the labels go; a label that is not in the index is a
    [KeyError]. *)
Definition pd_drop_rows (row_labels : list Z) : PD F unit :=
  fun df =>
    if forallb (fun l => existsb (Z.eqb l) (df_index df)) row_labels
    then
      let keep := map (fun l => negb (existsb (Z.eqb l) row_labels)) (df_index df) in
      (Ok tt, mk_df (keep_by keep (df_index df))
                (map (fun nc => (fst nc, keep_column keep (snd nc))) (df_columns df)))
    else (Raise KeyError, df).

Definition trim_nan_rows : PD F unit :=
  fun df => pd_drop_rows (flagged_positions (isnull_any df)) df.

(** *** Sorting by time *)

Definition column_leb (c : column F) (i j : nat) : bool :=
  match c with
  | TimeCol ts =>
      match ts !! i, ts !! j with
      | Some a, Some b => instant a <=? instant b
      | _, _ => true
      end
  | NumCol xs =>
      match xs !! i, xs !! j with
      | Some a, Some b => negb (f_ltb b a)
      | _, _ => true
      end
  end.

Definition take_rows (order : list nat) (c : column F) : column F :=
  match c with
  | TimeCol ts => TimeCol (omap (fun i => ts !! i) order)
  | NumCol xs => NumCol (omap (fun i => xs !! i) order)
  end.

(** [df.sort_values(by=['time'], inplace=True, ignore_index=True)] *)
Definition pd_sort_by_time : PD F unit :=
  fun df =>
    match lookup_column "time" (df_columns df) with
    | None => (Raise KeyError, df)
    | Some c =>
        let order := isort (column_leb c) (seq 0 (length (df_index df))) in
        (Ok tt, mk_df (range_index (length order))
                  (map (fun nc => (fst nc, take_rows order (snd nc))) (df_columns df)))
    end.

(** *** Outlier cleaning *)

(** The literal [-0.001] is the binary64 nearest to -1/1000, which is
    what the division returns. *)
Definition ATTR_BOUNDS : list (string * (F * F)) :=
  [("relative humidity", (f_of_Z 0, f_of_Z 1));
   ("shortwave", (f_div (f_of_Z (-1)) (f_of_Z 1000), f_of_Z 1300));
   ("longwave", (f_of_Z 50, f_of_Z 450));
   ("atmospheric pressure", (f_of_Z 75000, f_of_Z 90000));
   ("air temp", (f_of_Z (-20), f_of_Z 70));
   ("wind speed", (f_of_Z 0, f_of_Z 40));
   ("wind direction", (f_of_Z 0, f_of_Z 360))]%string.

Definition median_filter_feature (feature : string) : PD F unit :=
  if String.eqb feature "time" then mret tt
  else
    x ← pd_numeric DataError feature;
    pd_assign feature (rolling_median 5 x).

Definition median_filtering : PD F unit :=
  columns ← pd_columns;
  pd_for columns median_filter_feature.

Definition clip_feature (bounds : string * (F * F)) : PD F unit :=
  let '(feature, (lo, hi)) := bounds in
  x ← pd_numeric TypeError feature;
  pd_assign feature (map (clip lo hi) x).

(** The body of the loop "Set features > 3 std to mean". *)
Definition sigma_repair_feature (feature : string) : PD F unit :=
  if String.eqb feature "time" then mret tt
  else
    index ← pd_index;
    x ← pd_numeric DataError feature;
    let mean := mk_series index (rolling_mean 100 x) in
    x ← pd_numeric DataError feature;
    let std := series_setitem (mk_series index (rolling_std 100 x)) 0 (f_of_Z 0) in
    let lo := series_arith f_sub mean (series_scale 3 std) in
    let hi := series_arith f_add mean (series_scale 3 std) in
    x ← pd_numeric TypeError feature;
    keep ← pd_lift (series_lt lo (mk_series index x));
    _ ← pd_assign feature (where_ keep x (s_values mean));
    x ← pd_numeric TypeError feature;
    keep ← pd_lift (series_lt (mk_series index x) hi);
    pd_assign feature (where_ keep x (s_values mean)).

(** The body of the loop over the bounds for values sitting at a bound. *)
Definition bound_repair_feature (bounds : string * (F * F)) : PD F unit :=
  let '(feature, (lo, hi)) := bounds in
  if String.eqb feature "shortwave" then mret tt
  else
    x ← pd_numeric DataError feature;
    let mean := rolling_mean 100 x in
    x ← pd_numeric TypeError feature;
    _ ← pd_assign feature (where_ (series_ne x hi) x mean);
    x ← pd_numeric TypeError feature;
    pd_assign feature (where_ (series_ne x lo) x mean).

Definition clip_stage : PD F unit := pd_for ATTR_BOUNDS clip_feature.

Definition sigma_stage : PD F unit :=
  columns ← pd_columns;
  pd_for columns sigma_repair_feature.

Definition bound_stage : PD F unit := pd_for ATTR_BOUNDS bound_repair_feature.

Definition remove_outliers : PD F unit :=
  _ ← median_filtering;
  _ ← clip_stage;
  _ ← sigma_stage;
  _ ← bound_stage;
  median_filtering.

(** *** Wind vector *)

Definition wind_component (trig : F -> F) (direction speed : list F) : list F :=
  zip_with f_mul (map (fun d => f_mul (trig (f_radians d)) (f_of_Z (-1))) direction) speed.

Definition decompose_wind : PD F unit :=
  direction ← pd_numeric TypeError "wind direction";
  speed ← pd_numeric TypeError "wind speed";
  _ ← pd_assign "wind u" (wind_component f_sin direction speed);
  direction ← pd_numeric TypeError "wind direction";
  speed ← pd_numeric TypeError "wind speed";
  _ ← pd_assign "wind v" (wind_component f_cos direction speed);
  _ ← pd_drop_column "wind direction";
  pd_drop_column "wind speed".

(** *** The pipeline *)

Definition clean_frame : PD F unit :=
  _ ← trim_nan_rows;
  _ ← pd_sort_by_time;
  _ ← remove_outliers;
  _ ← decompose_wind;
  trim_nan_rows.

(** [buoy_json] and [uscg_json] are what the two endpoints answered. *)
Definition get_model_historical_data (buoy_json : list buoy_sample)
  (uscg_json : list uscg_sample) : result (DataFrame F) :=
  historical ← merge_samples buoy_json uscg_json;
  match clean_frame (frame_of_rows historical) with
  | (Ok _, df) => Ok df
  | (Raise e, _) => Raise e
  end.
End AWS.

(** ** save_model_output.py *)

(** [s.rfind(c)] for a character [c]: the last position of [c] in [s], -1
    when there is none.  [pos] is the position of the head of [s], [last]
    the last position seen so far. *)
Fixpoint rfind_from (c : ascii) (s : str) (pos last : Z) : Z :=
  match s with
  | [] => last
  | x :: s' => rfind_from c s' (pos + 1) (if Ascii.eqb x c then pos else last)
  end.

Definition rfind (c : ascii) (s : str) : Z := rfind_from c s 0 (-1).

(** [s[i:]]: a negative [i] counts from the end. *)
Definition slice_from (s : str) (i : Z) : str :=
  if i <? 0 then drop (Z.to_nat (Z.of_nat (length s) + i)) s else drop (Z.to_nat i) s.

Definition getLastDirectoryInPath (directoryPath : str) : str :=
  let lastDirectoryIndex := rfind "/" directoryPath in
  slice_from directoryPath (lastDirectoryIndex + 1).

(** ** service.py *)

Section Service.
Context {F : Type} `{Float64 F}.

(** What [s[0]] raises on a series without rows, a matter of pandas:
    [IndexError] where the frame built from no rows has an index of
    objects and [0] is read as a position, [KeyError] where it has a
    range index. *)
Variable lookup_error : exn.

(** [a < b] on timestamps: by instant; a naive and an aware timestamp do
    not compare. *)
Definition datetime_ltb (a b : datetime) : result bool :=
  match dt_tz a, dt_tz b with
  | Some _, Some _ | None, None => Ok (instant a <? instant b)
  | _, _ => Raise TypeError
  end.

(** [db[db['time'] < earliest_date]] on the rows of the store. *)
Fixpoint rows_before (earliest_date : datetime) (db : list (datetime * list F))
  : result (list (datetime * list F)) :=
  match db with
  | [] => Ok []
  | r :: db' =>
      keep ← datetime_ltb (fst r) earliest_date;
      rest ← rows_before earliest_date db';
      Ok (if (keep : bool) then r :: rest else rest)
  end.

(** [DataRetrievalService.retrieve]: [db] is [self.db] before the call
    ([None] without a store), [nws_data] what [get_model_nws_data]
    returned; the result is [self.db] afterwards, which [save] writes out.
    [nws_data['time'][0]] is the time of the row labelled 0. *)
Definition retrieve (db : option (list (datetime * list F)))
  (nws_data : list (datetime * list F)) : result (list (datetime * list F)) :=
  match db with
  | None => Ok nws_data
  | Some old =>
      match nws_data with
      | [] => Raise lookup_error
      | first :: _ =>
          let earliest_date := fst first in
          kept ← rows_before earliest_date old;
          Ok (kept ++ nws_data)
      end
  end.
End Service.

(** ** Two models of binary64 *)

(** *** Rocq's primitive floats *)

Definition float_of_Z (z : Z) : float :=
  if z <? 0 then PrimFloat.opp (PrimFloat.of_uint63 (Uint63.of_Z (- z)))
  else PrimFloat.of_uint63 (Uint63.of_Z z).

#[global] Instance binary64 : Float64 float := {|
  f_nan := PrimFloat.nan;
  f_isnan := PrimFloat.is_nan;
  f_of_Z := float_of_Z;
  f_add := PrimFloat.add;
  f_sub := PrimFloat.sub;
  f_mul := PrimFloat.mul;
  f_div := PrimFloat.div;
  f_sqrt := PrimFloat.sqrt;
  f_ltb := PrimFloat.ltb;
  f_eqb := PrimFloat.eqb
|}.

(** *** The reals with NaN: binary64 without rounding and without
    infinities *)

Definition xreal : Type := option R.

Definition xlift2 (op : R -> R -> R) (a b : xreal) : xreal :=
  match a, b with
  | Some x, Some y => Some (op x y)
  | _, _ => None
  end.

Definition xdiv (a b : xreal) : xreal :=
  match a, b with
  | Some x, Some y => if Req_EM_T y 0 then None else Some (x / y)%R
  | _, _ => None
  end.

Definition xsqrt (a : xreal) : xreal :=
  match a with
  | Some x => if Rlt_dec x 0 then None else Some (R_sqrt.sqrt x)
  | None => None
  end.

Definition xltb (a b : xreal) : bool :=
  match a, b with
  | Some x, Some y => if Rlt_dec x y then true else false
  | _, _ => false
  end.

Definition xeqb (a b : xreal) : bool :=
  match a, b with
  | Some x, Some y => if Req_EM_T x y then true else false
  | _, _ => false
  end.

#[global] Instance ideal64 : Float64 xreal := {|
  f_nan := None;
  f_isnan := fun a => match a with None => true | Some _ => false end;
  f_of_Z := fun z => Some (IZR z);
  f_add := xlift2 Rplus;
  f_sub := xlift2 Rminus;
  f_mul := xlift2 Rmult;
  f_div := xdiv;
  f_sqrt := xsqrt;
  f_ltb := xltb;
  f_eqb := xeqb
|}.

#[global] Instance ideal64_trig : Float64Trig xreal := {|
  f_sin := option_map sin;
  f_cos := option_map cos;
  f_radians := option_map (fun d => d * (PI / 180))%R
|}.

(** ** A direct reading of the rolling aggregations

    [rolling(w, center=True, min_periods=1)]: the window of row [i] holds
    the rows [i + 1 + offset - w] up to [i + offset], [offset = (w - 1)
    // 2], cut at both ends of the series.  NaN values are not
    observations, and neither are the infinities: pandas turns them into
    NaN before it aggregates.  A window without observations gives NaN,
    and so does the standard deviation ([ddof = 1]) of a single
    observation.

    pandas keeps running sums while the window slides; the mean and the
    standard deviation below sum the observations of each window in the
    order of the rows, which in binary64 can differ from pandas' value
    in the last place.  The median involves no sum of more than two
    values. *)

Section DirectRolling.
Context {F : Type} `{Float64 F}.

(** [np.isinf]: of the numbers, the infinities are those whose difference
    with themselves is NaN. *)
Definition f_isinf (x : F) : bool := negb (f_isnan x) && f_isnan (f_sub x x).

Definition window_at (w : nat) (xs : list F) (i : nat) : list F :=
  let offset := ((w - 1) / 2)%nat in
  let stop := (i + 1 + offset)%nat in
  let start := (stop - w)%nat in
  List.filter (fun x => negb (f_isnan x || f_isinf x)) (take (stop - start) (drop start xs)).

Definition f_sum (l : list F) : F := fold_left f_add l (f_of_Z 0).

Definition f_count (l : list F) : F := f_of_Z (Z.of_nat (length l)).

Definition mean_of (l : list F) : F :=
  match l with
  | [] => f_nan
  | _ => f_div (f_sum l) (f_count l)
  end.

Definition std_of (l : list F) : F :=
  if (length l <? 2)%nat then f_nan
  else
    let m := mean_of l in
    f_sqrt (f_div (f_sum (map (fun x => f_mul (f_sub x m) (f_sub x m)) l))
                  (f_of_Z (Z.of_nat (length l) - 1))).

Definition median_of (l : list F) : F :=
  let s := isort (fun a b => negb (f_ltb b a)) l in
  let n := length s in
  if Nat.even n
  then match s !! (n / 2 - 1)%nat, s !! (n / 2)%nat with
       | Some a, Some b => f_div (f_add a b) (f_of_Z 2)
       | _, _ => f_nan
       end
  else default f_nan (s !! (n / 2)%nat).

Definition rolling_with (agg : list F -> F) (w : nat) (xs : list F) : list F :=
  map (fun i => agg (window_at w xs i)) (seq 0 (length xs)).

Lemma rolling_with_length agg w xs : length (rolling_with agg w xs) = length xs.
Proof. unfold rolling_with. now rewrite List.length_map, List.length_seq. Qed.

#[global] Instance direct_rolling : Rolling F := {|
  rolling_mean := rolling_with mean_of;
  rolling_std := rolling_with std_of;
  rolling_median := rolling_with median_of;
  rolling_mean_length := rolling_with_length mean_of;
  rolling_std_length := rolling_with_length std_of;
  rolling_median_length := rolling_with_length median_of
|}.
End DirectRolling.

(** ** The rolling statistics, as the documentation of pandas words them

    The centered window of [w] rows around row [i] of a column of [n]
    rows; the observations of a window, which are its values other than
    NaN and the infinities; their mean, their sample standard deviation
    and their median. *)

Definition centered_rows (w n i : nat) : list nat :=
  List.filter (fun j => (i + (w - 1) / 2 + 1 <=? j + w)%nat && (j <=? i + (w - 1) / 2)%nat)
    (seq 0 n).

Section Statistics.
Context {F : Type} `{Float64 F}.

Definition observations (x : list F) (rows : list nat) : list F :=
  omap (fun j => v ← x !! j; if f_isnan v || f_isinf v then None else Some v) rows.



Definition middle_value (obs : list F) : F :=
  let sorted := isort (fun a b => negb (f_ltb b a)) obs in
  let k := length sorted in
  match k with
  | O => f_nan
  | _ => if Nat.odd k then default f_nan (sorted !! (k / 2)%nat)
         else f_div (f_add (default f_nan (sorted !! (k / 2 - 1)%nat))
                           (default f_nan (sorted !! (k / 2)%nat))) (f_of_Z 2)
  end.
End Statistics.


(** ** A parser for the examples

    The one layout the weather service sends,
    [YYYY-MM-DDTHH:MM:SS+HH:MM]; it stands for [dateutil] in the
    examples. *)

Definition digits_value (ds : str) : Z :=
  fold_left (fun acc c => 10 * acc + int_of_digit c) ds 0.

Definition iso_field (s : str) (start len : nat) : result Z :=
  let f := take len (drop start s) in
  if forallb isdigit f && (length f =? len)%nat then Ok (digits_value f)
  else Raise ParserError.

Definition iso_parse (s : str) : result datetime :=
  year ← iso_field s 0 4;
  month ← iso_field s 5 2;
  day ← iso_field s 8 2;
  hour ← iso_field s 11 2;
  minute ← iso_field s 14 2;
  second ← iso_field s 17 2;
  off_h ← iso_field s 20 2;
  off_m ← iso_field s 23 2;
  let sign := if Ascii.eqb (nth 19 s "+"%char) "-" then -1 else 1 in
  if (length s =? 25)%nat && (1 <=? month) && (month <=? 12) && (1 <=? day) && (day <=? 31)
     && (hour <? 24) && (minute <? 60) && (second <? 60)
  then Ok (mk_datetime (ymd2ord year month day) hour minute second 0
             (Some (sign * (off_h * 3600 + off_m * 60))))
  else Raise ParserError.

(** ** The vocabulary of the properties *)

(** *** Durations [PTnHnMnS] *)

(** The number a numeral denotes: digit times power of ten, by position. *)
Fixpoint decimal (ds : str) : Z :=
  match ds with
  | [] => 0
  | d :: ds' => int_of_digit d * 10 ^ Z.of_nat (length ds') + decimal ds'
  end.

Definition numeral (ds : str) : Prop := Forall (fun c => isdigit c = true) ds.

Definition unit_letter (u : ascii) : Prop :=
  u = "H"%char \/ u = "M"%char \/ u = "S"%char.

(** A duration is a list of components, each a numeral and its unit. *)
Definition component : Type := str * ascii.

Definition well_formed_component (c : component) : Prop :=
  numeral (fst c) /\ unit_letter (snd c).

Definition duration_text (comps : list component) : str :=
  py "PT" ++ concat (map (fun c => fst c ++ [snd c]) comps).

Definition component_hours (c : component) : Z :=
  if Ascii.eqb (snd c) "H" then decimal (fst c)
  else if Ascii.eqb (snd c) "M" then decimal (fst c) / 60
  else decimal (fst c) / 360.

Definition duration_hours (comps : list component) : Z :=
  fold_right Z.add 0 (map component_hours comps).

(** Where the separator may stand: the start holds no [/], and before a
    [--] it holds no [--] and does not end in [-], so that the split falls
    where the duration begins. *)
Definition separated_by (sep date : str) : Prop :=
  (sep = py "/" /\ contains (py "/") date = false)
  \/ (sep = py "--" /\ contains (py "/") date = false
      /\ contains (py "--") (date ++ py "-") = false).

(** *** Characters and rows of a dictionary *)

Definition no_char (c : ascii) (s : str) : Prop := Forall (fun x => x <> c) s.

(** Every row has [n] cells. *)
Definition rows_width {K V : Type} (n : nat) (m : list (K * list V)) : Prop :=
  Forall (fun kr => length (snd kr) = n) m.

(** *** The rows of a frame *)

Section FrameRows.
Context {F : Type} `{Float64 F}.

Inductive cell : Type :=
| TimeCell (t : datetime)
| NumCell (x : F).

Definition cell_is_nan (c : cell) : bool :=
  match c with
  | TimeCell _ => false
  | NumCell x => f_isnan x
  end.

Definition column_cells (c : column F) : list cell :=
  match c with
  | TimeCol ts => map TimeCell ts
  | NumCol xs => map NumCell xs
  end.

(** The first cell of each column. *)
Fixpoint heads (cols : list (list cell)) : list cell :=
  match cols with
  | [] => []
  | [] :: cols' => heads cols'
  | (h :: _) :: cols' => h :: heads cols'
  end.

(** The rows of columns of cells: a label and the cells under it. *)
Fixpoint zip_rows (index : list Z) (cols : list (list cell)) : list (Z * list cell) :=
  match index with
  | [] => []
  | l :: index' => (l, heads cols) :: zip_rows index' (map (@List.tl cell) cols)
  end.

Definition frame_rows (df : DataFrame F) : list (Z * list cell) :=
  zip_rows (df_index df) (map (fun nc => column_cells (snd nc)) (df_columns df)).

Definition row_has_nan (r : Z * list cell) : bool := existsb cell_is_nan (snd r).

(** A column without its first row. *)
Definition column_tail (c : column F) : column F :=
  match c with
  | TimeCol ts => TimeCol (List.tl ts)
  | NumCol xs => NumCol (List.tl xs)
  end.

(** The cell [j] of a row is NaN. *)
Definition nan_at (j : nat) (row : list F) : Prop := row !! j = Some f_nan.

(** A frame has one cell per row in each column. *)
Definition frame_wf (df : DataFrame F) : Prop :=
  Forall (fun nc => column_length (snd nc) = length (df_index df)) (df_columns df).
End FrameRows.

Arguments cell F : clear implicits.

(** *** What a cleaning step may change *)

Section SameFrame.
Context {F : Type} `{Float64 F}.

(** [df'] has the rows of [df]: the same labels in the same order, the
    same columns by name, the same ['time'] column, and one cell per row
    in every column if [df] had. *)
Definition same_frame (df df' : DataFrame F) : Prop :=
  df_index df' = df_index df
  /\ map fst (df_columns df') = map fst (df_columns df)
  /\ lookup_column "time" (df_columns df') = lookup_column "time" (df_columns df)
  /\ (frame_wf df -> frame_wf df').

(** A step keeps the frame, whether it returns or raises. *)
Definition keeps_frame {A : Type} (m : PD F A) : Prop :=
  forall df, same_frame df (snd (m df)).
End SameFrame.

(** ** A frame for the examples *)

Definition example_times : list datetime :=
  [mk_datetime 738190 0 0 0 0 (Some 0);
   mk_datetime 738190 0 20 0 0 (Some 0);
   mk_datetime 738190 0 40 0 0 (Some 0)].

(** Three rows twenty minutes apart; the second air temperature sits at
    the lower bound, the shortwave is zero throughout, and the last
    longwave is missing. *)
Definition example_frame : DataFrame float :=
  mk_df (range_index 3)
    [("time", TimeCol example_times);
     ("shortwave", NumCol [0; 0; 0]%float);
     ("air temp", NumCol [8.5; -20; 8.75]%float);
     ("atmospheric pressure", NumCol [82023.5; 82023.25; 82029.75]%float);
     ("relative humidity", NumCol [0.5; 1; 0.25]%float);
     ("longwave", NumCol [125.5; 450; nan]%float);
     ("wind speed", NumCol [10; 10; 0]%float);
     ("wind direction", NumCol [0; 90; 360]%float)]%string.


(** ** numpy at the angles of the examples

    [np.radians(90)] is [90 * (pi / 180)] in binary64, the binary64
    nearest to pi / 2; there [np.sin] returns 1 and [np.cos] returns
    6.123233995736766e-17. *)

Definition radians_90 : float := 0x1.921fb54442d18p+0%float.

Definition cos_radians_90 : float := 0x1.1a62633145c07p-54%float.

(** It stands for numpy in the examples: [np.radians] as the product
    with the binary64 nearest to pi / 180, [np.sin] and [np.cos] by
    their values at 0 and at [radians_90]. *)
Definition numpy_at_examples : Float64Trig float := {|
  f_sin := fun a => if PrimFloat.eqb a 0 then a
                    else if PrimFloat.eqb a radians_90 then 1%float else PrimFloat.nan;
  f_cos := fun a => if PrimFloat.eqb a 0 then 1%float
                    else if PrimFloat.eqb a radians_90 then cos_radians_90 else PrimFloat.nan;
  f_radians := fun d => PrimFloat.mul d 0x1.1df46a2529d39p-6%float
|}.

(** Wind of speed 10 from the north and from the east. *)
Definition example_wind_frame : DataFrame float :=
  mk_df (range_index 2)
    [("time", TimeCol [mk_datetime 738190 0 0 0 0 (Some 0);
                       mk_datetime 738190 0 20 0 0 (Some 0)]);
     ("wind speed", NumCol [10; 10]%float);
     ("wind direction", NumCol [0; 90]%float)]%string.

(** ** More vocabulary of the properties *)

(** No two keys of a dictionary are equal. *)
Definition distinct_keys {K V : Type} (key_eqb : K -> K -> bool) (m : list (K * list V))
  : Prop :=
  ForallOrdPairs (fun a b => key_eqb a b = false) (map fst m).

(** A time on the hour. *)
Definition on_the_hour (d : datetime) : Prop := dt_minute d = 0 /\ dt_second d = 0.

(** What every step of the loops of [get_model_nws_data] keeps: rows of
    one value per label, at distinct times, on the hour. *)
Definition forecast_table {F : Type} (m : list (datetime * list F)) : Prop :=
  rows_width (length labels) m
  /\ distinct_keys datetime_eqb m
  /\ Forall on_the_hour (map fst m).

(** [m'] has the rows of [m], changed in the cell [idx] at most. *)
Definition keeps_other_cells {F : Type} (idx : nat) (m m' : list (datetime * list F))
  : Prop :=
  forall k row, dd_lookup datetime_eqb k m = Some row ->
    exists row', dd_lookup datetime_eqb k m' = Some row'
                 /\ length row' = length row
                 /\ forall j, j <> idx -> row' !! j = row !! j.

(** ** A forecast for the examples *)

(** One sample per label; the wind direction holds for two hours from
    02:00, the others for one hour from 03:00. *)
Definition example_forecast : list (string * list (nws_sample (F := float))) :=
  [("windDirection", [mk_nws_sample (py "2022-02-04T02:00:00+00:00/PT2H") 230%float]);
   ("windSpeed", [mk_nws_sample (py "2022-02-04T03:00:00+00:00/PT1H") 3.5%float]);
   ("temperature", [mk_nws_sample (py "2022-02-04T03:00:00+00:00/PT1H") (-0.5)%float]);
   ("skyCover", [mk_nws_sample (py "2022-02-04T03:00:00+00:00/PT1H") 22%float]);
   ("relativeHumidity", [mk_nws_sample (py "2022-02-04T03:00:00+00:00/PT1H") 51%float])]%string.

Definition example_table : list (datetime * list float) :=
  [(mk_datetime 738190 2 0 0 0 (Some 0), [230; nan; nan; nan; nan]%float);
   (mk_datetime 738190 3 0 0 0 (Some 0), [230; 3.5; -0.5; 22; 51]%float)].

(** ** Samples for the examples *)

Definition example_buoy_sample : buoy_sample (F := float) :=
  mk_buoy_sample (mk_datetime 738190 0 0 0 0 (Some 0))
    10%float 20%float 350%float 10%float 10%float 20%float.

Definition example_uscg_sample : uscg_sample (F := float) :=
  mk_uscg_sample (mk_datetime 738190 0 0 0 0 (Some 0))
    200%float 10%float 820%float 50%float 300%float.

(** ** Frames of numbers *)

Section NumericFrames.
Context {F : Type} `{Float64 F}.

(** One cell per row in each column, and numbers in every column that
    is not named ['time']. *)
Definition numeric_frame (df : DataFrame F) : Prop :=
  frame_wf df
  /\ Forall (fun nc => fst nc = "time"%string \/ exists x, snd nc = NumCol x) (df_columns df).

(** [v] is within the bounds: neither below [lo] nor above [hi]. *)
Definition within (lo hi v : F) : Prop := f_ltb v lo = false /\ f_ltb hi v = false.

(** A frame of numbers with the labels [index] and the columns [names]. *)
Definition feature_frame (index : list Z) (names : list string) (df : DataFrame F) : Prop :=
  df_index df = index /\ map fst (df_columns df) = names /\ numeric_frame df.
End NumericFrames.

(** ** Feeds for the examples, over the reals *)

Definition example_buoy_reading : buoy_sample (F := xreal) :=
  mk_buoy_sample (mk_datetime 738190 0 0 0 0 (Some 0))
    (Some 10%R) (Some 20%R) (Some 350%R) (Some 10%R) (Some 10%R) (Some 20%R).

Definition example_uscg_reading : uscg_sample (F := xreal) :=
  mk_uscg_sample (mk_datetime 738190 0 0 0 0 (Some 0))
    (Some 200%R) (Some 10%R) (Some 820%R) (Some 50%R) (Some 300%R).

(** The dictionary the two readings merge into. *)
Definition example_historical : list (datetime * list xreal) :=
  [(mk_datetime 738190 0 0 0 0 (Some 0),
    [f_sub (Some 200%R) (Some 10%R);
     mean2 (Some 10%R) (Some 20%R);
     f_mul (Some 820%R) (f_of_Z 100);
     f_div (Some 50%R) (f_of_Z 100);
     Some 300%R;
     mean2 (Some 10%R) (Some 20%R);
     mean2 (Some 350%R) (Some 10%R)])].

(** The example frame with labels that do not start at 0. *)
Definition example_gapped_frame : DataFrame float :=
  mk_df [1; 2; 3] (df_columns example_frame).

(** * Properties *)

(** ** Results *)

Lemma for_fold_app {A S : Type} (body : A -> S -> result S) (l1 l2 : list A) (s : S) :
  for_fold body (l1 ++ l2) s = (s' ← for_fold body l1 s; for_fold body l2 s').
Proof.
  revert s. induction l1 as [|a l1 IH]; intros s; simpl; [reflexivity|].
  destruct (body a s) as [s'|e]; simpl; [apply IH | reflexivity].
Qed.

Lemma range_snoc (n : Z) : 0 <= n -> range 0 (n + 1) = range 0 n ++ [n].
Proof.
  intros Hn. unfold range. rewrite !Z.sub_0_r.
  replace (Z.to_nat (n + 1)) with (S (Z.to_nat n)) by lia.
  rewrite seq_S, List.map_app. simpl. do 2 f_equal. lia.
Qed.

Lemma range_nil (lo hi : Z) : hi <= lo -> range lo hi = [].
Proof. intros Hle. unfold range. replace (Z.to_nat (hi - lo)) with 0%nat by lia. reflexivity. Qed.

Lemma range_length (n : Z) : length (range 0 n) = Z.to_nat n.
Proof. unfold range. now rewrite List.length_map, List.length_seq, Z.sub_0_r. Qed.

Lemma in_range (n h : Z) : In h (range 0 n) <-> 0 <= h < n.
Proof.
  unfold range. rewrite Z.sub_0_r, in_map_iff. split.
  - intros (k & <- & Hk). apply in_seq in Hk. lia.
  - intros Hh. exists (Z.to_nat h). split; [lia|]. apply in_seq. lia.
Qed.

(** ** Strings *)

Section StringFacts.
#[local] Arguments Ascii.eqb : simpl never.

(** String literals, spelled out as lists of characters. *)
Ltac unfold_py := cbv [py list_ascii_of_string] in *.

Lemma contains_slash_false (s : str) : contains (py "/") s = false <-> no_char "/" s.
Proof.
  unfold_py.
  unfold no_char. induction s as [|c s IH]; simpl.
  - split; [constructor | reflexivity].
  - rewrite andb_true_r, orb_false_iff, IH, Ascii.eqb_neq. split.
    + intros [Hc Hs]. constructor; [congruence | assumption].
    + intros Hcs. inversion Hcs; subst. split; [congruence | assumption].
Qed.

Lemma contains_slash_app (date rest : str) :
  contains (py "/") (date ++ "/"%char :: rest) = true.
Proof.
  unfold_py.
  induction date as [|c date IH]; simpl in *.
  - reflexivity.
  - rewrite IH. apply orb_true_r.
Qed.

Lemma no_char_app (c : ascii) (a b : str) : no_char c a -> no_char c b -> no_char c (a ++ b).
Proof. unfold no_char. intros Ha Hb. apply Forall_app; auto. Qed.

Lemma contains_dashes_app (date rest : str) :
  contains (py "--") (date ++ py "--" ++ rest) = true.
Proof.
  unfold_py.
  induction date as [|c date IH]; simpl in *.
  - reflexivity.
  - rewrite IH. apply orb_true_r.
Qed.

(** A string without the separator is one piece. *)
Lemma split_slash_none (cur s : str) :
  no_char "/" s -> split_from (py "/") 0 cur s = [cur ++ s].
Proof.
  unfold_py.
  unfold no_char. intros Hs. revert cur.
  induction Hs as [|c s Hc Hs IH]; intros cur; simpl.
  - now rewrite app_nil_r.
  - replace (Ascii.eqb "/" c) with false
      by (symmetry; apply Ascii.eqb_neq; congruence).
    simpl. rewrite IH, <- app_assoc. reflexivity.
Qed.

Lemma split_dashes_none (cur s : str) :
  no_char "-" s -> split_from (py "--") 0 cur s = [cur ++ s].
Proof.
  unfold_py.
  unfold no_char. intros Hs. revert cur.
  induction Hs as [|c s Hc Hs IH]; intros cur; simpl.
  - now rewrite app_nil_r.
  - replace (Ascii.eqb "-" c) with false
      by (symmetry; apply Ascii.eqb_neq; congruence).
    simpl. rewrite IH, <- app_assoc. reflexivity.
Qed.

Lemma split_slash_first (cur date rest : str) :
  no_char "/" date ->
  split_from (py "/") 0 cur (date ++ "/"%char :: rest)
  = (cur ++ date) :: split_from (py "/") 0 [] rest.
Proof.
  unfold_py.
  unfold no_char. intros Hd. revert cur.
  induction Hd as [|c date Hc Hd IH]; intros cur; simpl.
  - now rewrite app_nil_r.
  - replace (Ascii.eqb "/" c) with false
      by (symmetry; apply Ascii.eqb_neq; congruence).
    simpl. rewrite IH, <- app_assoc. reflexivity.
Qed.

Lemma split_dashes_first (cur date rest : str) :
  contains (py "--") (date ++ py "-") = false ->
  split_from (py "--") 0 cur (date ++ py "--" ++ rest)
  = (cur ++ date) :: split_from (py "--") 0 [] rest.
Proof.
  unfold_py.
  revert cur. induction date as [|c date IH]; intros cur Hd.
  - simpl. destruct rest; now rewrite app_nil_r.
  - simpl in Hd. apply orb_false_iff in Hd as [Hhead Htail].
    simpl.
    assert (Hstart : Ascii.eqb "-" c
                     && startswith (py "-") (date ++ py "--" ++ rest) = false).
    { destruct (Ascii.eqb "-" c) eqn:Ec; [|reflexivity]. simpl in *.
      destruct date as [|c' date]; simpl in *; [discriminate|].
      rewrite andb_true_r in *. exact Hhead. }
    simpl in Hstart. simpl. rewrite Hstart.
    rewrite IH by exact Htail. now rewrite <- app_assoc.
Qed.

(** ** Durations *)

Lemma int_of_digit_range (c : ascii) : isdigit c = true -> 0 <= int_of_digit c <= 9.
Proof.
  unfold isdigit, int_of_digit. intros Hc.
  apply andb_true_iff in Hc as [Hlo Hhi]. apply Z.leb_le in Hlo, Hhi. lia.
Qed.

(** Reading a numeral shifts the accumulator and adds the number. *)
Lemma duration_digits (ds : str) (hours integer : Z) :
  numeral ds ->
  fold_left duration_step ds (hours, integer)
  = (hours, integer * 10 ^ Z.of_nat (length ds) + decimal ds).
Proof.
  intros Hds. revert integer.
  induction Hds as [|c ds Hc Hds IH]; intros integer.
  - simpl. f_equal. lia.
  - cbn [fold_left duration_step]. rewrite Hc, IH. f_equal.
    cbn [length decimal].
    rewrite Nat2Z.inj_succ, Z.pow_succ_r by lia. ring.
Qed.

Lemma duration_component (c : component) (hours : Z) :
  well_formed_component c ->
  fold_left duration_step (fst c ++ [snd c]) (hours, 0) = (hours + component_hours c, 0).
Proof.
  intros [Hnum Hunit]. rewrite fold_left_app, duration_digits by exact Hnum.
  unfold component_hours. cbn [fold_left duration_step Z.mul].
  destruct Hunit as [-> | [-> | ->]]; reflexivity.
Qed.

Lemma duration_components (comps : list component) (hours : Z) :
  Forall well_formed_component comps ->
  fold_left duration_step (concat (map (fun c => fst c ++ [snd c]) comps)) (hours, 0)
  = (hours + duration_hours comps, 0).
Proof.
  intros Hcs. revert hours.
  induction Hcs as [|c comps Hc Hcs IH]; intros hours; simpl.
  - unfold duration_hours. simpl. f_equal. lia.
  - rewrite fold_left_app, duration_component by exact Hc.
    rewrite IH. unfold duration_hours. simpl. f_equal. lia.
Qed.

Lemma duration_text_hours (comps : list component) :
  Forall well_formed_component comps ->
  fold_left duration_step (duration_text comps) (0, 0) = (duration_hours comps, 0).
Proof.
  intros Hcs. unfold duration_text. rewrite fold_left_app.
  change (fold_left duration_step (py "PT") (0, 0)) with (0, 0).
  now rewrite duration_components.
Qed.

Lemma component_no_char (x : ascii) (c : component) :
  well_formed_component c -> isdigit x = false ->
  x <> "H"%char -> x <> "M"%char -> x <> "S"%char ->
  no_char x (fst c ++ [snd c]).
Proof.
  intros [Hnum Hunit] Hx HH HM HS. apply no_char_app.
  - unfold no_char. eapply Forall_impl; [|exact Hnum].
    intros a Ha ->. simpl in Ha. congruence.
  - constructor; [|constructor]. destruct Hunit as [-> | [-> | ->]]; congruence.
Qed.

Lemma duration_text_no_char (x : ascii) (comps : list component) :
  Forall well_formed_component comps -> isdigit x = false ->
  x <> "P"%char -> x <> "T"%char -> x <> "H"%char -> x <> "M"%char -> x <> "S"%char ->
  no_char x (duration_text comps).
Proof.
  intros Hcs Hx HP HT HH HM HS. unfold duration_text. apply no_char_app.
  - repeat constructor; congruence.
  - induction Hcs as [|c comps Hc Hcs IH]; simpl; [constructor|].
    apply no_char_app; [|exact IH]. now apply component_no_char.
Qed.

(** ** parse_interval *)

Section ParseInterval.
Variable parse : str -> result datetime.

Lemma parse_interval_split (interval sep date duration : str) :
  (if contains (py "/") interval then Some (py "/")
   else if contains (py "--") interval then Some (py "--") else None) = Some sep ->
  str_split sep interval = [date; duration] ->
  parse_interval parse interval
  = (d ← parse date; Ok (d, fst (fold_left duration_step duration (0, 0)))).
Proof.
  intros Hsep Hsplit. unfold parse_interval. rewrite Hsep, Hsplit.
  destruct (fold_left duration_step duration (0, 0)) as [hours integer]. reflexivity.
Qed.

Lemma parse_interval_separated (sep date : str) (comps : list component) :
  separated_by sep date -> Forall well_formed_component comps ->
  parse_interval parse (date ++ sep ++ duration_text comps)
  = (d ← parse date; Ok (d, duration_hours comps)).
Proof.
  intros Hsep Hcs.
  assert (Hslash : no_char "/" (duration_text comps))
    by (apply duration_text_no_char; [exact Hcs | reflexivity | discriminate ..]).
  assert (Hdash : no_char "-" (duration_text comps))
    by (apply duration_text_no_char; [exact Hcs | reflexivity | discriminate ..]).
  destruct Hsep as [[-> Hdate] | (-> & Hdate & Hdashes)].
  - rewrite (parse_interval_split _ (py "/") date (duration_text comps)).
    + now rewrite duration_text_hours.
    + change (py "/" ++ duration_text comps) with ("/"%char :: duration_text comps).
      now rewrite contains_slash_app.
    + unfold str_split.
      change (py "/" ++ duration_text comps) with ("/"%char :: duration_text comps).
      rewrite split_slash_first by now apply contains_slash_false.
      now rewrite split_slash_none.
  - rewrite (parse_interval_split _ (py "--") date (duration_text comps)).
    + now rewrite duration_text_hours.
    + replace (contains (py "/") (date ++ py "--" ++ duration_text comps)) with false.
      * now rewrite contains_dashes_app.
      * symmetry. apply contains_slash_false. apply no_char_app.
        -- now apply contains_slash_false.
        -- apply no_char_app; [|exact Hslash]. repeat constructor; discriminate.
    + unfold str_split. rewrite split_dashes_first by exact Hdashes.
      now rewrite split_dashes_none.
Qed.

Lemma parse_interval_instant (interval : str) :
  contains (py "/") interval = false -> contains (py "--") interval = false ->
  parse_interval parse interval = (d ← parse interval; Ok (d, 0)).
Proof. intros Hslash Hdashes. unfold parse_interval. now rewrite Hslash, Hdashes. Qed.

(** C5: for an interval whose start is followed by [/] or [--] and a
    duration [PT...], built of numerals each followed by [H], [M] or [S],
    [parse_interval] returns the parsed start with, as hours, the sum over
    the components of the [H] numbers, the [M] numbers floor-divided by 60
    and the [S] numbers floor-divided by 360, each number being the
    decimal value of its digits read left to right; so for [PTnHnMnS] it
    is [h + m // 60 + s // 360].  For an interval with neither separator
    the duration is 0. *)
Theorem parse_interval_duration :
  (forall (sep date : str) (comps : list component),
      separated_by sep date -> Forall well_formed_component comps ->
      parse_interval parse (date ++ sep ++ duration_text comps)
      = (d ← parse date; Ok (d, duration_hours comps)))
  /\ (forall (sep date h m s : str),
      separated_by sep date -> numeral h -> numeral m -> numeral s ->
      parse_interval parse
        (date ++ sep ++ py "PT" ++ h ++ py "H" ++ m ++ py "M" ++ s ++ py "S")
      = (d ← parse date; Ok (d, decimal h + decimal m / 60 + decimal s / 360)))
  /\ (forall interval : str,
      contains (py "/") interval = false -> contains (py "--") interval = false ->
      parse_interval parse interval = (d ← parse interval; Ok (d, 0))).
Proof.
  split; [|split].
  - apply parse_interval_separated.
  - intros sep date h m s Hsep Hh Hm Hs.
    replace (py "PT" ++ h ++ py "H" ++ m ++ py "M" ++ s ++ py "S")
      with (duration_text [(h, "H"%char); (m, "M"%char); (s, "S"%char)]).
    + rewrite parse_interval_separated; [|exact Hsep|].
      * destruct (parse date); simpl; [|reflexivity].
        do 2 f_equal. unfold duration_hours. simpl. unfold component_hours. simpl. lia.
      * unfold well_formed_component, unit_letter.
        repeat (apply Forall_cons; [cbn [fst snd]; auto|]). apply Forall_nil.
    + unfold duration_text. unfold_py. simpl. rewrite <- !app_assoc. reflexivity.
  - apply parse_interval_instant.
Qed.
End ParseInterval.

Lemma parse_interval_duration_example :
  parse_interval iso_parse (py "2022-02-04T02:00:00+00:00/PT4H")
  = Ok (mk_datetime 738190 2 0 0 0 (Some 0), 4)
  /\ parse_interval iso_parse (py "2022-02-04T02:00:00-08:00--PT1H150M7200S")
     = Ok (mk_datetime 738190 2 0 0 0 (Some (-28800)), 23)
  /\ parse_interval iso_parse (py "2022-02-04T02:00:00+00:00")
     = Ok (mk_datetime 738190 2 0 0 0 (Some 0), 0).
Proof.
  destruct (parse_interval_duration iso_parse) as (Hcomps & Hthree & Hnone).
  split; [|split].
  - apply (Hcomps (py "/") (py "2022-02-04T02:00:00+00:00") [(py "4", "H"%char)]).
    + left. split; reflexivity.
    + apply Forall_cons; [|apply Forall_nil].
      split; [repeat constructor | left; reflexivity].
  - apply (Hthree (py "--") (py "2022-02-04T02:00:00-08:00") (py "1") (py "150") (py "7200")).
    + right. repeat split; reflexivity.
    + repeat constructor.
    + repeat constructor.
    + repeat constructor.
  - apply (Hnone (py "2022-02-04T02:00:00+00:00")); reflexivity.
Defined.
End StringFacts.

(** ** datetime *)

Lemma replace_hms_ok (d : datetime) (h m s : Z) :
  0 <= h < 24 -> 0 <= m < 60 -> 0 <= s < 60 ->
  replace_hms d h m s = Ok (mk_datetime (dt_ordinal d) h m s (dt_microsecond d) (dt_tz d)).
Proof.
  intros Hh Hm Hs. unfold replace_hms.
  replace ((0 <=? h) && (h <? 24) && (0 <=? m) && (m <? 60) && (0 <=? s) && (s <? 60))
    with true; [reflexivity|].
  symmetry. repeat (apply andb_true_iff; split); lia.
Qed.

(** What [round_to_nearest_hour] does on each datetime: it raises in the
    last half hour of a day, and keeps the microsecond otherwise. *)
Lemma round_to_nearest_hour_cases (d : datetime) :
  valid_datetime d ->
  round_to_nearest_hour d =
  if 30 <=? dt_minute d
  then if dt_hour d =? 23 then Raise ValueError
       else Ok (mk_datetime (dt_ordinal d) (dt_hour d + 1) 0 0 (dt_microsecond d) (dt_tz d))
  else Ok (mk_datetime (dt_ordinal d) (dt_hour d) 0 0 (dt_microsecond d) (dt_tz d)).
Proof.
  intros (_ & Hh & _). unfold round_to_nearest_hour.
  destruct (30 <=? dt_minute d).
  - destruct (dt_hour d =? 23) eqn:E.
    + apply Z.eqb_eq in E. rewrite E. reflexivity.
    + apply Z.eqb_neq in E. apply replace_hms_ok; lia.
  - apply replace_hms_ok; lia.
Qed.

Lemma round_to_nearest_hour_valid (d T : datetime) :
  valid_datetime d -> round_to_nearest_hour d = Ok T ->
  valid_datetime T /\ dt_minute T = 0 /\ dt_second T = 0.
Proof.
  intros Hd. rewrite (round_to_nearest_hour_cases d Hd).
  destruct Hd as (Ho & Hh & Hm & Hs & Hu).
  destruct (30 <=? dt_minute d); [destruct (dt_hour d =? 23) eqn:E|];
    intros HT; inversion HT; subst; clear HT; unfold valid_datetime; simpl;
    try apply Z.eqb_neq in E; repeat split; lia.
Qed.

(** C2: [round_to_nearest_hour] on 2022-02-04 23:30:00 UTC raises
    [ValueError] in place of returning 2022-02-05 00:00:00, and on
    2022-02-04 02:10:00.500000 UTC it returns 02:00:00.500000, whose
    microsecond is not zero. *)
Theorem round_to_nearest_hour_failing_inputs :
  round_to_nearest_hour (mk_datetime (ymd2ord 2022 2 4) 23 30 0 0 (Some 0))
  = Raise ValueError
  /\ round_to_nearest_hour (mk_datetime (ymd2ord 2022 2 4) 2 10 0 500000 (Some 0))
     = Ok (mk_datetime (ymd2ord 2022 2 4) 2 0 0 500000 (Some 0)).
Proof. split; reflexivity. Qed.

Lemma shift_hours_instant (d : datetime) (h : Z) :
  instant (shift_hours d h) = instant d + h * 3600000000.
Proof.
  unfold instant, shift_hours. cbn [dt_ordinal dt_hour dt_minute dt_second dt_microsecond dt_tz].
  set (secs := dt_hour d * 3600 + dt_minute d * 60 + dt_second d + h * 3600).
  pose proof (Z.div_mod secs 86400 ltac:(lia)) as Hday.
  pose proof (Z.div_mod (secs mod 86400) 3600 ltac:(lia)) as Hhour.
  pose proof (Z.div_mod ((secs mod 86400) mod 3600) 60 ltac:(lia)) as Hmin.
  rewrite (Z.mod_mod_divide (secs mod 86400) 3600 60) in Hmin by (exists 60; lia).
  subst secs. lia.
Qed.

Lemma shift_hours_tz (d : datetime) (h : Z) : dt_tz (shift_hours d h) = dt_tz d.
Proof. reflexivity. Qed.

Lemma shift_hours_distinct (d : datetime) (h h' : Z) :
  h <> h' -> datetime_eqb (shift_hours d h) (shift_hours d h') = false.
Proof.
  intros Hne. unfold datetime_eqb. rewrite !shift_hours_tz, !shift_hours_instant.
  destruct (dt_tz d); apply Z.eqb_neq; lia.
Qed.

Lemma datetime_eqb_sym (a b : datetime) : datetime_eqb a b = datetime_eqb b a.
Proof. unfold datetime_eqb. rewrite Z.eqb_sym. destruct (dt_tz a), (dt_tz b); reflexivity. Qed.

Lemma datetime_eqb_trans (a b c : datetime) :
  datetime_eqb a b = true -> datetime_eqb b c = true -> datetime_eqb a c = true.
Proof.
  unfold datetime_eqb.
  destruct (dt_tz a), (dt_tz b), (dt_tz c); try discriminate;
    rewrite !Z.eqb_eq; congruence.
Qed.

Lemma add_hours_in_calendar (d : datetime) (h n : Z) :
  valid_datetime d -> 0 <= h <= n -> dt_ordinal (shift_hours d n) <= MAXORDINAL ->
  add_hours d h = Ok (shift_hours d h).
Proof.
  intros (Ho & Hh & Hm & Hs & _) Hhn Hmax. unfold add_hours.
  replace ((0 <? dt_ordinal (shift_hours d h)) && (dt_ordinal (shift_hours d h) <=? MAXORDINAL))
    with true; [reflexivity|].
  symmetry. unfold shift_hours in *. cbn [dt_ordinal] in *.
  set (base := dt_hour d * 3600 + dt_minute d * 60 + dt_second d) in *.
  assert (0 <= (base + h * 3600) / 86400) by (apply Z.div_pos; lia).
  assert ((base + h * 3600) / 86400 <= (base + n * 3600) / 86400)
    by (apply Z.div_le_mono; lia).
  apply andb_true_iff. split; lia.
Qed.

(** ** The dictionary of rows *)

Section DefaultdictFacts.
Context {K V : Type} (key_eqb : K -> K -> bool) (default_row : list V).
Hypothesis key_eqb_sym : forall a b, key_eqb a b = key_eqb b a.
Hypothesis key_eqb_trans :
  forall a b c, key_eqb a b = true -> key_eqb b c = true -> key_eqb a c = true.

Lemma key_eqb_false_l (a b c : K) :
  key_eqb a b = true -> key_eqb a c = false -> key_eqb b c = false.
Proof.
  intros Hab Hac. destruct (key_eqb b c) eqn:Hbc; [|reflexivity].
  rewrite (key_eqb_trans a b c Hab Hbc) in Hac. discriminate.
Qed.

Lemma dd_lookup_equiv (a b : K) (m : list (K * list V)) :
  key_eqb a b = true -> dd_lookup key_eqb a m = dd_lookup key_eqb b m.
Proof.
  intros Hab. induction m as [|[k row] m IH]; simpl; [reflexivity|].
  destruct (key_eqb k a) eqn:Hka.
  - now rewrite (key_eqb_trans k a b Hka Hab).
  - rewrite key_eqb_sym in Hka.
    rewrite (key_eqb_sym k b), (key_eqb_false_l a b k Hab Hka). exact IH.
Qed.

Lemma dd_row_equiv (a b : K) (m : list (K * list V)) :
  key_eqb a b = true -> dd_row key_eqb default_row a m = dd_row key_eqb default_row b m.
Proof. intros Hab. unfold dd_row. now rewrite (dd_lookup_equiv a b m Hab). Qed.

Lemma list_setitem_ok (row : list V) (idx : nat) (v : V) :
  (idx < length row)%nat -> list_setitem row idx v = Ok (<[idx := v]> row).
Proof. intros Hlt. unfold list_setitem. apply Nat.ltb_lt in Hlt. now rewrite Hlt. Qed.

(** [m[key][idx] = v] succeeds on rows that are wide enough; afterwards
    the keys equal to [key] read the updated row and all others read
    what they read before. *)
Lemma dd_set_cell_spec (n : nat) (key : K) (idx : nat) (v : V) (m : list (K * list V)) :
  rows_width n m -> length default_row = n -> (idx < n)%nat ->
  exists m',
    dd_set_cell key_eqb default_row key idx v m = Ok m'
    /\ rows_width n m'
    /\ forall k, dd_lookup key_eqb k m'
                 = if key_eqb key k
                   then Some (<[idx := v]> (dd_row key_eqb default_row key m))
                   else dd_lookup key_eqb k m.
Proof.
  intros Hm Hdef Hidx. induction Hm as [|[k0 row] m Hrow Hm IH].
  - simpl. rewrite list_setitem_ok by lia. simpl. eexists. split; [reflexivity|]. split.
    + constructor; [|constructor]. simpl. now rewrite length_insert.
    + intros k. simpl. reflexivity.
  - simpl in Hrow. simpl. destruct (key_eqb k0 key) eqn:Hk0.
    + rewrite list_setitem_ok by lia. simpl. eexists. split; [reflexivity|]. split.
      * constructor; [|exact Hm]. simpl. now rewrite length_insert.
      * intros k. simpl. unfold dd_row. simpl. rewrite Hk0. simpl.
        destruct (key_eqb key k) eqn:Hkk.
        -- now rewrite (key_eqb_trans k0 key k Hk0 Hkk).
        -- assert (Hk : key_eqb k0 k = false).
           { apply (key_eqb_false_l key k0 k); [|exact Hkk]. now rewrite key_eqb_sym. }
           now rewrite Hk.
    + destruct IH as (m'' & Hset & Hwidth & Hlook). rewrite Hset. simpl.
      eexists. split; [reflexivity|]. split.
      * constructor; [exact Hrow | exact Hwidth].
      * intros k. simpl. rewrite Hlook. unfold dd_row. simpl. rewrite Hk0.
        destruct (key_eqb key k) eqn:Hkk; [|reflexivity].
        replace (key_eqb k0 k) with false; [reflexivity|].
        symmetry. destruct (key_eqb k0 k) eqn:Hk; [|reflexivity].
        rewrite key_eqb_sym in Hkk.
        rewrite (key_eqb_trans k0 k key Hk Hkk) in Hk0. discriminate.
Qed.
End DefaultdictFacts.

(** ** Hourly expansion *)

Section Expansion.
Context {F : Type} `{Float64 F}.

Abbreviation lookup_row := (dd_lookup datetime_eqb).
Abbreviation row_of := (dd_row datetime_eqb nws_default_row).

Lemma nws_default_row_length : length (nws_default_row (F := F)) = length labels.
Proof. unfold nws_default_row. apply List.length_map. Qed.

(** The loop over the hours of a duration [n]: every hour writes the value
    into its own row. *)
Lemma expand_hours_spec (idx : nat) (T : datetime) (v : F) (m : nws_rows) (n : nat) :
  valid_datetime T ->
  dt_ordinal (shift_hours T (Z.of_nat n - 1)) <= MAXORDINAL ->
  (idx < length labels)%nat -> rows_width (length labels) m ->
  exists m',
    expand_hours idx T (Z.of_nat n) v m = Ok m'
    /\ rows_width (length labels) m'
    /\ forall k, lookup_row k m'
                 = if existsb (fun h => datetime_eqb (shift_hours T h) k) (range 0 (Z.of_nat n))
                   then Some (<[idx := v]> (row_of k m))
                   else lookup_row k m.
Proof.
  intros HT Hmax Hidx Hm. induction n as [|n IH].
  - exists m. repeat split; auto.
  - destruct IH as (m1 & Hrun & Hwidth & Hlook).
    { pose proof (add_hours_in_calendar T (Z.of_nat n - 1 + 1) (Z.of_nat (S n) - 1) HT) as Hin.
      destruct (Z.eq_dec (Z.of_nat n) 0) as [Hz|Hz].
      - rewrite Hz. destruct HT as (Ho & Hh & Hm' & Hs & _).
        unfold shift_hours. cbn [dt_ordinal].
        assert ((dt_hour T * 3600 + dt_minute T * 60 + dt_second T + (0 - 1) * 3600) / 86400 <= 0);
          [|lia].
        apply Z.lt_succ_r. apply Z.div_lt_upper_bound; lia.
      - specialize (Hin ltac:(lia) Hmax). unfold add_hours in Hin.
        replace (Z.of_nat n - 1 + 1) with (Z.of_nat n) in Hin by lia.
        destruct ((0 <? dt_ordinal (shift_hours T (Z.of_nat n)))
                  && (dt_ordinal (shift_hours T (Z.of_nat n)) <=? MAXORDINAL)) eqn:E;
          [|discriminate].
        apply andb_true_iff in E as [_ E]. apply Z.leb_le in E.
        pose proof (add_hours_in_calendar T (Z.of_nat n - 1) (Z.of_nat n) HT ltac:(lia) E) as H1.
        unfold add_hours in H1.
        destruct ((0 <? dt_ordinal (shift_hours T (Z.of_nat n - 1)))
                  && (dt_ordinal (shift_hours T (Z.of_nat n - 1)) <=? MAXORDINAL)) eqn:E1;
          [|discriminate].
        apply andb_true_iff in E1 as [_ E1]. now apply Z.leb_le in E1. }
    unfold expand_hours in *.
    replace (Z.of_nat (S n)) with (Z.of_nat n + 1) by lia.
    rewrite range_snoc, for_fold_app, Hrun by lia. simpl.
    rewrite (add_hours_in_calendar T (Z.of_nat n) (Z.of_nat (S n) - 1) HT) by (auto; lia).
    simpl.
    destruct (dd_set_cell_spec datetime_eqb nws_default_row datetime_eqb_sym datetime_eqb_trans
                (length labels) (shift_hours T (Z.of_nat n)) idx v m1 Hwidth
                nws_default_row_length Hidx) as (m2 & Hset & Hwidth2 & Hlook2).
    rewrite Hset. simpl. exists m2. repeat split; auto.
    intros k. rewrite Hlook2, existsb_app. simpl. rewrite orb_false_r.
    destruct (datetime_eqb (shift_hours T (Z.of_nat n)) k) eqn:Hk.
    + rewrite orb_true_r. do 2 f_equal.
      rewrite <- (dd_row_equiv datetime_eqb nws_default_row datetime_eqb_sym datetime_eqb_trans
                    _ _ m Hk).
      unfold dd_row. rewrite Hlook.
      replace (existsb (fun h => datetime_eqb (shift_hours T h) (shift_hours T (Z.of_nat n)))
                 (range 0 (Z.of_nat n))) with false; [reflexivity|].
      symmetry. apply not_true_is_false. intros Hex.
      apply existsb_exists in Hex as (h & Hh & Heq). apply in_range in Hh.
      rewrite shift_hours_distinct in Heq by lia. discriminate.
    + rewrite orb_false_r. apply Hlook.
Qed.

(** C1, as amended: a sample whose interval parses to a start [time] and
    [D] hours, with [T] the rounded start and the hours [T], ..., [T +
    (D-1)h] within the calendar, is expanded successfully; afterwards the
    rows at the [D] times [T + h] hours, [0 <= h < D], hold the sample's
    value in the label's cell (the other cells as before, NaN in a new
    row) and every other row of the dictionary is as it was.  The [D]
    times are [h] hours after [T] and pairwise different, and a duration
    of 0 leaves the dictionary unchanged. *)
Theorem expand_emits_one_reading_per_hour (parse : str -> result datetime)
  (idx : nat) (s : nws_sample) (m : nws_rows) (time T : datetime) (D : Z) :
  parse_interval parse (validTime s) = Ok (time, D) ->
  valid_datetime time ->
  round_to_nearest_hour time = Ok T ->
  dt_ordinal (shift_hours T (D - 1)) <= MAXORDINAL ->
  (idx < length labels)%nat -> rows_width (length labels) m ->
  exists m',
    nws_sample_step parse idx s m = Ok m'
    /\ (forall k, lookup_row k m'
                  = if existsb (fun h => datetime_eqb (shift_hours T h) k) (range 0 D)
                    then Some (<[idx := value s]> (row_of k m))
                    else lookup_row k m)
    /\ length (range 0 D) = Z.to_nat D
    /\ (forall h, instant (shift_hours T h) = instant T + h * 3600000000
                  /\ dt_tz (shift_hours T h) = dt_tz T)
    /\ (forall h h', h <> h' -> datetime_eqb (shift_hours T h) (shift_hours T h') = false)
    /\ (D <= 0 -> m' = m).
Proof.
  intros Hparse Htime Hround Hmax Hidx Hm.
  destruct (round_to_nearest_hour_valid time T Htime Hround) as (HT & _).
  unfold nws_sample_step. rewrite Hparse. simpl. rewrite Hround. simpl.
  destruct (Z.le_gt_cases D 0) as [Hle|Hgt].
  - exists m. unfold expand_hours. rewrite (range_nil 0 D Hle). simpl.
    repeat split; auto using shift_hours_instant, shift_hours_distinct.
    lia.
  - destruct (expand_hours_spec idx T (value s) m (Z.to_nat D) HT) as (m' & Hrun & _ & Hlook);
      try assumption.
    { now rewrite Z2Nat.id by lia. }
    rewrite Z2Nat.id in Hrun, Hlook by lia.
    exists m'. repeat split; auto using shift_hours_instant, shift_hours_distinct, range_length.
    lia.
Qed.
End Expansion.

Lemma expand_emits_one_reading_per_hour_example :
  exists m',
    nws_sample_step iso_parse 2 (mk_nws_sample (py "2022-02-04T02:00:00+00:00/PT4H") 5%float) []
    = Ok m'
    /\ (forall k, dd_lookup datetime_eqb k m'
                  = if existsb (fun h => datetime_eqb
                                           (shift_hours (mk_datetime 738190 2 0 0 0 (Some 0)) h) k)
                         (range 0 4)
                    then Some (<[2%nat := 5%float]> (dd_row datetime_eqb nws_default_row k []))
                    else dd_lookup datetime_eqb k [])
    /\ length (range 0 4) = Z.to_nat 4
    /\ (forall h, instant (shift_hours (mk_datetime 738190 2 0 0 0 (Some 0)) h)
                  = instant (mk_datetime 738190 2 0 0 0 (Some 0)) + h * 3600000000
                  /\ dt_tz (shift_hours (mk_datetime 738190 2 0 0 0 (Some 0)) h)
                     = dt_tz (mk_datetime 738190 2 0 0 0 (Some 0)))
    /\ (forall h h', h <> h' ->
                     datetime_eqb (shift_hours (mk_datetime 738190 2 0 0 0 (Some 0)) h)
                       (shift_hours (mk_datetime 738190 2 0 0 0 (Some 0)) h') = false)
    /\ (4 <= 0 -> m' = []).
Proof.
  apply (expand_emits_one_reading_per_hour iso_parse 2
           (mk_nws_sample (py "2022-02-04T02:00:00+00:00/PT4H") 5%float) []
           (mk_datetime 738190 2 0 0 0 (Some 0)) (mk_datetime 738190 2 0 0 0 (Some 0)) 4).
  - reflexivity.
  - unfold valid_datetime, MAXORDINAL. simpl. lia.
  - reflexivity.
  - apply Z.leb_le. reflexivity.
  - simpl. lia.
  - constructor.
Defined.

(** The interval of the specification's example becomes four rows, at
    02:00, 03:00, 04:00 and 05:00, with value 5 in the cell of the label. *)
Lemma expand_four_hours_example :
  nws_sample_step iso_parse 2 (mk_nws_sample (py "2022-02-04T02:00:00+00:00/PT4H") 5%float) []
  = Ok [(mk_datetime 738190 2 0 0 0 (Some 0), [nan; nan; 5; nan; nan]%float);
        (mk_datetime 738190 3 0 0 0 (Some 0), [nan; nan; 5; nan; nan]%float);
        (mk_datetime 738190 4 0 0 0 (Some 0), [nan; nan; 5; nan; nan]%float);
        (mk_datetime 738190 5 0 0 0 (Some 0), [nan; nan; 5; nan; nan]%float)].
Proof. vm_compute. reflexivity. Qed.

(** C1, the counterexample: a sample whose [validTime] has no duration
    parses to duration 0, and its expansion writes nothing: no row exists
    at its time afterwards. *)
Lemma expand_zero_duration_emits_nothing :
  parse_interval iso_parse (py "2022-02-04T02:00:00+00:00")
  = Ok (mk_datetime 738190 2 0 0 0 (Some 0), 0)
  /\ round_to_nearest_hour (mk_datetime 738190 2 0 0 0 (Some 0))
     = Ok (mk_datetime 738190 2 0 0 0 (Some 0))
  /\ nws_sample_step iso_parse 2 (mk_nws_sample (py "2022-02-04T02:00:00+00:00") 5%float) []
     = Ok []
  /\ ~ (exists m' row,
           nws_sample_step iso_parse 2
             (mk_nws_sample (py "2022-02-04T02:00:00+00:00") 5%float) [] = Ok m'
           /\ dd_lookup datetime_eqb (mk_datetime 738190 2 0 0 0 (Some 0)) m' = Some row).
Proof.
  repeat split; try reflexivity.
  intros (m' & row & Hstep & Hrow).
  vm_compute in Hstep. inversion Hstep; subst. discriminate Hrow.
Qed.

(** ** Merging the two feeds *)

Lemma datetime_eqb_refl (a : datetime) : datetime_eqb a a = true.
Proof. unfold datetime_eqb. rewrite Z.eqb_refl. destruct (dt_tz a); reflexivity. Qed.

Section Merge.
Context {F : Type} `{Float64 F}.

Abbreviation historical_lookup := (dd_lookup datetime_eqb).
Abbreviation historical_row := (dd_row datetime_eqb historical_default).

Lemma historical_default_length : length (historical_default (F := F)) = length features.
Proof. unfold historical_default. apply List.length_map. Qed.

Lemma list_index_bound (name : string) (l : list string) (i : nat) :
  list_index name l = Ok i -> (i < length l)%nat.
Proof.
  revert i. induction l as [|x l IH]; intros i; simpl; [discriminate|].
  destruct (String.eqb x name).
  - intros Hi. inversion Hi. lia.
  - destruct (list_index name l) as [j|e]; simpl; [|discriminate].
    intros Hi. inversion Hi. specialize (IH j eq_refl). lia.
Qed.

(** [historical[time][features.index(name)] = v] for a feature [name]. *)
Lemma set_feature_spec (time : datetime) (name : string) (v : F) (i : nat)
  (historical : historical_rows) :
  list_index name features = Ok i -> rows_width (length features) historical ->
  exists historical',
    set_feature time name v historical = Ok historical'
    /\ rows_width (length features) historical'
    /\ forall k, historical_lookup k historical'
                 = if datetime_eqb time k
                   then Some (<[i := v]> (historical_row time historical))
                   else historical_lookup k historical.
Proof.
  intros Hi Hwidth. unfold set_feature. rewrite Hi. simpl.
  apply (dd_set_cell_spec datetime_eqb historical_default datetime_eqb_sym datetime_eqb_trans
           (length features)); auto using historical_default_length.
  exact (list_index_bound _ _ _ Hi).
Qed.

Lemma historical_row_after (time : datetime) (row : list F) (h h' : historical_rows) :
  (forall k, historical_lookup k h'
             = if datetime_eqb time k then Some row else historical_lookup k h) ->
  historical_row time h' = row.
Proof. intros Hlook. unfold dd_row. now rewrite Hlook, datetime_eqb_refl. Qed.

Lemma buoy_step_spec (s : buoy_sample) (historical : historical_rows) :
  rows_width (length features) historical ->
  exists historical',
    buoy_step s historical = Ok historical'
    /\ rows_width (length features) historical'
    /\ forall k, historical_lookup k historical'
                 = if datetime_eqb (buoy_TmStamp s) k
                   then Some (<[6%nat := mean2 (WindDir_1 s) (WindDir_2 s)]>
                               (<[5%nat := mean2 (WindSpeed_1 s) (WindSpeed_2 s)]>
                                 (<[1%nat := mean2 (AirTemp_1 s) (AirTemp_2 s)]>
                                   (historical_row (buoy_TmStamp s) historical))))
                   else historical_lookup k historical.
Proof.
  intros Hw. unfold buoy_step.
  destruct (set_feature_spec (buoy_TmStamp s) "air temp"
              (mean2 (AirTemp_1 s) (AirTemp_2 s)) 1 historical eq_refl Hw)
    as (h1 & -> & Hw1 & Hl1).
  destruct (set_feature_spec (buoy_TmStamp s) "wind speed"
              (mean2 (WindSpeed_1 s) (WindSpeed_2 s)) 5 h1 eq_refl Hw1)
    as (h2 & Hs2 & Hw2 & Hl2).
  destruct (set_feature_spec (buoy_TmStamp s) "wind direction"
              (mean2 (WindDir_1 s) (WindDir_2 s)) 6 h2 eq_refl Hw2)
    as (h3 & Hs3 & Hw3 & Hl3).
  simpl. rewrite Hs2. simpl. rewrite Hs3. exists h3. repeat split; auto.
  intros k. rewrite Hl3. destruct (datetime_eqb (buoy_TmStamp s) k) eqn:Hk.
  - rewrite (historical_row_after _ _ h1 h2 Hl2), (historical_row_after _ _ historical h1 Hl1).
    reflexivity.
  - now rewrite Hl2, Hk, Hl1, Hk.
Qed.

Lemma uscg_step_spec (s : uscg_sample) (historical : historical_rows) :
  rows_width (length features) historical ->
  exists historical',
    uscg_step s historical = Ok historical'
    /\ rows_width (length features) historical'
    /\ forall k, historical_lookup k historical'
                 = if datetime_eqb (uscg_TmStamp s) k
                   then Some (<[4%nat := LongWaveInCorr_wm2 s]>
                               (<[3%nat := f_div (RH_percent s) (f_of_Z 100)]>
                                 (<[2%nat := f_mul (BP_mbar s) (f_of_Z 100)]>
                                   (<[0%nat := f_sub (ShortWaveIn_wm2 s) (ShortWaveOut_wm2 s)]>
                                     (historical_row (uscg_TmStamp s) historical)))))
                   else historical_lookup k historical.
Proof.
  intros Hw. unfold uscg_step.
  destruct (set_feature_spec (uscg_TmStamp s) "shortwave"
              (f_sub (ShortWaveIn_wm2 s) (ShortWaveOut_wm2 s)) 0 historical eq_refl Hw)
    as (h1 & -> & Hw1 & Hl1).
  destruct (set_feature_spec (uscg_TmStamp s) "atmospheric pressure"
              (f_mul (BP_mbar s) (f_of_Z 100)) 2 h1 eq_refl Hw1)
    as (h2 & Hs2 & Hw2 & Hl2).
  destruct (set_feature_spec (uscg_TmStamp s) "relative humidity"
              (f_div (RH_percent s) (f_of_Z 100)) 3 h2 eq_refl Hw2)
    as (h3 & Hs3 & Hw3 & Hl3).
  destruct (set_feature_spec (uscg_TmStamp s) "longwave"
              (LongWaveInCorr_wm2 s) 4 h3 eq_refl Hw3)
    as (h4 & Hs4 & Hw4 & Hl4).
  simpl. rewrite Hs2. simpl. rewrite Hs3. simpl. rewrite Hs4.
  exists h4. repeat split; auto.
  intros k. rewrite Hl4. destruct (datetime_eqb (uscg_TmStamp s) k) eqn:Hk.
  - rewrite (historical_row_after _ _ h2 h3 Hl3), (historical_row_after _ _ h1 h2 Hl2),
      (historical_row_after _ _ historical h1 Hl1).
    reflexivity.
  - now rewrite Hl3, Hk, Hl2, Hk, Hl1, Hk.
Qed.

(** The buoy loop always completes. *)
Lemma buoy_loop_ok (samples : list buoy_sample) (historical : historical_rows) :
  rows_width (length features) historical ->
  exists historical',
    for_fold buoy_step samples historical = Ok historical'
    /\ rows_width (length features) historical'.
Proof.
  revert historical. induction samples as [|s samples IH]; intros historical Hw; simpl.
  - now exists historical.
  - destruct (buoy_step_spec s historical Hw) as (h1 & -> & Hw1 & _). simpl. now apply IH.
Qed.

(** Later buoy samples at other times leave a row as it is. *)
Lemma buoy_loop_other_times (k : datetime) (samples : list buoy_sample)
  (historical : historical_rows) :
  rows_width (length features) historical ->
  Forall (fun s' => datetime_eqb (buoy_TmStamp s') k = false) samples ->
  exists historical',
    for_fold buoy_step samples historical = Ok historical'
    /\ rows_width (length features) historical'
    /\ historical_lookup k historical' = historical_lookup k historical.
Proof.
  intros Hw Hother. revert historical Hw.
  induction Hother as [|s samples Hs Hother IH]; intros historical Hw; simpl.
  - now exists historical.
  - destruct (buoy_step_spec s historical Hw) as (h1 & -> & Hw1 & Hl1). simpl.
    destruct (IH h1 Hw1) as (h2 & Hrun & Hw2 & Hl2).
    exists h2. repeat split; auto. now rewrite Hl2, Hl1, Hs.
Qed.

(** The coast-guard loop writes the cells 0, 2, 3 and 4 only. *)
Lemma uscg_loop_keeps_cell (k : datetime) (j : nat) (x : F) (samples : list uscg_sample)
  (historical : historical_rows) :
  j <> 0%nat -> j <> 2%nat -> j <> 3%nat -> j <> 4%nat ->
  rows_width (length features) historical ->
  (exists row, historical_lookup k historical = Some row /\ row !! j = Some x) ->
  exists historical' row,
    for_fold uscg_step samples historical = Ok historical'
    /\ historical_lookup k historical' = Some row /\ row !! j = Some x.
Proof.
  intros H0 H2 H3 H4. revert historical.
  induction samples as [|s samples IH]; intros historical Hw (row & Hrow & Hj); simpl.
  - now exists historical, row.
  - destruct (uscg_step_spec s historical Hw) as (h1 & -> & Hw1 & Hl1). simpl.
    apply (IH h1 Hw1). rewrite Hl1.
    destruct (datetime_eqb (uscg_TmStamp s) k) eqn:Hk.
    + eexists. split; [reflexivity|].
      rewrite !list_lookup_insert_ne by auto.
      rewrite (dd_row_equiv datetime_eqb historical_default datetime_eqb_sym datetime_eqb_trans
                 _ _ historical Hk).
      unfold dd_row. now rewrite Hrow.
    + now exists row.
Qed.

(** C8: when the buoy gives two readings of air temperature, wind speed
    and wind direction in a sample (the last one of its timestamp), the
    row of the merged dictionary at that timestamp holds, in the cell of
    each of the three features, [(first + second) / 2]; whatever the
    coast-guard feed is. *)
Theorem redundant_sensors_are_averaged (pre post : list buoy_sample) (s : buoy_sample)
  (uscg_json : list uscg_sample) :
  Forall (fun s' => datetime_eqb (buoy_TmStamp s') (buoy_TmStamp s) = false) post ->
  exists historical row,
    merge_samples (pre ++ s :: post) uscg_json = Ok historical
    /\ historical_lookup (buoy_TmStamp s) historical = Some row
    /\ forall name v,
        In (name, v) [("air temp"%string, mean2 (AirTemp_1 s) (AirTemp_2 s));
                      ("wind speed"%string, mean2 (WindSpeed_1 s) (WindSpeed_2 s));
                      ("wind direction"%string, mean2 (WindDir_1 s) (WindDir_2 s))] ->
        exists i, list_index name features = Ok i /\ row !! i = Some v.
Proof.
  intros Hpost. unfold merge_samples.
  destruct (buoy_loop_ok pre []) as (h0 & Hpre & Hw0); [constructor|].
  rewrite for_fold_app, Hpre. simpl.
  destruct (buoy_step_spec s h0 Hw0) as (h1 & -> & Hw1 & Hl1). simpl.
  destruct (buoy_loop_other_times (buoy_TmStamp s) post h1 Hw1 Hpost) as (h2 & -> & Hw2 & Hl2).
  simpl. rewrite Hl1, datetime_eqb_refl in Hl2.
  assert (Hlen : length (historical_row (buoy_TmStamp s) h0) = length features).
  { unfold dd_row. destruct (historical_lookup (buoy_TmStamp s) h0) as [row|] eqn:Hrow; simpl.
    - clear - Hrow Hw0. induction Hw0 as [|[k0 r] h0 Hr Hw0 IH]; simpl in *; [discriminate|].
      destruct (datetime_eqb k0 (buoy_TmStamp s)); [now inversion Hrow; subst | auto].
    - apply historical_default_length. }
  assert (Hcell : forall j x,
             <[6%nat := mean2 (WindDir_1 s) (WindDir_2 s)]>
               (<[5%nat := mean2 (WindSpeed_1 s) (WindSpeed_2 s)]>
                 (<[1%nat := mean2 (AirTemp_1 s) (AirTemp_2 s)]>
                   (historical_row (buoy_TmStamp s) h0))) !! j = Some x ->
             j <> 0%nat -> j <> 2%nat -> j <> 3%nat -> j <> 4%nat ->
             exists historical row,
               for_fold uscg_step uscg_json h2 = Ok historical
               /\ historical_lookup (buoy_TmStamp s) historical = Some row
               /\ row !! j = Some x).
  { intros j x Hj H0 H2 H3 H4.
    apply (uscg_loop_keeps_cell (buoy_TmStamp s) j x uscg_json h2 H0 H2 H3 H4 Hw2).
    eexists. split; [exact Hl2 | exact Hj]. }
  destruct (uscg_loop_keeps_cell (buoy_TmStamp s) 1 (mean2 (AirTemp_1 s) (AirTemp_2 s))
              uscg_json h2 ltac:(lia) ltac:(lia) ltac:(lia) ltac:(lia) Hw2)
    as (h3 & row & Hrun & Hrow & _).
  { eexists. split; [exact Hl2|].
    rewrite !list_lookup_insert_ne by lia. apply list_lookup_insert_eq.
    rewrite Hlen. simpl. lia. }
  exists h3, row. split; [exact Hrun|]. split; [exact Hrow|].
  intros name v Hin.
  assert (Hat : forall j x,
             <[6%nat := mean2 (WindDir_1 s) (WindDir_2 s)]>
               (<[5%nat := mean2 (WindSpeed_1 s) (WindSpeed_2 s)]>
                 (<[1%nat := mean2 (AirTemp_1 s) (AirTemp_2 s)]>
                   (historical_row (buoy_TmStamp s) h0))) !! j = Some x ->
             j <> 0%nat -> j <> 2%nat -> j <> 3%nat -> j <> 4%nat -> row !! j = Some x).
  { intros j x Hj H0 H2 H3 H4.
    destruct (Hcell j x Hj H0 H2 H3 H4) as (h3' & row' & Hrun' & Hrow' & Hx).
    rewrite Hrun in Hrun'. inversion Hrun'; subst h3'.
    rewrite Hrow in Hrow'. now inversion Hrow'; subst row'. }
  simpl in Hin. destruct Hin as [Hin | [Hin | [Hin | []]]]; inversion Hin; subst name v.
  - exists 1%nat. split; [reflexivity|]. apply Hat; try lia.
    rewrite !list_lookup_insert_ne by lia. apply list_lookup_insert_eq.
    rewrite Hlen. simpl. lia.
  - exists 5%nat. split; [reflexivity|]. apply Hat; try lia.
    rewrite list_lookup_insert_ne by lia. apply list_lookup_insert_eq.
    rewrite length_insert, Hlen. simpl. lia.
  - exists 6%nat. split; [reflexivity|]. apply Hat; try lia.
    apply list_lookup_insert_eq. rewrite !length_insert, Hlen. simpl. lia.
Qed.
End Merge.

(** Readings 10 and 20 of the two thermometers (and anemometers) are
    stored as exactly 15, in binary64. *)
Lemma redundant_sensors_are_averaged_example :
  exists historical row,
    merge_samples
      ([] ++ [mk_buoy_sample (mk_datetime 738190 0 0 0 0 (Some 0))
                 10%float 20%float 350%float 10%float 10%float 20%float])
      []
    = Ok historical
    /\ dd_lookup datetime_eqb (mk_datetime 738190 0 0 0 0 (Some 0)) historical = Some row
    /\ forall name v,
        In (name, v) [("air temp"%string, 15%float);
                      ("wind speed"%string, 15%float);
                      ("wind direction"%string, 180%float)] ->
        exists i, list_index name features = Ok i /\ row !! i = Some v.
Proof.
  exact (redundant_sensors_are_averaged [] []
           (mk_buoy_sample (mk_datetime 738190 0 0 0 0 (Some 0))
              10%float 20%float 350%float 10%float 10%float 20%float)
           [] (Forall_nil _)).
Defined.

(** ** Trimming the rows that hold a NaN *)

Lemma keep_by_map {A B : Type} (f : A -> B) (keep : list bool) (xs : list A) :
  keep_by keep (map f xs) = map f (keep_by keep xs).
Proof.
  revert xs. induction keep as [|k keep IH]; intros [|x xs]; simpl; try reflexivity.
  destruct k; simpl; now rewrite IH.
Qed.

(** Two lists of one length keep the same number of entries. *)
Lemma keep_by_length {A B : Type} (keep : list bool) (xs : list A) (ys : list B) :
  length xs = length ys -> length (keep_by keep xs) = length (keep_by keep ys).
Proof.
  revert xs ys. induction keep as [|k keep IH]; intros [|x xs] [|y ys] Hlen; simpl in *;
    try reflexivity; try discriminate.
  destruct k; simpl; auto.
Qed.

Lemma keep_by_Forall {A : Type} (P : A -> Prop) (keep : list bool) (xs : list A) :
  Forall2 (fun k x => k = true -> P x) keep xs -> Forall P (keep_by keep xs).
Proof.
  induction 1 as [|k x keep xs Hk Hrest IH]; simpl; [constructor|].
  destruct k; auto.
Qed.

Lemma existsb_map {A B : Type} (f : A -> B) (p : B -> bool) (l : list A) :
  existsb p (map f l) = existsb (fun x => p (f x)) l.
Proof. induction l as [|x l IH]; simpl; [reflexivity | now rewrite IH]. Qed.

Lemma existsb_ext {A : Type} (p q : A -> bool) (l : list A) :
  (forall x, p x = q x) -> existsb p l = existsb q l.
Proof. intros Hpq. induction l as [|x l IH]; simpl; [reflexivity | now rewrite Hpq, IH]. Qed.

Lemma flagged_from_cons (start : nat) (b : bool) (flags : list bool) :
  flagged_from start (b :: flags)
  = (if b then [Z.of_nat start] else []) ++ flagged_from (S start) flags.
Proof. unfold flagged_from. simpl. destruct b; reflexivity. Qed.

Lemma flagged_from_range (start : nat) (flags : list bool) (l : Z) :
  In l (flagged_from start flags) ->
  Z.of_nat start <= l < Z.of_nat start + Z.of_nat (length flags).
Proof.
  revert start. induction flags as [|b flags IH]; intros start; [intros []|].
  rewrite flagged_from_cons, in_app_iff. intros [Hin | Hin].
  - destruct b; [|destruct Hin]. destruct Hin as [<- | []]. simpl. lia.
  - apply IH in Hin. simpl. lia.
Qed.

Lemma existsb_eqb_false (l : Z) (ls : list Z) : ~ In l ls -> existsb (Z.eqb l) ls = false.
Proof.
  intros Hnot. apply not_true_is_false. intros Hex.
  apply existsb_exists in Hex as (x & Hx & Heq). apply Z.eqb_eq in Heq. now subst.
Qed.

Lemma existsb_eqb_true (l : Z) (ls : list Z) : In l ls -> existsb (Z.eqb l) ls = true.
Proof. intros Hin. apply existsb_exists. exists l. split; [exact Hin | apply Z.eqb_refl]. Qed.

(** On the labels [start, start + 1, ...] the rows that stay are those
    that are not flagged. *)
Lemma keep_unflagged (before : list Z) (start : nat) (flags : list bool) :
  (forall l, In l before -> l < Z.of_nat start) ->
  map (fun l => negb (existsb (Z.eqb l) (before ++ flagged_from start flags)))
      (map Z.of_nat (seq start (length flags)))
  = map negb flags.
Proof.
  revert before start. induction flags as [|b flags IH]; intros before start Hbefore;
    [reflexivity|].
  cbn [length seq map]. f_equal.
  - rewrite flagged_from_cons, existsb_app, existsb_app.
    rewrite (existsb_eqb_false _ before)
      by (intros Hin; apply Hbefore in Hin; lia).
    rewrite (existsb_eqb_false _ (flagged_from (S start) flags))
      by (intros Hin; apply flagged_from_range in Hin; lia).
    destruct b; simpl; [now rewrite Z.eqb_refl | reflexivity].
  - rewrite flagged_from_cons, app_assoc. apply IH.
    intros l Hin. apply in_app_iff in Hin as [Hin | Hin].
    + apply Hbefore in Hin. lia.
    + destruct b; [|destruct Hin]. destruct Hin as [<- | []]. lia.
Qed.

Lemma keep_unflagged_positions (flags : list bool) :
  map (fun l => negb (existsb (Z.eqb l) (flagged_positions flags)))
      (range_index (length flags))
  = map negb flags.
Proof. apply (keep_unflagged [] 0 flags). intros l []. Qed.

Lemma flagged_in_range_index (flags : list bool) :
  forallb (fun l => existsb (Z.eqb l) (range_index (length flags)))
          (flagged_positions flags) = true.
Proof.
  apply forallb_forall. intros l Hin.
  apply (flagged_from_range 0 flags l) in Hin.
  apply existsb_eqb_true. unfold range_index. apply in_map_iff.
  exists (Z.to_nat l). split; [lia|]. apply in_seq. lia.
Qed.

Section Trim.
Context {F : Type} `{Float64 F}.

Lemma column_cells_length (c : column F) : length (column_cells c) = column_length c.
Proof. destruct c; simpl; apply List.length_map. Qed.

Lemma column_cells_tail (c : column F) :
  List.tl (column_cells c) = column_cells (column_tail c).
Proof. destruct c as [[|t ts] | [|x xs]]; reflexivity. Qed.

Lemma cell_isnull_head (c : column F) :
  column_length c <> 0%nat ->
  exists h t, column_cells c = h :: t /\ cell_is_nan h = cell_isnull c 0.
Proof.
  destruct c as [[|t ts] | [|x xs]]; simpl; intros Hlen; try congruence.
  - now exists (TimeCell t), (map TimeCell ts).
  - now exists (NumCell x), (map NumCell xs).
Qed.

Lemma cell_isnull_tail (c : column F) (i : nat) :
  cell_isnull c (S i) = cell_isnull (column_tail c) i.
Proof. destruct c as [[|t ts] | [|x xs]]; reflexivity. Qed.

(** The flags of [isnull().any(axis=1)] are those of the rows. *)
Lemma isnull_any_rows (index : list Z) (cols : list (column F)) :
  Forall (fun c => column_length c = length index) cols ->
  map (fun i => existsb (fun c => cell_isnull c i) cols) (seq 0 (length index))
  = map row_has_nan (zip_rows index (map column_cells cols)).
Proof.
  revert cols. induction index as [|l index IH]; intros cols Hcols; [reflexivity|].
  cbn [length seq map zip_rows]. f_equal.
  - unfold row_has_nan. cbn [snd].
    induction Hcols as [|c cols Hc Hcols IHc]; [reflexivity|].
    destruct (cell_isnull_head c) as (h & t & Hh & Hnan); [simpl in Hc; lia|].
    cbn [map existsb]. rewrite Hh. cbn [heads existsb]. now rewrite Hnan, <- IHc.
  - rewrite <- seq_shift, List.map_map.
    rewrite (List.map_ext _ (fun i => existsb (fun c => cell_isnull c i) (map column_tail cols))).
    + rewrite IH.
      * do 2 f_equal. rewrite !List.map_map. apply List.map_ext.
        intros c. symmetry. apply column_cells_tail.
      * apply List.Forall_map. eapply Forall_impl; [|exact Hcols].
        intros c Hc. simpl in *. destruct c as [[|t ts] | [|x xs]]; simpl in *; lia.
    + intros i. rewrite existsb_map. apply existsb_ext. intros c. apply cell_isnull_tail.
Qed.

Lemma heads_keep_first (keep : list bool) (cols : list (list (cell F))) :
  Forall (fun c => c <> []) cols -> heads (map (keep_by (true :: keep)) cols) = heads cols.
Proof.
  induction 1 as [|[|h t] cols Hc Hcols IH]; [reflexivity | congruence |].
  simpl in *. now rewrite IH.
Qed.

Lemma tails_keep_first (keep : list bool) (cols : list (list (cell F))) :
  Forall (fun c => c <> []) cols ->
  map (@List.tl _) (map (keep_by (true :: keep)) cols)
  = map (keep_by keep) (map (@List.tl _) cols).
Proof.
  induction 1 as [|[|h t] cols Hc Hcols IH]; [reflexivity | congruence |].
  simpl in *. now rewrite IH.
Qed.

Lemma keep_drop_first (keep : list bool) (cols : list (list (cell F))) :
  Forall (fun c => c <> []) cols ->
  map (keep_by (false :: keep)) cols = map (keep_by keep) (map (@List.tl _) cols).
Proof.
  induction 1 as [|[|h t] cols Hc Hcols IH]; [reflexivity | congruence |].
  simpl in *. now rewrite IH.
Qed.

(** Dropping the flagged rows column by column is dropping them row by
    row. *)
Lemma zip_rows_keep_by (index : list Z) (cols : list (list (cell F))) :
  Forall (fun c => length c = length index) cols ->
  zip_rows (keep_by (map (fun r => negb (row_has_nan r)) (zip_rows index cols)) index)
           (map (keep_by (map (fun r => negb (row_has_nan r)) (zip_rows index cols))) cols)
  = List.filter (fun r => negb (row_has_nan r)) (zip_rows index cols).
Proof.
  revert cols. induction index as [|l index IH]; intros cols Hcols; [reflexivity|].
  cbn [zip_rows map List.filter].
  assert (Htails : Forall (fun c => length c = length index) (map (@List.tl _) cols)).
  { apply List.Forall_map. eapply Forall_impl; [|exact Hcols].
    intros [|h t]; simpl; intros Hlen; [discriminate | lia]. }
  assert (Hne : Forall (fun c => c <> []) cols).
  { eapply Forall_impl; [|exact Hcols]. intros [|h t]; simpl; [discriminate | congruence]. }
  specialize (IH (map (@List.tl _) cols) Htails).
  destruct (negb (row_has_nan (l, heads cols))) eqn:Hk.
  - change (keep_by (true :: ?k) (l :: index)) with (l :: keep_by k index).
    cbn [zip_rows]. now rewrite heads_keep_first, tails_keep_first, IH.
  - change (keep_by (false :: ?k) (l :: index)) with (keep_by k index).
    now rewrite keep_drop_first, IH.
Qed.

Lemma frame_rows_no_nan (index : list Z) (cols : list (list (cell F))) :
  Forall (fun r => Forall (fun c => cell_is_nan c = false) (snd r))
         (List.filter (fun r => negb (row_has_nan r)) (zip_rows index cols)).
Proof.
  apply Forall_forall. intros r Hin. apply filter_In in Hin as [_ Hr].
  apply negb_true_iff in Hr. unfold row_has_nan in Hr.
  apply Forall_forall. intros c Hc.
  apply not_true_is_false. intros Hnan.
  assert (existsb cell_is_nan (snd r) = true) by (apply existsb_exists; eauto).
  congruence.
Qed.

(** C6: on a frame labelled 0, 1, 2, ... (as the constructor and
    [sort_values(ignore_index=True)] leave it) the trim succeeds; the
    rows of the result are exactly the rows of the input that hold no
    NaN, in their order and with their labels and cells unchanged; the
    columns keep their names; and no cell of the result is NaN. *)
Theorem trim_nan_rows_exact (df : DataFrame F) :
  frame_wf df ->
  df_index df = range_index (length (df_index df)) ->
  exists df',
    trim_nan_rows df = (Ok tt, df')
    /\ frame_rows df' = List.filter (fun r => negb (row_has_nan r)) (frame_rows df)
    /\ map fst (df_columns df') = map fst (df_columns df)
    /\ frame_wf df'
    /\ Forall (fun r => Forall (fun c => cell_is_nan c = false) (snd r)) (frame_rows df')
    /\ forall name xs, In (name, NumCol xs) (df_columns df') ->
                       Forall (fun x => f_isnan x = false) xs.
Proof.
  intros Hwf Hindex.
  assert (Hflags : isnull_any df = map row_has_nan (frame_rows df)).
  { unfold isnull_any, frame_rows.
    rewrite <- (List.map_map snd column_cells).
    rewrite <- isnull_any_rows.
    - apply List.map_ext. intros i. now rewrite existsb_map.
    - apply List.Forall_map. exact Hwf. }
  assert (Hlen : length (isnull_any df) = length (df_index df)).
  { unfold isnull_any. now rewrite List.length_map, List.length_seq. }
  assert (Hkeep : map (fun l => negb (existsb (Z.eqb l) (flagged_positions (isnull_any df))))
                      (df_index df)
                  = map (fun r => negb (row_has_nan r)) (frame_rows df)).
  { rewrite Hindex, <- Hlen, keep_unflagged_positions.
    now rewrite Hflags, List.map_map. }
  assert (Hcheck : forallb (fun l => existsb (Z.eqb l) (df_index df))
                     (flagged_positions (isnull_any df)) = true).
  { rewrite Hindex, <- Hlen. apply flagged_in_range_index. }
  unfold trim_nan_rows, pd_drop_rows. rewrite Hcheck, Hkeep.
  set (keep := map (fun r => negb (row_has_nan r)) (frame_rows df)).
  assert (Hrows : frame_rows
                    (mk_df (keep_by keep (df_index df))
                       (map (fun nc => (fst nc, keep_column keep (snd nc))) (df_columns df)))
                  = List.filter (fun r => negb (row_has_nan r)) (frame_rows df)).
  { unfold frame_rows at 1. cbn [df_index df_columns].
    rewrite List.map_map. cbn [snd].
    rewrite (List.map_ext _ (fun nc => keep_by keep (column_cells (snd nc))))
      by (intros [n [ts|xs]]; simpl; now rewrite keep_by_map).
    rewrite <- (List.map_map (fun nc => column_cells (snd nc)) (keep_by keep)).
    apply zip_rows_keep_by. apply List.Forall_map.
    eapply Forall_impl; [|exact Hwf]. intros nc Hnc. now rewrite column_cells_length. }
  eexists. split; [reflexivity|]. split; [exact Hrows|]. split; [|split; [|split]].
  - cbn [df_columns]. rewrite List.map_map. reflexivity.
  - unfold frame_wf. cbn [df_index df_columns]. apply List.Forall_map.
    eapply Forall_impl; [|exact Hwf]. intros [n [ts|xs]] Hnc; simpl in *;
      now apply keep_by_length.
  - rewrite Hrows. apply frame_rows_no_nan.
  - cbn [df_columns]. intros name xs Hin.
    apply in_map_iff in Hin as ([n c] & Heq & Hin). simpl in Heq.
    destruct c as [ts|ys]; simpl in Heq; [discriminate|]. inversion Heq; subst name xs.
    apply keep_by_Forall.
    assert (Hys : length ys = length (df_index df)).
    { unfold frame_wf in Hwf. rewrite Forall_forall in Hwf. exact (Hwf _ Hin). }
    subst keep. rewrite <- (List.map_map row_has_nan negb), <- Hflags. unfold isnull_any.
    clear - Hin Hys.
    assert (Hgen : forall start (zs : list F) m,
               length zs = m ->
               (forall j x, zs !! j = Some x -> ys !! (start + j)%nat = Some x) ->
               Forall2 (fun k x => k = true -> f_isnan x = false)
                 (map negb (map (fun i => existsb (fun nc => cell_isnull (snd nc) i)
                                              (df_columns df)) (seq start m))) zs).
    { intros start zs. revert start. induction zs as [|z zs IH]; intros start m Hm Hsub;
        subst m; simpl; constructor.
      - intros Hk. apply negb_true_iff in Hk.
        apply not_true_is_false. intros Hnan.
        assert (existsb (fun nc => cell_isnull (snd nc) start) (df_columns df) = true);
          [|congruence].
        apply existsb_exists. exists (n, NumCol ys). split; [exact Hin|].
        simpl. specialize (Hsub 0%nat z eq_refl). rewrite Nat.add_0_r in Hsub.
        now rewrite Hsub.
      - apply IH; [reflexivity|]. intros j x Hj.
        replace (S start + j)%nat with (start + S j)%nat by lia. now apply Hsub. }
    rewrite <- Hys. apply Hgen; [reflexivity|].
    intros j x Hj. exact Hj.
Qed.

(** The trim keeps one cell per row in each column, whatever the labels. *)
Lemma trim_nan_rows_wf (df : DataFrame F) :
  frame_wf df -> frame_wf (snd (trim_nan_rows df)).
Proof.
  intros Hwf. unfold trim_nan_rows, pd_drop_rows.
  destruct (forallb _ _); [|exact Hwf].
  unfold frame_wf. cbn [snd df_index df_columns]. apply List.Forall_map.
  eapply Forall_impl; [|exact Hwf]. intros [n [ts|xs]] Hnc; simpl in *;
    now apply keep_by_length.
Qed.
End Trim.

(** ** Columns of a frame *)

Section Columns.
Context {F : Type} `{Float64 F}.

Lemma lookup_replace_eq (name : string) (c : column F) (cols : list (string * column F)) :
  lookup_column name (replace_column name c cols) = Some c.
Proof.
  induction cols as [|[n c0] cols IH]; simpl.
  - now rewrite String.eqb_refl.
  - destruct (String.eqb n name) eqn:E; simpl; rewrite E; [reflexivity | exact IH].
Qed.

Lemma lookup_replace_ne (name other : string) (c : column F) (cols : list (string * column F)) :
  other <> name ->
  lookup_column other (replace_column name c cols) = lookup_column other cols.
Proof.
  intros Hne. induction cols as [|[n c0] cols IH]; simpl.
  - apply String.eqb_neq in Hne. rewrite String.eqb_sym in Hne. now rewrite Hne.
  - destruct (String.eqb n name) eqn:E; simpl.
    + apply String.eqb_eq in E. subst n.
      apply String.eqb_neq in Hne. rewrite String.eqb_sym in Hne. now rewrite Hne.
    + now rewrite IH.
Qed.

Lemma replace_column_names (name : string) (c c0 : column F) (cols : list (string * column F)) :
  lookup_column name cols = Some c0 ->
  map fst (replace_column name c cols) = map fst cols.
Proof.
  induction cols as [|[n c1] cols IH]; simpl; [discriminate|].
  destruct (String.eqb n name) eqn:E; simpl; [reflexivity|].
  intros Hc. now rewrite IH.
Qed.

Lemma replace_column_twice (name : string) (c1 c2 : column F) (cols : list (string * column F)) :
  replace_column name c2 (replace_column name c1 cols) = replace_column name c2 cols.
Proof.
  induction cols as [|[n c0] cols IH]; simpl.
  - now rewrite String.eqb_refl.
  - destruct (String.eqb n name) eqn:E; simpl; rewrite E; [reflexivity | now rewrite IH].
Qed.

Lemma replace_column_Forall (P : string * column F -> Prop) (name : string) (c : column F)
  (cols : list (string * column F)) :
  (forall n, P (n, c)) -> Forall P cols -> Forall P (replace_column name c cols).
Proof.
  intros Hc. induction 1 as [|[n c0] cols Hn Hcols IH]; simpl.
  - constructor; [apply Hc | constructor].
  - destruct (String.eqb n name); constructor; auto.
Qed.

Lemma lookup_column_In (name : string) (c : column F) (cols : list (string * column F)) :
  lookup_column name cols = Some c -> In (name, c) cols.
Proof.
  induction cols as [|[n c0] cols IH]; simpl; [discriminate|].
  destruct (String.eqb n name) eqn:E.
  - apply String.eqb_eq in E. intros Hc. inversion Hc. subst. now left.
  - intros Hc. right. now apply IH.
Qed.

(** *** Values of series *)

Lemma lookup_map {A B : Type} (f : A -> B) (l : list A) (i : nat) :
  map f l !! i = f <$> (l !! i).
Proof.
  revert i. induction l as [|x l IH]; intros [|i]; simpl; try reflexivity. apply IH.
Qed.

Lemma where_length (cond : list bool) (self other : list F) :
  length cond = length self -> length other = length self ->
  length (where_ cond self other) = length self.
Proof.
  revert cond other. induction self as [|x self IH]; intros [|c cond] [|o other];
    simpl; try discriminate; try reflexivity.
  intros Hc Ho. f_equal. apply IH; lia.
Qed.

End Columns.

(** ** The cleaning stages, one feature at a time *)

(** The monad of frame computations, spelled out. *)
Ltac pd_unfold :=
  unfold mbind, mret, pd_mbind, pd_mret, pd_bind, pd_ret, pd_lift, pd_raise,
    pd_columns, pd_index, pd_numeric, pd_assign in *.

Section Stages.
Context {F : Type} `{Float64 F} {roll : Rolling F}.

Lemma median_filter_feature_run (feature : string) (df : DataFrame F) (x : list F) :
  feature <> "time"%string ->
  lookup_column feature (df_columns df) = Some (NumCol x) ->
  median_filter_feature feature df
  = (Ok tt, mk_df (df_index df)
              (replace_column feature (NumCol (rolling_median 5 x)) (df_columns df))).
Proof.
  intros Hne Hx. unfold median_filter_feature.
  apply String.eqb_neq in Hne. rewrite Hne. pd_unfold. now rewrite Hx.
Qed.

Lemma clip_feature_run (feature : string) (lo hi : F) (df : DataFrame F) (x : list F) :
  lookup_column feature (df_columns df) = Some (NumCol x) ->
  clip_feature (feature, (lo, hi)) df
  = (Ok tt, mk_df (df_index df)
              (replace_column feature (NumCol (map (clip lo hi) x)) (df_columns df))).
Proof. intros Hx. unfold clip_feature. pd_unfold. now rewrite Hx. Qed.

(** The two passes of the 3-sigma repair on the values [x] of a column,
    with the rolling mean and the bands computed from [x] beforehand. *)
Lemma sigma_repair_feature_run (feature : string) (df : DataFrame F) (x : list F) :
  feature <> "time"%string ->
  lookup_column feature (df_columns df) = Some (NumCol x) ->
  let index := df_index df in
  let mean := mk_series index (rolling_mean 100 x) in
  let std := series_setitem (mk_series index (rolling_std 100 x)) 0 (f_of_Z 0) in
  let lo := series_arith f_sub mean (series_scale 3 std) in
  let hi := series_arith f_add mean (series_scale 3 std) in
  sigma_repair_feature feature df
  = match series_lt lo (mk_series index x) with
    | Raise e => (Raise e, df)
    | Ok keep_lo =>
        let x1 := where_ keep_lo x (s_values mean) in
        match series_lt (mk_series index x1) hi with
        | Raise e =>
            (Raise e, mk_df index (replace_column feature (NumCol x1) (df_columns df)))
        | Ok keep_hi =>
            (Ok tt, mk_df index
                      (replace_column feature
                         (NumCol (where_ keep_hi x1 (s_values mean))) (df_columns df)))
        end
    end.
Proof.
  intros Hne Hx. cbv zeta. unfold sigma_repair_feature.
  apply String.eqb_neq in Hne. rewrite Hne. pd_unfold.
  repeat (rewrite Hx; cbv beta iota zeta).
  destruct (series_lt _ (mk_series (df_index df) x)) as [keep_lo|e]; [|reflexivity].
  cbn [df_columns df_index]. rewrite lookup_replace_eq.
  destruct (series_lt _ _) as [keep_hi|e]; [|reflexivity].
  cbn [df_columns df_index]. now rewrite replace_column_twice.
Qed.

Lemma bound_repair_feature_run (feature : string) (lo hi : F) (df : DataFrame F) (x : list F) :
  feature <> "shortwave"%string ->
  lookup_column feature (df_columns df) = Some (NumCol x) ->
  let mean := rolling_mean 100 x in
  let x1 := where_ (series_ne x hi) x mean in
  bound_repair_feature (feature, (lo, hi)) df
  = (Ok tt, mk_df (df_index df)
              (replace_column feature (NumCol (where_ (series_ne x1 lo) x1 mean))
                 (df_columns df))).
Proof.
  intros Hne Hx. cbv zeta. unfold bound_repair_feature.
  apply String.eqb_neq in Hne. rewrite Hne. pd_unfold.
  repeat (rewrite Hx; cbv beta iota zeta).
  cbn [df_columns df_index]. rewrite lookup_replace_eq.
  cbn [df_columns df_index]. now rewrite replace_column_twice.
Qed.

(** *** The index of the bands *)

Lemma In_insert_sorted {A : Type} (leb : A -> A -> bool) (x y : A) (l : list A) :
  In y (insert_sorted leb x l) <-> y = x \/ In y l.
Proof.
  induction l as [|z l IH]; simpl; [intuition|].
  destruct (leb x z); simpl; [intuition | rewrite IH; intuition].
Qed.

Lemma In_isort {A : Type} (leb : A -> A -> bool) (y : A) (l : list A) :
  In y (isort leb l) <-> In y l.
Proof.
  induction l as [|x l IH]; simpl; [reflexivity|].
  rewrite In_insert_sorted, IH. intuition.
Qed.

Lemma In_dedup (y : Z) (l : list Z) : In y (dedup l) <-> In y l.
Proof.
  induction l as [|x l IH]; simpl; [reflexivity|].
  destruct (existsb (Z.eqb x) l) eqn:E; simpl; rewrite IH; [|intuition].
  split; [auto|]. intros [<- | Hin]; [|exact Hin].
  apply existsb_exists in E as (z & Hz & Heq). apply Z.eqb_eq in Heq. now subst.
Qed.

(** Without the label 0 in the index, [std[0] = 0] enlarges [std], the
    bands are on another index than the column, and the comparison is
    refused. *)
Lemma sigma_bands_misaligned (op : F -> F -> F) (index : list Z) (m s : list F) :
  existsb (Z.eqb 0) index = false ->
  s_index (series_arith op (mk_series index m)
             (series_scale 3 (series_setitem (mk_series index s) 0 (f_of_Z 0))))
  <> index.
Proof.
  intros Hno. unfold series_setitem. cbn [s_index s_values]. rewrite Hno.
  unfold series_scale, series_arith. cbn [s_index s_values].
  destruct (decide (index = index ++ [0])) as [Heq|Hne].
  - apply (f_equal (@length Z)) in Heq. rewrite length_app in Heq. simpl in Heq. lia.
  - cbn [s_index]. intros Heq.
    assert (Hin : In 0 index).
    { rewrite <- Heq. apply In_isort, In_dedup, in_app_iff. right.
      apply in_app_iff. right. now left. }
    apply existsb_eqb_true in Hin. congruence.
Qed.

(** With it, the bands are on the index of the column. *)
Lemma sigma_bands_aligned (op : F -> F -> F) (index : list Z) (m s : list F) :
  existsb (Z.eqb 0) index = true ->
  series_arith op (mk_series index m)
    (series_scale 3 (series_setitem (mk_series index s) 0 (f_of_Z 0)))
  = mk_series index
      (zip_with op m
         (map (f_mul (f_of_Z 3))
            (zip_with (fun l x => if l =? 0 then f_of_Z 0 else x) index s))).
Proof.
  intros Hyes. unfold series_setitem. cbn [s_index s_values]. rewrite Hyes.
  unfold series_scale, series_arith. cbn [s_index s_values].
  destruct (decide (index = index)); [reflexivity | congruence].
Qed.
End Stages.

(** ** The frame of [remove_outliers] *)

Section Frame.
Context {F : Type} `{Float64 F} {roll : Rolling F}.

Lemma same_frame_refl (df : DataFrame F) : same_frame df df.
Proof. unfold same_frame. auto. Qed.

Lemma same_frame_trans (df1 df2 df3 : DataFrame F) :
  same_frame df1 df2 -> same_frame df2 df3 -> same_frame df1 df3.
Proof.
  unfold same_frame. intros (Hi1 & Hn1 & Ht1 & Hw1) (Hi2 & Hn2 & Ht2 & Hw2).
  repeat split; try congruence. auto.
Qed.

(** Writing new values of the old length into a column other than
    ['time'] keeps the frame. *)
Lemma same_frame_replace (df : DataFrame F) (feature : string) (x xs : list F) :
  feature <> "time"%string ->
  lookup_column feature (df_columns df) = Some (NumCol x) ->
  (frame_wf df -> length xs = length x) ->
  same_frame df (mk_df (df_index df) (replace_column feature (NumCol xs) (df_columns df))).
Proof.
  intros Hne Hx Hlen. unfold same_frame. cbn [df_index df_columns]. repeat split.
  - exact (replace_column_names _ _ _ _ Hx).
  - apply lookup_replace_ne. congruence.
  - intros Hwf. unfold frame_wf in *. cbn [df_index df_columns].
    apply replace_column_Forall; [|exact Hwf].
    intros n. cbn [snd column_length]. rewrite (Hlen Hwf).
    rewrite Forall_forall in Hwf. exact (Hwf _ (lookup_column_In _ _ _ Hx)).
Qed.

Lemma wf_column_length (df : DataFrame F) (feature : string) (x : list F) :
  frame_wf df -> lookup_column feature (df_columns df) = Some (NumCol x) ->
  length x = length (df_index df).
Proof.
  intros Hwf Hx. unfold frame_wf in Hwf. rewrite Forall_forall in Hwf.
  exact (Hwf _ (lookup_column_In _ _ _ Hx)).
Qed.

Lemma keeps_frame_bind {A B : Type} (m : PD F A) (k : A -> PD F B) :
  keeps_frame m -> (forall a, keeps_frame (k a)) -> keeps_frame (a ← m; k a).
Proof.
  intros Hm Hk df. unfold mbind, pd_mbind, pd_bind.
  specialize (Hm df). destruct (m df) as [[a|e] df1]; simpl in *; [|exact Hm].
  exact (same_frame_trans _ _ _ Hm (Hk a df1)).
Qed.

Lemma keeps_frame_for {A : Type} (items : list A) (body : A -> PD F unit) :
  (forall a, In a items -> keeps_frame (body a)) -> keeps_frame (pd_for items body).
Proof.
  induction items as [|a items IH]; intros Hbody; simpl.
  - intros df. apply same_frame_refl.
  - apply (keeps_frame_bind (body a) (fun _ => pd_for items body)).
    + apply Hbody. now left.
    + intros _. apply IH. intros b Hb. apply Hbody. now right.
Qed.

Lemma keeps_frame_columns : keeps_frame (pd_columns (F := F)).
Proof. intros df. apply same_frame_refl. Qed.

Lemma median_filter_feature_frame (feature : string) :
  keeps_frame (median_filter_feature feature).
Proof.
  intros df. destruct (String.eqb feature "time") eqn:Htime.
  - unfold median_filter_feature. rewrite Htime. apply same_frame_refl.
  - apply String.eqb_neq in Htime.
    destruct (lookup_column feature (df_columns df)) as [[ts|x]|] eqn:Hx.
    + unfold median_filter_feature. apply String.eqb_neq in Htime. rewrite Htime.
      pd_unfold. rewrite Hx. apply same_frame_refl.
    + rewrite (median_filter_feature_run feature df x Htime Hx). cbn [snd].
      apply (same_frame_replace df feature x); auto.
      intros _. apply rolling_median_length.
    + unfold median_filter_feature. apply String.eqb_neq in Htime. rewrite Htime.
      pd_unfold. rewrite Hx. apply same_frame_refl.
Qed.

Lemma median_filtering_frame : keeps_frame median_filtering.
Proof.
  unfold median_filtering. apply keeps_frame_bind; [apply keeps_frame_columns|].
  intros columns. apply keeps_frame_for. intros feature _. apply median_filter_feature_frame.
Qed.

Lemma clip_feature_frame (bounds : string * (F * F)) :
  fst bounds <> "time"%string -> keeps_frame (clip_feature bounds).
Proof.
  destruct bounds as [feature [lo hi]]. cbn [fst]. intros Hne df.
  destruct (lookup_column feature (df_columns df)) as [[ts|x]|] eqn:Hx.
  - unfold clip_feature. pd_unfold. rewrite Hx. apply same_frame_refl.
  - rewrite (clip_feature_run feature lo hi df x Hx). cbn [snd].
    apply (same_frame_replace df feature x); auto.
    intros _. apply List.length_map.
  - unfold clip_feature. pd_unfold. rewrite Hx. apply same_frame_refl.
Qed.

Lemma bound_repair_feature_frame (bounds : string * (F * F)) :
  fst bounds <> "time"%string -> keeps_frame (bound_repair_feature bounds).
Proof.
  destruct bounds as [feature [lo hi]]. cbn [fst]. intros Hne df.
  destruct (String.eqb feature "shortwave") eqn:Hshort.
  - unfold bound_repair_feature. rewrite Hshort. apply same_frame_refl.
  - destruct (lookup_column feature (df_columns df)) as [[ts|x]|] eqn:Hx.
    + unfold bound_repair_feature. rewrite Hshort. pd_unfold. rewrite Hx.
      apply same_frame_refl.
    + apply String.eqb_neq in Hshort.
      rewrite (bound_repair_feature_run feature lo hi df x Hshort Hx). cbn [snd].
      apply (same_frame_replace df feature x); auto.
      intros _. unfold series_ne.
      assert (Hx1 : length (where_ (map (fun v => negb (f_eqb v hi)) x) x (rolling_mean 100 x))
                    = length x)
        by (apply where_length; [apply List.length_map | apply rolling_mean_length]).
      rewrite where_length; [exact Hx1 | apply List.length_map |].
      now rewrite rolling_mean_length, Hx1.
    + unfold bound_repair_feature. rewrite Hshort. pd_unfold. rewrite Hx.
      apply same_frame_refl.
Qed.

Lemma series_lt_misaligned (a b : Series F) :
  s_index a <> s_index b -> series_lt a b = Raise ValueError.
Proof. intros Hne. unfold series_lt. destruct (decide (s_index a = s_index b)); congruence. Qed.

Lemma series_lt_aligned (index : list Z) (a b : list F) :
  series_lt (mk_series index a) (mk_series index b) = Ok (zip_with f_ltb a b).
Proof.
  unfold series_lt. cbn [s_index s_values].
  destruct (decide (index = index)); congruence.
Qed.

Lemma sigma_repair_feature_frame (feature : string) :
  keeps_frame (sigma_repair_feature feature).
Proof.
  intros df. destruct (String.eqb feature "time") eqn:Htime.
  { unfold sigma_repair_feature. rewrite Htime. apply same_frame_refl. }
  destruct (lookup_column feature (df_columns df)) as [[ts|x]|] eqn:Hx;
    try (unfold sigma_repair_feature; rewrite Htime; pd_unfold; rewrite Hx;
         apply same_frame_refl).
  apply String.eqb_neq in Htime.
  rewrite (sigma_repair_feature_run feature df x Htime Hx). cbv zeta.
  destruct (existsb (Z.eqb 0) (df_index df)) eqn:Hzero.
  - rewrite !sigma_bands_aligned by exact Hzero.
    rewrite !series_lt_aligned. cbn [snd s_values].
    apply (same_frame_replace df feature x); auto.
    intros Hwf. pose proof (wf_column_length df feature x Hwf Hx) as Hlen.
    set (std := zip_with (fun (l : Z) (v : F) => if l =? 0 then f_of_Z 0 else v)
                  (df_index df) (rolling_std 100 x)).
    assert (Hstd : length (map (f_mul (f_of_Z 3)) std) = length x).
    { subst std. rewrite List.length_map, length_zip_with, rolling_std_length. lia. }
    assert (Hx1 : length (where_ (zip_with f_ltb
                                    (zip_with f_sub (rolling_mean 100 x)
                                       (map (f_mul (f_of_Z 3)) std)) x)
                            x (rolling_mean 100 x)) = length x).
    { apply where_length; [|apply rolling_mean_length].
      rewrite !length_zip_with, Hstd, rolling_mean_length. lia. }
    rewrite where_length; [exact Hx1 | | now rewrite rolling_mean_length, Hx1].
    rewrite !length_zip_with, Hstd, Hx1, rolling_mean_length. lia.
  - rewrite series_lt_misaligned; [apply same_frame_refl|].
    cbn [s_index]. now apply sigma_bands_misaligned.
Qed.

Lemma attr_bounds_not_time :
  Forall (fun b : string * (F * F) => fst b <> "time"%string) ATTR_BOUNDS.
Proof. repeat constructor; discriminate. Qed.

Lemma clip_stage_frame : keeps_frame clip_stage.
Proof.
  pose proof attr_bounds_not_time as Hnames. rewrite Forall_forall in Hnames.
  apply keeps_frame_for. intros b Hb. apply clip_feature_frame. auto.
Qed.

Lemma sigma_stage_frame : keeps_frame sigma_stage.
Proof.
  unfold sigma_stage. apply keeps_frame_bind; [apply keeps_frame_columns|].
  intros columns. apply keeps_frame_for. intros feature _.
  apply sigma_repair_feature_frame.
Qed.

Lemma bound_stage_frame : keeps_frame bound_stage.
Proof.
  pose proof attr_bounds_not_time as Hnames. rewrite Forall_forall in Hnames.
  apply keeps_frame_for. intros b Hb. apply bound_repair_feature_frame. auto.
Qed.

(** C10: whatever the frame and whether the cleaning returns or raises,
    [remove_outliers] leaves a frame with the same row labels in the same
    order, the same column names, the same ['time'] column and, when
    every column had one cell per row, still one cell per row in every
    column: the five stages write into feature columns only. *)
Theorem remove_outliers_keeps_rows_and_time (df : DataFrame F) :
  df_index (snd (remove_outliers df)) = df_index df
  /\ map fst (df_columns (snd (remove_outliers df))) = map fst (df_columns df)
  /\ lookup_column "time" (df_columns (snd (remove_outliers df)))
     = lookup_column "time" (df_columns df)
  /\ (frame_wf df -> frame_wf (snd (remove_outliers df))).
Proof.
  assert (Hframe : keeps_frame remove_outliers).
  { unfold remove_outliers.
    apply keeps_frame_bind; [apply median_filtering_frame | intros _].
    apply keeps_frame_bind; [apply clip_stage_frame | intros _].
    apply keeps_frame_bind; [apply sigma_stage_frame | intros _].
    apply keeps_frame_bind; [apply bound_stage_frame | intros _].
    apply median_filtering_frame. }
  exact (Hframe df).
Qed.
End Frame.

(** ** Loops over independent columns *)

Section ColumnLoops.
Context {F : Type} `{Float64 F} {roll : Rolling F}.

(** A loop whose body rewrites the column named by its item, when the
    item is not skipped, rewrites each such column once, from its
    original values, and nothing else. *)
Lemma pd_for_columns {A : Type} (name_of : A -> string) (skip : A -> bool)
  (g : A -> list F -> list F) (Q : list F -> Prop) (body : A -> PD F unit) (index : list Z) :
  (forall a cols, skip a = true -> body a (mk_df index cols) = (Ok tt, mk_df index cols)) ->
  (forall a cols x, skip a = false ->
     lookup_column (name_of a) cols = Some (NumCol x) -> Q x ->
     body a (mk_df index cols)
     = (Ok tt, mk_df index (replace_column (name_of a) (NumCol (g a x)) cols))) ->
  forall items cols,
    List.NoDup (map name_of items) ->
    (forall a, In a items -> skip a = false ->
       exists x, lookup_column (name_of a) cols = Some (NumCol x) /\ Q x) ->
    exists cols',
      pd_for items body (mk_df index cols) = (Ok tt, mk_df index cols')
      /\ map fst cols' = map fst cols
      /\ (forall a x, In a items -> skip a = false ->
            lookup_column (name_of a) cols = Some (NumCol x) ->
            lookup_column (name_of a) cols' = Some (NumCol (g a x)))
      /\ (forall name, (forall a, In a items -> skip a = false -> name_of a <> name) ->
            lookup_column name cols' = lookup_column name cols).
Proof.
  intros Hskip Hbody items. induction items as [|a items IH]; intros cols Hnodup Hcols.
  - exists cols. simpl. repeat split; auto. intros a x [].
  - simpl in Hnodup. apply NoDup_cons_iff in Hnodup as [Hfresh Hnodup].
    cbn [pd_for]. unfold pd_bind at 1.
    destruct (skip a) eqn:Ha.
    + rewrite (Hskip a cols Ha).
      destruct (IH cols Hnodup) as (cols' & Hrun & Hnames & Hdone & Hother).
      { intros b Hb. apply Hcols. now right. }
      exists cols'. repeat split; auto.
      * intros b x [<- | Hb] Hb' Hx; [congruence | now apply Hdone].
      * intros name Hname. apply Hother. intros b Hb. apply Hname. now right.
    + destruct (Hcols a (or_introl eq_refl) Ha) as (x & Hx & HQ).
      rewrite (Hbody a cols x Ha Hx HQ).
      assert (Hkeep : forall b, In b items ->
                 lookup_column (name_of b) (replace_column (name_of a) (NumCol (g a x)) cols)
                 = lookup_column (name_of b) cols).
      { intros b Hb. apply lookup_replace_ne. intros Heq. apply Hfresh.
        rewrite <- Heq. now apply in_map. }
      destruct (IH (replace_column (name_of a) (NumCol (g a x)) cols) Hnodup)
        as (cols' & Hrun & Hnames & Hdone & Hother).
      { intros b Hb Hb'. rewrite (Hkeep b Hb). apply Hcols; [now right | exact Hb']. }
      exists cols'. split; [exact Hrun|]. split; [|split].
      * rewrite Hnames. exact (replace_column_names _ _ _ _ Hx).
      * intros b y [<- | Hb] Hb' Hy.
        -- rewrite Hother.
           ++ rewrite lookup_replace_eq. congruence.
           ++ intros c Hc _ Heq. apply Hfresh. rewrite <- Heq. now apply in_map.
        -- apply Hdone; auto. now rewrite (Hkeep b Hb).
      * intros name Hname. rewrite Hother.
        -- apply lookup_replace_ne. intros Heq.
           exact (Hname a (or_introl eq_refl) Ha (eq_sym Heq)).
        -- intros b Hb. apply Hname. now right.
Qed.

(** *** Values, row by row *)

Lemma upd_zero_positive (v : F) (start : nat) (s : list F) :
  zip_with (fun (l : Z) (x : F) => if l =? 0 then v else x)
    (map Z.of_nat (seq (S start) (length s))) s = s.
Proof.
  revert start. induction s as [|x s IH]; intros start; [reflexivity|].
  cbn [length seq map zip_with].
  replace (Z.of_nat (S start) =? 0) with false by (symmetry; apply Z.eqb_neq; lia).
  now rewrite IH.
Qed.

(** On the labels 0, 1, 2, ... the assignment [std[0] = v] sets the first
    value. *)
Lemma setitem_first (v : F) (n : nat) (s : list F) :
  length s = S n ->
  zip_with (fun (l : Z) (x : F) => if l =? 0 then v else x) (range_index (S n)) s
  = <[0%nat := v]> s.
Proof.
  destruct s as [|x s]; [discriminate|]. intros Hlen. simpl in Hlen.
  unfold range_index. cbn [seq map zip_with]. cbn [Z.of_nat Z.eqb].
  replace n with (length s) by lia. now rewrite upd_zero_positive.
Qed.

Lemma range_index_has_zero (n : nat) : existsb (Z.eqb 0) (range_index (S n)) = true.
Proof. reflexivity. Qed.

Lemma sigma_repair_feature_default_index (n : nat) (feature : string)
  (cols : list (string * column F)) (x : list F) :
  (feature =? "time")%string = false ->
  lookup_column feature cols = Some (NumCol x) -> length x = S n ->
  let mean := rolling_mean 100 x in
  let std := <[0%nat := f_of_Z 0]> (rolling_std 100 x) in
  let lo := zip_with f_sub mean (map (f_mul (f_of_Z 3)) std) in
  let hi := zip_with f_add mean (map (f_mul (f_of_Z 3)) std) in
  let x1 := where_ (zip_with f_ltb lo x) x mean in
  sigma_repair_feature feature (mk_df (range_index (S n)) cols)
  = (Ok tt, mk_df (range_index (S n))
              (replace_column feature (NumCol (where_ (zip_with f_ltb x1 hi) x1 mean)) cols)).
Proof.
  intros Htime Hx Hlen. cbv zeta. apply String.eqb_neq in Htime.
  rewrite (sigma_repair_feature_run feature (mk_df (range_index (S n)) cols) x Htime Hx).
  cbv zeta.
  cbn [df_index df_columns].
  rewrite !sigma_bands_aligned by apply range_index_has_zero.
  rewrite !series_lt_aligned. cbn [s_values].
  now rewrite setitem_first by (now rewrite rolling_std_length).
Qed.

Lemma zip_with_lookup {A B C : Type} (f : A -> B -> C) (l : list A) (k : list B) (i : nat)
  (a : A) (b : B) :
  l !! i = Some a -> k !! i = Some b -> zip_with f l k !! i = Some (f a b).
Proof. intros Ha Hb. rewrite lookup_zip_with, Ha. simpl. now rewrite Hb. Qed.


Lemma sigma_passes_length (x mean std : list F) :
  length mean = length x -> length std = length x ->
  let lo := zip_with f_sub mean (map (f_mul (f_of_Z 3)) std) in
  let hi := zip_with f_add mean (map (f_mul (f_of_Z 3)) std) in
  let x1 := where_ (zip_with f_ltb lo x) x mean in
  length (where_ (zip_with f_ltb x1 hi) x1 mean) = length x.
Proof.
  intros Hm Hs. cbv zeta.
  assert (H3 : length (map (f_mul (f_of_Z 3)) std) = length x)
    by (now rewrite List.length_map).
  assert (Hx1 : length (where_ (zip_with f_ltb
                                  (zip_with f_sub mean (map (f_mul (f_of_Z 3)) std)) x)
                          x mean) = length x).
  { apply where_length; [|exact Hm]. rewrite !length_zip_with, H3, Hm. lia. }
  rewrite where_length; [exact Hx1 | | now rewrite Hx1].
  rewrite !length_zip_with, H3, Hx1, Hm. lia.
Qed.


Lemma bound_passes_length (lo hi : F) (x : list F) :
  let mean := rolling_mean 100 x in
  let x1 := where_ (series_ne x hi) x mean in
  length (where_ (series_ne x1 lo) x1 mean) = length x.
Proof.
  cbv zeta. unfold series_ne.
  assert (Hx1 : length (where_ (map (fun v => negb (f_eqb v hi)) x) x (rolling_mean 100 x))
                = length x)
    by (apply where_length; [apply List.length_map | apply rolling_mean_length]).
  rewrite where_length; [exact Hx1 | apply List.length_map |].
  now rewrite rolling_mean_length, Hx1.
Qed.
End ColumnLoops.

(** ** The laws in the two models *)

Lemma SFcompare_lt_asym (a b : SpecFloat.spec_float) :
  SpecFloat.SFcompare a b = Some Lt -> SpecFloat.SFcompare b a <> Some Lt.
Proof.
  destruct a as [sa | sa | | sa ma ea], b as [sb | sb | | sb mb eb]; simpl;
    try congruence; try (destruct sa, sb; congruence);
    try (destruct sa; congruence); try (destruct sb; congruence).
  change (Pos.compare_cont Eq ma mb) with (ma ?= mb)%positive.
  change (Pos.compare_cont Eq mb ma) with (mb ?= ma)%positive.
  destruct sa, sb; try congruence;
    rewrite (Z.compare_antisym ea eb); destruct (ea ?= eb)%Z; simpl; try congruence;
    rewrite (Pos.compare_antisym ma mb); destruct (ma ?= mb)%positive; simpl; congruence.
Qed.

#[global] Instance binary64_laws : Float64Laws float.
Proof.
  split; [reflexivity|]. intros a b. cbn [f_ltb binary64].
  rewrite !FloatAxioms.ltb_spec. unfold SpecFloat.SFltb. intros Hab.
  destruct (SpecFloat.SFcompare (Prim2SF a) (Prim2SF b)) as [[]|] eqn:E; try discriminate.
  pose proof (SFcompare_lt_asym _ _ E).
  destruct (SpecFloat.SFcompare (Prim2SF b) (Prim2SF a)) as [[]|]; congruence.
Qed.

#[global] Instance ideal64_laws : Float64Laws xreal.
Proof.
  split; [reflexivity|]. intros [a|] [b|]; cbn [f_ltb ideal64 xltb]; try discriminate.
  destruct (Rlt_dec a b), (Rlt_dec b a); try reflexivity; try discriminate. lra.
Qed.

(** ** The 3-sigma repair and the repair at the bounds *)

Section Repairs.
Context {F : Type} `{Float64 F} {roll : Rolling F}.

Lemma lookup_column_NoDup (name : string) (c : column F) (cols : list (string * column F)) :
  List.NoDup (map fst cols) -> In (name, c) cols -> lookup_column name cols = Some c.
Proof.
  induction cols as [|[n c0] cols IH]; simpl; [intros _ []|].
  intros Hnodup Hin. apply NoDup_cons_iff in Hnodup as [Hfresh Hnodup].
  destruct Hin as [Heq | Hin].
  - inversion Heq; subst. now rewrite String.eqb_refl.
  - destruct (String.eqb n name) eqn:E.
    + apply String.eqb_eq in E. subst n. exfalso. apply Hfresh.
      change name with (fst (name, c)). now apply in_map.
    + now apply IH.
Qed.


Lemma attr_bounds_names :
  List.NoDup (map (fun b : string * (F * F) => fst b) ATTR_BOUNDS).
Proof.
  unfold ATTR_BOUNDS. cbn [map fst].
  repeat (apply NoDup_cons; [cbn [In]; intuition discriminate|]). apply NoDup_nil.
Qed.

End Repairs.

(** ** The pipeline on a feed that leaves no complete row *)

Section EmptyFrame.
Context {F : Type} `{Float64 F} `{Float64Trig F} {roll : Rolling F}.

Lemma rolling_median_nil (w : nat) : rolling_median w ([] : list F) = [].
Proof. apply length_zero_iff_nil. now rewrite rolling_median_length. Qed.

(** The frame with the pipeline's columns and no row. *)
Lemma frame_of_no_rows :
  frame_of_rows (F := F) []
  = mk_df []
      [("time", TimeCol []); ("shortwave", NumCol []); ("air temp", NumCol []);
       ("atmospheric pressure", NumCol []); ("relative humidity", NumCol []);
       ("longwave", NumCol []); ("wind speed", NumCol []);
       ("wind direction", NumCol [])]%string.
Proof. reflexivity. Qed.

Lemma median_filtering_no_rows :
  median_filtering (frame_of_rows (F := F) []) = (Ok tt, frame_of_rows []).
Proof.
  rewrite frame_of_no_rows. unfold median_filtering, median_filter_feature. pd_unfold.
  cbn. now rewrite !rolling_median_nil.
Qed.

Lemma clip_stage_no_rows :
  clip_stage (frame_of_rows (F := F) []) = (Ok tt, frame_of_rows []).
Proof. reflexivity. Qed.

(** Stage 3 on no rows: [std[0] = 0] gives [std] a row that the column
    does not have, and the comparison with the band is refused. *)
Lemma sigma_stage_no_rows :
  sigma_stage (frame_of_rows (F := F) []) = (Raise ValueError, frame_of_rows []).
Proof.
  rewrite frame_of_no_rows.
  set (E := mk_df (F := F) [] _).
  assert (Hshort : sigma_repair_feature "shortwave" E = (Raise ValueError, E)).
  { rewrite (sigma_repair_feature_run "shortwave" E []) by (discriminate || reflexivity).
    cbv zeta. rewrite series_lt_misaligned; [reflexivity|].
    cbn [s_index]. now apply sigma_bands_misaligned. }
  unfold sigma_stage, mbind, pd_mbind, pd_columns. unfold pd_bind at 1.
  cbn [df_columns map fst E pd_for].
  unfold pd_bind at 1.
  change (sigma_repair_feature "time" E) with (Ok tt, E).
  cbv beta iota. unfold pd_bind at 1. now rewrite Hshort.
Qed.

Lemma remove_outliers_no_rows :
  remove_outliers (frame_of_rows (F := F) []) = (Raise ValueError, frame_of_rows []).
Proof.
  unfold remove_outliers. unfold mbind, pd_mbind, pd_bind.
  rewrite median_filtering_no_rows. cbv beta iota.
  rewrite clip_stage_no_rows. cbv beta iota.
  now rewrite sigma_stage_no_rows.
Qed.

Lemma clean_frame_no_rows :
  clean_frame (frame_of_rows (F := F) []) = (Raise ValueError, frame_of_rows []).
Proof.
  unfold clean_frame. unfold mbind, pd_mbind, pd_bind.
  change (trim_nan_rows (frame_of_rows (F := F) [])) with (Ok tt, frame_of_rows (F := F) []).
  cbv beta iota.
  change (pd_sort_by_time (frame_of_rows (F := F) [])) with (Ok tt, frame_of_rows (F := F) []).
  cbv beta iota. now rewrite remove_outliers_no_rows.
Qed.
End EmptyFrame.

Section IncompleteRows.
Context {F : Type} `{Float64 F} `{!Float64Laws F} `{Float64Trig F} {roll : Rolling F}.

Lemma keep_by_none {A B : Type} (flags : list B) (xs : list A) :
  keep_by (map negb (map (fun _ => true) flags)) xs = [].
Proof.
  revert xs. induction flags as [|b flags IH]; intros [|x xs]; simpl; auto.
Qed.

(** A row with a NaN among its seven cells is flagged. *)
Lemma isnull_any_incomplete (historical : list (datetime * list F)) :
  Forall (fun kr => exists j x, (j < length features)%nat
                                /\ snd kr !! j = Some x /\ f_isnan x = true) historical ->
  isnull_any (frame_of_rows historical) = map (fun _ => true) historical.
Proof.
  intros Hrows. unfold isnull_any, frame_of_rows. cbn [df_index df_columns].
  unfold range_index. rewrite List.length_map, List.length_seq.
  assert (Hgen : forall start (rest : list (datetime * list F)),
             (forall i kr, rest !! i = Some kr -> historical !! (start + i)%nat = Some kr) ->
             map (fun i =>
                    existsb (fun nc : string * column F => cell_isnull (snd nc) i)
                      (("time"%string, TimeCol (map fst historical))
                       :: map (fun jn => (snd jn,
                                          NumCol (map (fun r => nth (fst jn) (snd r) f_nan)
                                                    historical)))
                            (combine (seq 0 (length features)) features)))
                 (seq start (length rest))
             = map (fun _ => true) rest).
  { intros start rest. revert start. induction rest as [|kr rest IH]; intros start Hsub;
      [reflexivity|].
    cbn [length seq map]. f_equal.
    - pose proof (Hsub 0%nat kr eq_refl) as Hkr. rewrite Nat.add_0_r in Hkr.
      rewrite Forall_forall in Hrows.
      destruct (Hrows kr) as (j & x & Hj & Hx & Hnan).
      { apply list_elem_of_In. eapply list_elem_of_lookup_2. exact Hkr. }
      apply existsb_exists.
      exists (nth j features ""%string,
              NumCol (map (fun r => nth j (snd r) f_nan) historical)).
      split.
      + right. apply in_map_iff. exists (j, nth j features ""%string). split; [reflexivity|].
        clear - Hj. unfold features in *. simpl in Hj.
        do 7 (destruct j as [|j]; [simpl; tauto|]). lia.
      + cbn [snd cell_isnull]. rewrite lookup_map, Hkr. cbn [fmap option_fmap option_map].
        rewrite (nth_lookup_Some _ _ f_nan _ Hx). exact Hnan.
    - apply IH. intros i kr' Hi. replace (S start + i)%nat with (start + S i)%nat by lia.
      now apply Hsub. }
  apply (Hgen 0%nat historical). intros i kr Hi. exact Hi.
Qed.

(** When no row is complete, the first trim leaves the frame without
    rows. *)
Lemma trim_incomplete_rows (historical : list (datetime * list F)) :
  Forall (fun kr => exists j x, (j < length features)%nat
                                /\ snd kr !! j = Some x /\ f_isnan x = true) historical ->
  trim_nan_rows (frame_of_rows historical) = (Ok tt, frame_of_rows []).
Proof.
  intros Hrows. unfold trim_nan_rows, pd_drop_rows.
  rewrite (isnull_any_incomplete historical Hrows).
  set (flags := map (fun _ : datetime * list F => true) historical).
  assert (Hlen : length flags = length historical) by apply List.length_map.
  change (df_index (frame_of_rows historical)) with (range_index (length historical)).
  rewrite <- Hlen, flagged_in_range_index, keep_unflagged_positions.
  subst flags. unfold frame_of_rows. cbn [df_columns map combine seq length features fst snd keep_column].
  now rewrite !keep_by_none.
Qed.

Lemma no_complete_row_raises (buoy_json : list buoy_sample) (uscg_json : list uscg_sample)
  (historical : list (datetime * list F)) :
  merge_samples buoy_json uscg_json = Ok historical ->
  Forall (fun kr => exists j x, (j < length features)%nat
                                /\ snd kr !! j = Some x /\ f_isnan x = true) historical ->
  get_model_historical_data buoy_json uscg_json = Raise ValueError.
Proof.
  intros Hmerge Hrows. unfold get_model_historical_data. rewrite Hmerge.
  cbn [mbind result_bind]. unfold clean_frame, mbind, pd_mbind. unfold pd_bind at 1.
  rewrite (trim_incomplete_rows historical Hrows).
  pose proof (clean_frame_no_rows (F := F)) as Hclean.
  unfold clean_frame, mbind, pd_mbind in Hclean. unfold pd_bind at 1 in Hclean.
  change (trim_nan_rows (frame_of_rows (F := F) [])) with (Ok tt, frame_of_rows (F := F) [])
    in Hclean.
  cbv beta iota in Hclean. cbv beta iota. now rewrite Hclean.
Qed.

(** *** A feed that answers alone *)

Lemma dd_set_cell_Forall (P : list F -> Prop) (key : datetime) (idx : nat) (v : F)
  (m m' : list (datetime * list F)) :
  (forall row, P row -> P (<[idx := v]> row)) -> P historical_default ->
  Forall (fun kr => P (snd kr)) m ->
  dd_set_cell datetime_eqb historical_default key idx v m = Ok m' ->
  Forall (fun kr => P (snd kr)) m'.
Proof.
  intros Hins Hdef Hm. revert m'. induction Hm as [|[k row] m Hrow Hm IH]; intros m' Hset.
  - simpl in Hset. unfold list_setitem in Hset.
    destruct (idx <? length historical_default)%nat; simpl in Hset; [|discriminate].
    inversion Hset; subst. constructor; [simpl; auto | constructor].
  - simpl in Hset. destruct (datetime_eqb k key).
    + unfold list_setitem in Hset.
      destruct (idx <? length row)%nat; simpl in Hset; [|discriminate].
      inversion Hset; subst. constructor; [simpl in *; auto | exact Hm].
    + destruct (dd_set_cell datetime_eqb historical_default key idx v m) as [m''|e];
        simpl in Hset; [|discriminate].
      inversion Hset; subst. constructor; [exact Hrow | now apply IH].
Qed.

Lemma set_feature_Forall (P : list F -> Prop) (time : datetime) (name : string) (i : nat)
  (v : F) (h h' : list (datetime * list F)) :
  list_index name features = Ok i ->
  (forall row, P row -> P (<[i := v]> row)) -> P historical_default ->
  Forall (fun kr => P (snd kr)) h -> set_feature time name v h = Ok h' ->
  Forall (fun kr => P (snd kr)) h'.
Proof.
  intros Hi Hins Hdef Hh. unfold set_feature. rewrite Hi. cbn [mbind result_bind].
  now apply dd_set_cell_Forall.
Qed.

(** A cell that no step of a loop writes stays NaN in every row. *)
Lemma nan_at_insert (j i : nat) (v : F) (row : list F) :
  i <> j -> nan_at j row -> nan_at j (<[i := v]> row).
Proof. intros Hne Hrow. unfold nan_at. now rewrite list_lookup_insert_ne. Qed.

Lemma buoy_step_shortwave (s : buoy_sample) (h h' : list (datetime * list F)) :
  buoy_step s h = Ok h' -> Forall (fun kr => nan_at 0 (snd kr)) h ->
  Forall (fun kr => nan_at 0 (snd kr)) h'.
Proof.
  unfold buoy_step. intros Hstep Hh.
  destruct (set_feature (buoy_TmStamp s) "air temp" _ h) as [h1|e] eqn:H1;
    cbn [mbind result_bind] in Hstep; [|discriminate].
  destruct (set_feature (buoy_TmStamp s) "wind speed" _ h1) as [h2|e] eqn:H2;
    cbn [mbind result_bind] in Hstep; [|discriminate].
  eapply (set_feature_Forall (nan_at 0) _ "wind direction" 6 _ h2 h' eq_refl); eauto.
  - intros row. now apply nan_at_insert.
  - reflexivity.
  - eapply (set_feature_Forall (nan_at 0) _ "wind speed" 5 _ h1 h2 eq_refl); eauto.
    + intros row. now apply nan_at_insert.
    + reflexivity.
    + eapply (set_feature_Forall (nan_at 0) _ "air temp" 1 _ h h1 eq_refl); eauto.
      * intros row. now apply nan_at_insert.
      * reflexivity.
Qed.

Lemma uscg_step_air_temp (s : uscg_sample) (h h' : list (datetime * list F)) :
  uscg_step s h = Ok h' -> Forall (fun kr => nan_at 1 (snd kr)) h ->
  Forall (fun kr => nan_at 1 (snd kr)) h'.
Proof.
  unfold uscg_step. intros Hstep Hh.
  destruct (set_feature (uscg_TmStamp s) "shortwave" _ h) as [h1|e] eqn:H1;
    cbn [mbind result_bind] in Hstep; [|discriminate].
  destruct (set_feature (uscg_TmStamp s) "atmospheric pressure" _ h1) as [h2|e] eqn:H2;
    cbn [mbind result_bind] in Hstep; [|discriminate].
  destruct (set_feature (uscg_TmStamp s) "relative humidity" _ h2) as [h3|e] eqn:H3;
    cbn [mbind result_bind] in Hstep; [|discriminate].
  eapply (set_feature_Forall (nan_at 1) _ "longwave" 4 _ h3 h' eq_refl); eauto.
  - intros row. now apply nan_at_insert.
  - reflexivity.
  - eapply (set_feature_Forall (nan_at 1) _ "relative humidity" 3 _ h2 h3 eq_refl); eauto.
    + intros row. now apply nan_at_insert.
    + reflexivity.
    + eapply (set_feature_Forall (nan_at 1) _ "atmospheric pressure" 2 _ h1 h2 eq_refl); eauto.
      * intros row. now apply nan_at_insert.
      * reflexivity.
      * eapply (set_feature_Forall (nan_at 1) _ "shortwave" 0 _ h h1 eq_refl); eauto.
        -- intros row. now apply nan_at_insert.
        -- reflexivity.
Qed.

Lemma loop_invariant {A : Type} (step : A -> list (datetime * list F)
                                       -> result (list (datetime * list F)))
  (P : list F -> Prop) :
  (forall a h, rows_width (length features) h ->
               exists h', step a h = Ok h' /\ rows_width (length features) h') ->
  (forall a h h', step a h = Ok h' ->
                  Forall (fun kr => P (snd kr)) h -> Forall (fun kr => P (snd kr)) h') ->
  forall items h,
    rows_width (length features) h -> Forall (fun kr => P (snd kr)) h ->
    exists h', for_fold step items h = Ok h' /\ Forall (fun kr => P (snd kr)) h'.
Proof.
  intros Hok Hinv items. induction items as [|a items IH]; intros h Hw Hh; simpl.
  - now exists h.
  - destruct (Hok a h Hw) as (h1 & Hstep & Hw1). rewrite Hstep. simpl.
    apply IH; [exact Hw1 | exact (Hinv a h h1 Hstep Hh)].
Qed.

Lemma nan_rows_incomplete (j : nat) (h : list (datetime * list F)) :
  (j < length features)%nat -> Forall (fun kr => nan_at j (snd kr)) h ->
  Forall (fun kr => exists j x, (j < length features)%nat
                                /\ snd kr !! j = Some x /\ f_isnan x = true) h.
Proof.
  intros Hj Hh. eapply Forall_impl; [|exact Hh].
  intros kr Hkr. exists j, f_nan. repeat split; auto. apply f_isnan_nan.
Qed.

(** C9: the pipeline does not return an empty table.  With no reading at
    all, with readings of the buoy only, and with readings of the coast
    guard only, no row is complete, the first trim leaves no row, and
    stage 3 of the cleaning raises [ValueError]: [std[0] = 0] gives the
    standard deviations a row that the column does not have, so that the
    comparison with the band is refused. *)
Theorem incomplete_feeds_raise :
  get_model_historical_data [] [] = Raise ValueError
  /\ (forall buoy_json, get_model_historical_data buoy_json [] = Raise ValueError)
  /\ (forall uscg_json, get_model_historical_data [] uscg_json = Raise ValueError).
Proof.
  assert (Hbuoy : forall buoy_json, get_model_historical_data buoy_json [] = Raise ValueError).
  { intros buoy_json.
    destruct (loop_invariant buoy_step (nan_at 0)) with (items := buoy_json)
                                                         (h := @nil (datetime * list F))
      as (h & Hrun & Hnan).
    - intros s h Hw. destruct (buoy_step_spec s h Hw) as (h' & Hs & Hw' & _). eauto.
    - exact buoy_step_shortwave.
    - constructor.
    - constructor.
    - apply (no_complete_row_raises buoy_json [] h).
      + unfold merge_samples, historical_rows in *. now rewrite Hrun.
      + apply (nan_rows_incomplete 0); [simpl; lia | exact Hnan]. }
  split; [apply Hbuoy|]. split; [exact Hbuoy|].
  intros uscg_json.
  destruct (loop_invariant uscg_step (nan_at 1)) with (items := uscg_json)
                                                       (h := @nil (datetime * list F))
    as (h & Hrun & Hnan).
  - intros s h Hw. destruct (uscg_step_spec s h Hw) as (h' & Hs & Hw' & _). eauto.
  - exact uscg_step_air_temp.
  - constructor.
  - constructor.
  - apply (no_complete_row_raises [] uscg_json h).
    + unfold merge_samples. simpl. exact Hrun.
    + apply (nan_rows_incomplete 1); [simpl; lia | exact Hnan].
Qed.
End IncompleteRows.

Lemma incomplete_feeds_raise_example :
  get_model_historical_data (F := xreal) [] [] = Raise ValueError
  /\ get_model_historical_data
       [mk_buoy_sample (mk_datetime 738190 0 0 0 0 (Some 0))
          (Some 10%R) (Some 20%R) (Some 350%R) (Some 10%R) (Some 10%R) (Some 20%R)] []
     = Raise ValueError.
Proof.
  destruct (incomplete_feeds_raise (F := xreal)) as (Hnone & Hbuoy & _).
  split; [exact Hnone | apply Hbuoy].
Defined.


(** ** The wind vector *)

(** One step of a frame computation, reduced. *)
Ltac pd_step := cbv beta iota zeta; cbn [df_columns df_index].

Section Wind.
Context {F : Type} `{Float64 F} `{Float64Trig F}.

Lemma lookup_filter_ne (name other : string) (cols : list (string * column F)) :
  other <> name ->
  lookup_column other (List.filter (fun nc => negb (String.eqb (fst nc) name)) cols)
  = lookup_column other cols.
Proof.
  intros Hne. induction cols as [|[n c] cols IH]; simpl; [reflexivity|].
  destruct (String.eqb n name) eqn:E; simpl.
  - apply String.eqb_eq in E. subst n.
    apply String.eqb_neq in Hne. rewrite String.eqb_sym in Hne. now rewrite Hne.
  - now rewrite IH.
Qed.

Lemma lookup_filter_eq (name : string) (cols : list (string * column F)) :
  lookup_column name (List.filter (fun nc => negb (String.eqb (fst nc) name)) cols) = None.
Proof.
  induction cols as [|[n c] cols IH]; simpl; [reflexivity|].
  destruct (String.eqb n name) eqn:E; simpl; [exact IH | now rewrite E].
Qed.

(** The frame after the decomposition, for a frame with both wind
    columns. *)
Lemma decompose_wind_run (df : DataFrame F) (direction speed : list F) :
  lookup_column "wind direction" (df_columns df) = Some (NumCol direction) ->
  lookup_column "wind speed" (df_columns df) = Some (NumCol speed) ->
  decompose_wind df
  = (Ok tt,
     mk_df (df_index df)
       (List.filter (fun nc => negb (String.eqb (fst nc) "wind speed"))
          (List.filter (fun nc => negb (String.eqb (fst nc) "wind direction"))
             (replace_column "wind v" (NumCol (wind_component f_cos direction speed))
                (replace_column "wind u" (NumCol (wind_component f_sin direction speed))
                   (df_columns df)))))).
Proof.
  intros Hd Hs. unfold decompose_wind, pd_drop_column. pd_unfold.
  rewrite Hd. pd_step. rewrite Hs. pd_step.
  rewrite (lookup_replace_ne "wind u" "wind direction") by discriminate.
  rewrite Hd. pd_step.
  rewrite (lookup_replace_ne "wind u" "wind speed") by discriminate.
  rewrite Hs. pd_step.
  rewrite (lookup_replace_ne "wind v" "wind direction") by discriminate.
  rewrite (lookup_replace_ne "wind u" "wind direction") by discriminate.
  rewrite Hd. pd_step.
  rewrite (lookup_filter_ne "wind direction" "wind speed") by discriminate.
  rewrite (lookup_replace_ne "wind v" "wind speed") by discriminate.
  rewrite (lookup_replace_ne "wind u" "wind speed") by discriminate.
  now rewrite Hs.
Qed.

Lemma wind_component_lookup (trig : F -> F) (direction speed : list F) (i : nat) (d s : F) :
  direction !! i = Some d -> speed !! i = Some s ->
  wind_component trig direction speed !! i
  = Some (f_mul (f_mul (trig (f_radians d)) (f_of_Z (-1))) s).
Proof.
  intros Hd Hs. unfold wind_component. apply zip_with_lookup; [|exact Hs].
  now rewrite lookup_map, Hd.
Qed.
End Wind.

(** C7: on a frame with a wind direction and a wind speed column the
    decomposition succeeds, for every number type and whatever [np.sin],
    [np.cos] and [np.radians] are: the rows keep their labels; the frame
    has no wind direction and no wind speed column any more, has the
    columns ['wind u'] and ['wind v'], and every other column is the one
    it was; in every row with direction [d] and speed [s], [u] is
    [sin (radians d) * -1 * s] and [v] is [cos (radians d) * -1 * s], in
    the source's order of operations.  In binary64, with the values
    numpy has at the two angles, speed 10 from 0 degrees gives [u = -0]
    and [v = -10], and speed 10 from 90 degrees gives [u = -10] and
    [v = -6.123233995736766e-16]; [-0] equals 0, and the last value is
    within [2^-50] of 0. *)
Theorem decompose_wind_components :
  (forall (F : Type) (num : Float64 F) (np : Float64Trig F) (df : DataFrame F)
          (direction speed : list F),
      lookup_column "wind direction" (df_columns df) = Some (NumCol direction) ->
      lookup_column "wind speed" (df_columns df) = Some (NumCol speed) ->
      exists df' u v,
        decompose_wind df = (Ok tt, df')
        /\ df_index df' = df_index df
        /\ lookup_column "wind direction" (df_columns df') = None
        /\ lookup_column "wind speed" (df_columns df') = None
        /\ lookup_column "wind u" (df_columns df') = Some (NumCol u)
        /\ lookup_column "wind v" (df_columns df') = Some (NumCol v)
        /\ (forall name, name <> "wind direction"%string -> name <> "wind speed"%string ->
                         name <> "wind u"%string -> name <> "wind v"%string ->
                         lookup_column name (df_columns df')
                         = lookup_column name (df_columns df))
        /\ forall i d s,
            direction !! i = Some d -> speed !! i = Some s ->
            u !! i = Some (f_mul (f_mul (f_sin (f_radians d)) (f_of_Z (-1))) s)
            /\ v !! i = Some (f_mul (f_mul (f_cos (f_radians d)) (f_of_Z (-1))) s))
  /\ (forall (np : Float64Trig float) (df : DataFrame float) (direction speed : list float),
      f_radians 0%float = 0%float -> f_sin 0%float = 0%float -> f_cos 0%float = 1%float ->
      f_radians 90%float = radians_90 -> f_sin radians_90 = 1%float ->
      f_cos radians_90 = cos_radians_90 ->
      lookup_column "wind direction" (df_columns df) = Some (NumCol direction) ->
      lookup_column "wind speed" (df_columns df) = Some (NumCol speed) ->
      exists df' u v,
        decompose_wind df = (Ok tt, df')
        /\ lookup_column "wind u" (df_columns df') = Some (NumCol u)
        /\ lookup_column "wind v" (df_columns df') = Some (NumCol v)
        /\ (forall i,
              direction !! i = Some 0%float -> speed !! i = Some 10%float ->
              u !! i = Some (-0)%float /\ v !! i = Some (-10)%float)
        /\ (forall i,
              direction !! i = Some 90%float -> speed !! i = Some 10%float ->
              u !! i = Some (-10)%float /\ v !! i = Some (-0x1.60fafbfd97309p-51)%float))
  /\ PrimFloat.eqb (-0)%float 0%float = true
  /\ PrimFloat.ltb (PrimFloat.abs (-0x1.60fafbfd97309p-51)%float) 0x1p-50%float = true.
Proof.
  assert (Hgeneric :
    forall (F : Type) (num : Float64 F) (np : Float64Trig F) (df : DataFrame F)
           (direction speed : list F),
      lookup_column "wind direction" (df_columns df) = Some (NumCol direction) ->
      lookup_column "wind speed" (df_columns df) = Some (NumCol speed) ->
      decompose_wind df
      = (Ok tt,
         mk_df (df_index df)
           (List.filter (fun nc => negb (String.eqb (fst nc) "wind speed"))
              (List.filter (fun nc => negb (String.eqb (fst nc) "wind direction"))
                 (replace_column "wind v" (NumCol (wind_component f_cos direction speed))
                    (replace_column "wind u" (NumCol (wind_component f_sin direction speed))
                       (df_columns df))))))
      /\ lookup_column "wind u"
           (List.filter (fun nc => negb (String.eqb (fst nc) "wind speed"))
              (List.filter (fun nc => negb (String.eqb (fst nc) "wind direction"))
                 (replace_column "wind v" (NumCol (wind_component f_cos direction speed))
                    (replace_column "wind u" (NumCol (wind_component f_sin direction speed))
                       (df_columns df)))))
         = Some (NumCol (wind_component f_sin direction speed))
      /\ lookup_column "wind v"
           (List.filter (fun nc => negb (String.eqb (fst nc) "wind speed"))
              (List.filter (fun nc => negb (String.eqb (fst nc) "wind direction"))
                 (replace_column "wind v" (NumCol (wind_component f_cos direction speed))
                    (replace_column "wind u" (NumCol (wind_component f_sin direction speed))
                       (df_columns df)))))
         = Some (NumCol (wind_component f_cos direction speed))).
  { intros F num np df direction speed Hd Hs.
    split; [exact (decompose_wind_run df direction speed Hd Hs)|]. split.
    - rewrite !lookup_filter_ne by discriminate.
      rewrite lookup_replace_ne by discriminate. apply lookup_replace_eq.
    - rewrite !lookup_filter_ne by discriminate. apply lookup_replace_eq. }
  split; [|split; [|split; reflexivity]].
  - intros F num np df direction speed Hd Hs.
    destruct (Hgeneric F num np df direction speed Hd Hs) as (Hrun & Hu & Hv).
    eexists. exists (wind_component f_sin direction speed),
      (wind_component f_cos direction speed).
    split; [exact Hrun|]. cbn [df_index df_columns].
    split; [reflexivity|]. split; [|split; [|split; [|split; [|split]]]].
    + rewrite lookup_filter_ne by discriminate. apply lookup_filter_eq.
    + apply lookup_filter_eq.
    + exact Hu.
    + exact Hv.
    + intros name Hn1 Hn2 Hn3 Hn4. rewrite !lookup_filter_ne by assumption.
      now rewrite !lookup_replace_ne by assumption.
    + intros i d s Hdi Hsi.
      now rewrite !(wind_component_lookup _ direction speed i d s Hdi Hsi).
  - intros np df direction speed Hr0 Hs0 Hc0 Hr90 Hs90 Hc90 Hd Hs.
    destruct (Hgeneric float binary64 np df direction speed Hd Hs) as (Hrun & Hu & Hv).
    eexists. exists (wind_component f_sin direction speed),
      (wind_component f_cos direction speed).
    split; [exact Hrun|]. cbn [df_columns]. split; [exact Hu|]. split; [exact Hv|]. split.
    + intros i Hdi Hsi.
      rewrite !(wind_component_lookup _ direction speed i _ _ Hdi Hsi).
      rewrite Hr0, Hs0, Hc0. split; reflexivity.
    + intros i Hdi Hsi.
      rewrite !(wind_component_lookup _ direction speed i _ _ Hdi Hsi).
      rewrite Hr90, Hs90, Hc90. split; reflexivity.
Qed.

(** The two rows of the specification's example, with numpy's values. *)
Lemma decompose_wind_components_example :
  exists df' u v,
    @decompose_wind float binary64 numpy_at_examples example_wind_frame = (Ok tt, df')
    /\ lookup_column "wind direction" (df_columns df') = None
    /\ lookup_column "wind speed" (df_columns df') = None
    /\ lookup_column "wind u" (df_columns df') = Some (NumCol u)
    /\ lookup_column "wind v" (df_columns df') = Some (NumCol v)
    /\ u !! 0%nat = Some (-0)%float /\ v !! 0%nat = Some (-10)%float
    /\ u !! 1%nat = Some (-10)%float /\ v !! 1%nat = Some (-0x1.60fafbfd97309p-51)%float.
Proof.
  destruct decompose_wind_components as (Hgeneric & Hbinary64 & _).
  destruct (Hgeneric float binary64 numpy_at_examples example_wind_frame
              [0; 90]%float [10; 10]%float eq_refl eq_refl)
    as (df' & u & v & Hrun & _ & Hdir & Hspeed & Hu & Hv & _).
  destruct (Hbinary64 numpy_at_examples example_wind_frame [0; 90]%float [10; 10]%float
              eq_refl eq_refl eq_refl eq_refl eq_refl eq_refl eq_refl eq_refl)
    as (df2 & u2 & v2 & Hrun2 & Hu2 & Hv2 & Hnorth & Heast).
  rewrite Hrun in Hrun2. inversion Hrun2; subst df2.
  rewrite Hu in Hu2. rewrite Hv in Hv2. inversion Hu2; inversion Hv2; subst u2 v2.
  destruct (Hnorth 0%nat eq_refl eq_refl) as [Hu0 Hv0].
  destruct (Heast 1%nat eq_refl eq_refl) as [Hu1 Hv1].
  exists df', u, v. repeat split; assumption.
Defined.
(** ** The stages on the example frame *)

Lemma example_frame_names : List.NoDup (map fst (df_columns example_frame)).
Proof.
  cbn [map fst df_columns example_frame].
  repeat (apply NoDup_cons; [cbn [In]; intuition discriminate|]). apply NoDup_nil.
Qed.

Lemma trim_nan_rows_exact_example :
  frame_wf example_frame
  /\ exists df',
      trim_nan_rows example_frame = (Ok tt, df')
      /\ frame_rows df' = List.filter (fun r => negb (row_has_nan r)) (frame_rows example_frame)
      /\ Forall (fun r => Forall (fun c => cell_is_nan c = false) (snd r)) (frame_rows df').
Proof.
  assert (Hwf : frame_wf example_frame) by (repeat constructor).
  split; [exact Hwf|].
  destruct (trim_nan_rows_exact example_frame Hwf eq_refl)
    as (df' & Hrun & Hrows & _ & _ & Hnan & _).
  exists df'. repeat split; assumption.
Defined.


(** ** The rolling statistics of the direct reading *)

Lemma filter_seq_interval (a b start n : nat) :
  List.filter (fun j => (a <=? j)%nat && (j <? b)%nat) (seq start n)
  = seq (Nat.max a start) (Nat.min b (start + n) - Nat.max a start).
Proof.
  revert start. induction n as [|n IH]; intros start; simpl.
  - replace (Nat.min b (start + 0) - Nat.max a start)%nat with 0%nat by lia. reflexivity.
  - rewrite IH. destruct (a <=? start)%nat eqn:Ea; destruct (start <? b)%nat eqn:Eb; simpl;
      first [apply Nat.leb_le in Ea | apply Nat.leb_gt in Ea];
      first [apply Nat.ltb_lt in Eb | apply Nat.ltb_ge in Eb].
    + match goal with
      | |- _ :: seq ?a1 ?l1 = seq ?a2 ?l2 =>
          replace l2 with (S l1) by lia; replace a2 with start by lia;
          replace a1 with (S start) by lia
      end.
      reflexivity.
    + match goal with
      | |- seq ?a1 ?l1 = seq ?a2 ?l2 =>
          replace l1 with 0%nat by lia; replace l2 with 0%nat by lia
      end.
      reflexivity.
    + f_equal; lia.
    + match goal with
      | |- seq ?a1 ?l1 = seq ?a2 ?l2 =>
          replace l1 with 0%nat by lia; replace l2 with 0%nat by lia
      end.
      reflexivity.
Qed.

Lemma centered_rows_interval (w n i : nat) :
  centered_rows w n i
  = seq (i + 1 + (w - 1) / 2 - w)
        (Nat.min (i + 1 + (w - 1) / 2) n - (i + 1 + (w - 1) / 2 - w)).
Proof.
  unfold centered_rows.
  rewrite (List.filter_ext _ (fun j => (i + 1 + (w - 1) / 2 - w <=? j)%nat
                                        && (j <? i + 1 + (w - 1) / 2)%nat)).
  - rewrite filter_seq_interval. f_equal; lia.
  - intros j. f_equal.
    + destruct (i + (w - 1) / 2 + 1 <=? j + w)%nat eqn:E1;
        destruct (i + 1 + (w - 1) / 2 - w <=? j)%nat eqn:E2; try reflexivity;
        [apply Nat.leb_le in E1; apply Nat.leb_gt in E2
        |apply Nat.leb_gt in E1; apply Nat.leb_le in E2]; lia.
    + destruct (j <=? i + (w - 1) / 2)%nat eqn:E1;
        destruct (j <? i + 1 + (w - 1) / 2)%nat eqn:E2; try reflexivity;
        [apply Nat.leb_le in E1; apply Nat.ltb_ge in E2
        |apply Nat.leb_gt in E1; apply Nat.ltb_lt in E2]; lia.
Qed.

Section DirectReading.
Context {F : Type} `{Float64 F}.

Lemma observations_seq (x : list F) (start len : nat) :
  observations x (seq start len)
  = List.filter (fun v => negb (f_isnan v || f_isinf v)) (take len (drop start x)).
Proof.
  unfold observations. revert start. induction len as [|len IH]; intros start.
  - reflexivity.
  - destruct (x !! start) as [v|] eqn:Ev.
    + rewrite (drop_S _ _ _ Ev). cbn. rewrite Ev. cbn.
      destruct (f_isnan v || f_isinf v); cbn; now rewrite <- IH.
    + cbn. rewrite Ev. cbn. rewrite IH.
      apply lookup_ge_None_1 in Ev.
      rewrite !drop_ge by lia. now rewrite !take_nil.
Qed.

(** The window the direct reading takes holds the observations of the
    centered window. *)
Lemma window_at_centered (w : nat) (x : list F) (i : nat) :
  window_at w x i = observations x (centered_rows w (length x) i).
Proof.
  rewrite centered_rows_interval, observations_seq. unfold window_at. cbv zeta.
  f_equal.
  set (stop := (i + 1 + (w - 1) / 2)%nat). set (start := (stop - w)%nat).
  destruct (Nat.le_gt_cases stop (length x)) as [Hle | Hgt].
  - now replace (Nat.min stop (length x)) with stop by lia.
  - replace (Nat.min stop (length x)) with (length x) by lia.
    rewrite (take_ge _ (stop - start)), (take_ge _ (length x - start));
      [reflexivity | rewrite length_drop; lia | rewrite length_drop; lia].
Qed.

Lemma rolling_with_lookup (agg : list F -> F) (w : nat) (x : list F) (i : nat) :
  (i < length x)%nat -> rolling_with agg w x !! i = Some (agg (window_at w x i)).
Proof.
  intros Hi. unfold rolling_with. rewrite lookup_map.
  now rewrite (lookup_seq_lt _ _ _ Hi).
Qed.



Lemma median_of_middle (obs : list F) : median_of obs = middle_value obs.
Proof.
  unfold median_of, middle_value. cbv zeta.
  set (s := isort _ obs). destruct (length s) as [|k] eqn:Ek.
  - apply length_zero_iff_nil in Ek. rewrite Ek. reflexivity.
  - rewrite <- Ek. rewrite <- Nat.negb_even. destruct (Nat.even (length s)) eqn:Ee; cbn [negb].
    + assert (Hhi : (length s / 2 < length s)%nat) by (apply Nat.div_lt; lia).
      assert (Hlo : (length s / 2 - 1 < length s)%nat) by lia.
      destruct (lookup_lt_is_Some_2 s _ Hhi) as [b ->].
      destruct (lookup_lt_is_Some_2 s _ Hlo) as [a ->]. reflexivity.
    + reflexivity.
Qed.
End DirectReading.

(** ** The 3-sigma repair and the repair at the bounds, with their statistics *)

Section DirectRepairs.
Context {F : Type} `{Float64 F}.


End DirectRepairs.


(** ** The frames the pipeline trims *)

Section PipelineFrames.
Context {F : Type} `{Float64 F} `{Float64Trig F} {roll : Rolling F}.

Lemma range_index_length (n : nat) : length (range_index n) = n.
Proof. unfold range_index. now rewrite List.length_map, List.length_seq. Qed.

(** The frame built from the dictionary is one the trim is proved on. *)
Lemma frame_of_rows_shape (historical : list (datetime * list F)) :
  frame_wf (frame_of_rows historical)
  /\ df_index (frame_of_rows historical)
     = range_index (length (df_index (frame_of_rows historical))).
Proof.
  unfold frame_of_rows, frame_wf. cbn [df_index df_columns]. rewrite range_index_length.
  split; [|reflexivity].
  constructor; [cbn; apply List.length_map|].
  apply List.Forall_map. apply Forall_forall. intros jn _. cbn. apply List.length_map.
Qed.

Lemma omap_lookup_length {A : Type} (xs : list A) (order : list nat) :
  Forall (fun i => (i < length xs)%nat) order ->
  length (omap (fun i => xs !! i) order) = length order.
Proof.
  induction 1 as [|i order Hi Horder IH]; [reflexivity|].
  destruct (lookup_lt_is_Some_2 xs i Hi) as [x Hx].
  cbn. rewrite Hx. cbn. f_equal. exact IH.
Qed.

(** Sorting relabels the rows 0, 1, 2, ... and keeps one cell per row. *)
Lemma sort_by_time_shape (df df' : DataFrame F) :
  frame_wf df -> pd_sort_by_time df = (Ok tt, df') ->
  frame_wf df' /\ df_index df' = range_index (length (df_index df')).
Proof.
  intros Hwf. unfold pd_sort_by_time.
  destruct (lookup_column "time" (df_columns df)) as [c|]; [|discriminate].
  intros Hrun. inversion Hrun; subst df'; clear Hrun.
  cbn [df_index df_columns]. rewrite range_index_length. split; [|reflexivity].
  set (order := isort (column_leb c) (seq 0 (length (df_index df)))).
  assert (Horder : Forall (fun i => (i < length (df_index df))%nat) order).
  { apply Forall_forall. intros i Hi. apply In_isort in Hi. now apply in_seq in Hi. }
  unfold frame_wf in *. cbn [df_index df_columns]. rewrite range_index_length.
  apply List.Forall_map. eapply Forall_impl; [|exact Hwf].
  intros [n [ts|xs]] Hnc; cbn in *; apply omap_lookup_length; now rewrite Hnc.
Qed.

Lemma filter_wf (p : string * column F -> bool) (index : list Z)
  (cols : list (string * column F)) :
  frame_wf (mk_df index cols) -> frame_wf (mk_df index (List.filter p cols)).
Proof.
  unfold frame_wf. cbn [df_index df_columns]. intros Hwf.
  apply Forall_forall. intros nc Hin. apply filter_In in Hin as [Hin _].
  rewrite Forall_forall in Hwf. now apply Hwf.
Qed.

(** The decomposition keeps the labels and one cell per row. *)
Lemma decompose_wind_shape (df df' : DataFrame F) :
  frame_wf df -> decompose_wind df = (Ok tt, df') ->
  frame_wf df' /\ df_index df' = df_index df.
Proof.
  intros Hwf Hrun.
  destruct (lookup_column "wind direction" (df_columns df)) as [[ts|d]|] eqn:Hd;
    try (unfold decompose_wind in Hrun; pd_unfold; rewrite Hd in Hrun; discriminate).
  destruct (lookup_column "wind speed" (df_columns df)) as [[ts|s]|] eqn:Hs;
    try (unfold decompose_wind in Hrun; pd_unfold; rewrite Hd in Hrun;
         cbv beta iota zeta in Hrun; rewrite Hs in Hrun; discriminate).
  rewrite (decompose_wind_run df d s Hd Hs) in Hrun. inversion Hrun; subst df'; clear Hrun.
  cbn [df_index]. split; [|reflexivity].
  pose proof (wf_column_length df _ d Hwf Hd) as Hdlen.
  pose proof (wf_column_length df _ s Hwf Hs) as Hslen.
  do 2 apply filter_wf. unfold frame_wf in *. cbn [df_index df_columns].
  assert (Hlen : forall trig, length (wind_component trig d s) = length (df_index df)).
  { intros trig. unfold wind_component. rewrite length_zip_with, List.length_map. lia. }
  apply replace_column_Forall; [intros n; cbn; apply Hlen|].
  apply replace_column_Forall; [intros n; cbn; apply Hlen|]. exact Hwf.
Qed.

(** Both trims of the pipeline work on frames with one cell per row in
    each column and the labels 0, 1, 2, ... *)
Lemma pipeline_trims_default_frames (historical : list (datetime * list F))
  (df1 df2 df3 df4 : DataFrame F) :
  trim_nan_rows (frame_of_rows historical) = (Ok tt, df1) ->
  pd_sort_by_time df1 = (Ok tt, df2) ->
  remove_outliers df2 = (Ok tt, df3) ->
  decompose_wind df3 = (Ok tt, df4) ->
  (frame_wf (frame_of_rows historical)
   /\ df_index (frame_of_rows historical)
      = range_index (length (df_index (frame_of_rows historical))))
  /\ (frame_wf df4 /\ df_index df4 = range_index (length (df_index df4))).
Proof.
  intros Htrim Hsort Hclean Hwind.
  destruct (frame_of_rows_shape historical) as [Hwf0 Hidx0]. split; [now split|].
  pose proof (trim_nan_rows_wf _ Hwf0) as Hwf1. rewrite Htrim in Hwf1. cbn [snd] in Hwf1.
  destruct (sort_by_time_shape df1 df2 Hwf1 Hsort) as [Hwf2 Hidx2].
  assert (Hframe : same_frame df2 df3).
  { assert (Hkeeps : keeps_frame remove_outliers).
    { unfold remove_outliers.
      apply keeps_frame_bind; [apply median_filtering_frame | intros _].
      apply keeps_frame_bind; [apply clip_stage_frame | intros _].
      apply keeps_frame_bind; [apply sigma_stage_frame | intros _].
      apply keeps_frame_bind; [apply bound_stage_frame | intros _].
      apply median_filtering_frame. }
    specialize (Hkeeps df2). now rewrite Hclean in Hkeeps. }
  destruct Hframe as (Hidx3 & _ & _ & Hwf3).
  destruct (decompose_wind_shape df3 df4 (Hwf3 Hwf2) Hwind) as [Hwf4 Hidx4].
  split; [exact Hwf4|]. now rewrite Hidx4, Hidx3.
Qed.
End PipelineFrames.

(** * Further properties *)

(** ** The last directory of a path *)

Lemma rfind_from_absent (c : ascii) (s : str) (pos last : Z) :
  no_char c s -> rfind_from c s pos last = last.
Proof.
  unfold no_char. intros Hs. revert pos last.
  induction Hs as [|x s Hx Hs IH]; intros pos last; simpl; [reflexivity|].
  rewrite IH. apply Ascii.eqb_neq in Hx. now rewrite Hx.
Qed.

Lemma rfind_from_last (c : ascii) (a b : str) (pos last : Z) :
  no_char c b -> rfind_from c (a ++ c :: b) pos last = pos + Z.of_nat (length a).
Proof.
  intros Hb. revert pos last. induction a as [|x a IH]; intros pos last.
  - simpl. rewrite Ascii.eqb_refl, rfind_from_absent by exact Hb. lia.
  - simpl app. cbn [rfind_from]. rewrite IH. cbn [length]. lia.
Qed.

(** A string holds no [c], or it splits at its last [c]. *)
Lemma last_occurrence (c : ascii) (s : str) :
  no_char c s \/ exists a b, s = a ++ c :: b /\ no_char c b.
Proof.
  induction s as [|x s [Hs | (a & b & -> & Hb)]].
  - left. constructor.
  - destruct (ascii_dec x c) as [-> | Hx].
    + right. exists [], s. now split.
    + left. now constructor.
  - right. exists (x :: a), b. now split.
Qed.

Lemma last_directory_of_split (a b : str) :
  no_char "/" b -> getLastDirectoryInPath (a ++ "/"%char :: b) = b.
Proof.
  intros Hb. unfold getLastDirectoryInPath, rfind, slice_from.
  rewrite rfind_from_last by exact Hb.
  replace (0 + Z.of_nat (length a) + 1 <? 0) with false by (symmetry; apply Z.ltb_ge; lia).
  replace (Z.to_nat (0 + Z.of_nat (length a) + 1)) with (length (a ++ ["/"%char]))
    by (rewrite length_app; simpl; lia).
  change (a ++ "/"%char :: b) with (a ++ ["/"%char] ++ b). rewrite app_assoc.
  now rewrite drop_app_length.
Qed.

(** X1: [getLastDirectoryInPath] returns the part of the path after its
    last [/]: the result holds no [/], and the path is the result after a
    prefix that is empty (then the path held no [/]) or ends in [/]. *)
Theorem last_directory_is_after_last_slash (directoryPath : str) :
  no_char "/" (getLastDirectoryInPath directoryPath)
  /\ exists prefix,
      directoryPath = prefix ++ getLastDirectoryInPath directoryPath
      /\ (prefix = [] \/ exists a, prefix = a ++ ["/"%char]).
Proof.
  destruct (last_occurrence "/" directoryPath) as [Hp | (a & b & -> & Hb)].
  - assert (E : getLastDirectoryInPath directoryPath = directoryPath).
    { unfold getLastDirectoryInPath, rfind, slice_from.
      now rewrite rfind_from_absent by exact Hp. }
    rewrite E. split; [exact Hp|]. exists []. split; [reflexivity | now left].
  - rewrite last_directory_of_split by exact Hb. split; [exact Hb|].
    exists (a ++ ["/"%char]). split; [now rewrite <- app_assoc | right; now exists a].
Qed.

(** ** Intervals outside the layout [PTnHnMnS] *)

Section IntervalEdges.
Variable parse : str -> result datetime.

Lemma duration_step_nonneg (st : Z * Z) (letter : ascii) :
  0 <= fst st /\ 0 <= snd st ->
  0 <= fst (duration_step st letter) /\ 0 <= snd (duration_step st letter).
Proof.
  destruct st as [hours integer]. simpl. intros [Hh Hi].
  destruct (isdigit letter) eqn:Hd.
  - apply int_of_digit_range in Hd. simpl. lia.
  - destruct (Ascii.eqb letter "H"); [simpl; lia|].
    destruct (Ascii.eqb letter "M"); [simpl; split; [|lia]|].
    + assert (0 <= integer / 60) by (apply Z.div_pos; lia). lia.
    + destruct (Ascii.eqb letter "S"); simpl; [split; [|lia]|lia].
      assert (0 <= integer / 360) by (apply Z.div_pos; lia). lia.
Qed.

Lemma duration_loop_nonneg (duration : str) (st : Z * Z) :
  0 <= fst st /\ 0 <= snd st ->
  0 <= fst (fold_left duration_step duration st)
  /\ 0 <= snd (fold_left duration_step duration st).
Proof.
  revert st. induction duration as [|c duration IH]; intros st Hst; [exact Hst|].
  cbn [fold_left]. apply IH. now apply duration_step_nonneg.
Qed.

(** X2: the number of hours [parse_interval] returns is never negative,
    whatever the text of the interval. *)
Theorem parse_interval_hours_nonnegative (interval : str) (d : datetime) (hours : Z) :
  parse_interval parse interval = Ok (d, hours) -> 0 <= hours.
Proof.
  unfold parse_interval.
  destruct (if contains (py "/") interval then Some (py "/")
            else if contains (py "--") interval then Some (py "--") else None) as [sep|].
  - destruct (str_split sep interval) as [|date [|duration [|]]]; try discriminate.
    pose proof (duration_loop_nonneg duration (0, 0)) as Hloop.
    destruct (fold_left duration_step duration (0, 0)) as [h i].
    destruct (parse date); cbn [mbind result_bind]; [|discriminate].
    intros E. inversion E; subst. simpl in Hloop. lia.
  - destruct (parse interval); cbn [mbind result_bind]; [|discriminate].
    intros E. inversion E. lia.
Qed.

Lemma split_from_not_nil (sep : str) (skip : nat) (cur s : str) :
  split_from sep skip cur s <> [].
Proof.
  revert skip cur. induction s as [|c s IH]; intros skip cur; simpl; [discriminate|].
  destruct skip; [|apply IH]. destruct (startswith sep (c :: s)); [discriminate | apply IH].
Qed.

(** X3: an interval with a second [/] is refused: unpacking the pieces
    raises [ValueError], whatever the parser would have said. *)
Theorem parse_interval_second_separator (date duration rest : str) :
  no_char "/" date -> no_char "/" duration ->
  parse_interval parse (date ++ "/"%char :: duration ++ "/"%char :: rest) = Raise ValueError.
Proof.
  intros Hdate Hduration. unfold parse_interval.
  rewrite contains_slash_app. unfold str_split.
  rewrite (split_slash_first [] date) by exact Hdate.
  rewrite (split_slash_first [] duration) by exact Hduration.
  pose proof (split_from_not_nil (py "/") 0 [] rest) as Hrest.
  cbn [app]. destruct (split_from (py "/") 0 [] rest); [contradiction | reflexivity].
Qed.

(** X4: a letter that is no digit and none of [H], [M], [S] is passed
    over without closing the number being read.  In [PnDTmH] the digits
    of the day count are therefore read as the leading digits of the
    hours: [P1DT6H] is 16 hours. *)
Theorem parse_interval_day_designator (date days hours : str) :
  no_char "/" date -> numeral days -> numeral hours ->
  parse_interval parse (date ++ py "/P" ++ days ++ py "DT" ++ hours ++ py "H")
  = (d ← parse date;
     Ok (d, decimal days * 10 ^ Z.of_nat (length hours) + decimal hours)).
Proof.
  intros Hdate Hdays Hhours.
  assert (Hdigits : forall ds, numeral ds -> no_char "/" ds).
  { intros ds Hds. unfold no_char. eapply Forall_impl; [|exact Hds].
    intros c Hc ->. discriminate. }
  assert (Hskip : forall x st, isdigit x = false -> x <> "H"%char -> x <> "M"%char ->
                     x <> "S"%char -> duration_step st x = st).
  { intros x [h i] Hx HH HM HS. unfold duration_step. rewrite Hx.
    apply Ascii.eqb_neq in HH, HM, HS. now rewrite HH, HM, HS. }
  rewrite (parse_interval_split parse _ (py "/") date
             (py "P" ++ days ++ py "DT" ++ hours ++ py "H")).
  - change (py "P" ++ days ++ py "DT" ++ hours ++ py "H")
      with ("P"%char :: days ++ "D"%char :: "T"%char :: hours ++ ["H"%char]).
    cbn [fold_left]. rewrite Hskip by (reflexivity || discriminate).
    rewrite fold_left_app, (duration_digits days) by exact Hdays.
    cbn [fold_left]. rewrite !Hskip by (reflexivity || discriminate).
    rewrite fold_left_app, (duration_digits hours) by exact Hhours.
    cbn [fold_left]. unfold duration_step at 1.
    change (isdigit "H") with false. change (Ascii.eqb "H" "H") with true.
    cbv iota. cbn [fst]. destruct (parse date); cbn [mbind result_bind]; [|reflexivity].
    f_equal; f_equal; ring.
  - change (py "/P" ++ days ++ py "DT" ++ hours ++ py "H")
      with ("/"%char :: py "P" ++ days ++ py "DT" ++ hours ++ py "H").
    now rewrite contains_slash_app.
  - unfold str_split.
    change (py "/P" ++ days ++ py "DT" ++ hours ++ py "H")
      with ("/"%char :: py "P" ++ days ++ py "DT" ++ hours ++ py "H").
    rewrite split_slash_first by exact Hdate.
    rewrite split_slash_none; [reflexivity|].
    unfold no_char. rewrite !Forall_app. repeat split; try (now apply Hdigits).
    all: repeat constructor; discriminate.
Qed.
End IntervalEdges.

Lemma parse_interval_hours_nonnegative_example : 0 <= 4.
Proof.
  apply (parse_interval_hours_nonnegative iso_parse (py "2022-02-04T02:00:00+00:00/PT4H")
           (mk_datetime 738190 2 0 0 0 (Some 0)) 4).
  vm_compute. reflexivity.
Defined.

Lemma parse_interval_second_separator_example :
  parse_interval iso_parse (py "2022-02-04T02:00:00+00:00/PT4H/PT1H") = Raise ValueError.
Proof.
  apply (parse_interval_second_separator iso_parse (py "2022-02-04T02:00:00+00:00")
           (py "PT4H") (py "PT1H")).
  - repeat constructor; discriminate.
  - repeat constructor; discriminate.
Defined.

Lemma parse_interval_day_designator_example :
  parse_interval iso_parse (py "2022-02-04T02:00:00+00:00/P1DT6H")
  = Ok (mk_datetime 738190 2 0 0 0 (Some 0), 16).
Proof.
  apply (parse_interval_day_designator iso_parse (py "2022-02-04T02:00:00+00:00")
           (py "1") (py "6")).
  - repeat constructor; discriminate.
  - repeat constructor.
  - repeat constructor.
Defined.

(** ** Rounding to the hour *)

(** X5: on a valid datetime [round_to_nearest_hour] raises exactly in the
    last half hour of a day, and what it raises is [ValueError]. *)
Theorem round_to_nearest_hour_raises_iff (d : datetime) :
  valid_datetime d ->
  ((exists e, round_to_nearest_hour d = Raise e) <-> dt_hour d = 23 /\ 30 <= dt_minute d)
  /\ (forall e, round_to_nearest_hour d = Raise e -> e = ValueError).
Proof.
  intros Hd. rewrite (round_to_nearest_hour_cases d Hd).
  destruct (30 <=? dt_minute d) eqn:Hm; [destruct (dt_hour d =? 23) eqn:Hh|].
  - apply Z.leb_le in Hm. apply Z.eqb_eq in Hh. split.
    + split; [now split | intros _; now exists ValueError].
    + intros e E. now inversion E.
  - apply Z.eqb_neq in Hh. split.
    + split; [intros [e E]; discriminate | intros [Hh' _]; contradiction].
    + discriminate.
  - apply Z.leb_gt in Hm. split.
    + split; [intros [e E]; discriminate | intros [_ Hm']; lia].
    + discriminate.
Qed.

Lemma round_to_nearest_hour_raises_iff_example :
  ((exists e, round_to_nearest_hour (mk_datetime 738190 23 45 0 0 (Some 0)) = Raise e)
   <-> 23 = 23 /\ 30 <= 45)
  /\ (forall e, round_to_nearest_hour (mk_datetime 738190 23 45 0 0 (Some 0)) = Raise e ->
                e = ValueError).
Proof.
  apply (round_to_nearest_hour_raises_iff (mk_datetime 738190 23 45 0 0 (Some 0))).
  unfold valid_datetime, MAXORDINAL. simpl. lia.
Defined.

(** X6: when [round_to_nearest_hour] returns, the result is on an hour of
    the same day in the same zone, and no more than half an hour away
    from its argument: at most 30 minutes later and less than 30 minutes
    earlier, up to the microsecond, which it keeps. *)
Theorem round_to_nearest_hour_is_nearest (d T : datetime) :
  valid_datetime d -> round_to_nearest_hour d = Ok T ->
  on_the_hour T
  /\ dt_ordinal T = dt_ordinal d /\ dt_tz T = dt_tz d /\ dt_microsecond T = dt_microsecond d
  /\ - 1800 * 1000000 < instant T - instant d <= 1800 * 1000000.
Proof.
  intros Hd. rewrite (round_to_nearest_hour_cases d Hd).
  destruct Hd as (Ho & Hh & Hm & Hs & Hu). unfold on_the_hour, instant.
  destruct (30 <=? dt_minute d) eqn:E; [destruct (dt_hour d =? 23); [discriminate|]|];
    intros HT; inversion HT; subst; clear HT; cbn [dt_ordinal dt_hour dt_minute dt_second
                                                    dt_microsecond dt_tz].
  - apply Z.leb_le in E. repeat split; lia.
  - apply Z.leb_gt in E. repeat split; lia.
Qed.

Lemma round_to_nearest_hour_is_nearest_example :
  on_the_hour (mk_datetime 738190 3 0 0 250 (Some 0))
  /\ 738190 = 738190 /\ Some 0 = Some 0 /\ 250 = 250
  /\ - 1800 * 1000000
     < instant (mk_datetime 738190 3 0 0 250 (Some 0))
       - instant (mk_datetime 738190 2 30 0 250 (Some 0))
     <= 1800 * 1000000.
Proof.
  apply (round_to_nearest_hour_is_nearest (mk_datetime 738190 2 30 0 250 (Some 0))
           (mk_datetime 738190 3 0 0 250 (Some 0))).
  - unfold valid_datetime, MAXORDINAL. simpl. lia.
  - reflexivity.
Defined.

Lemma replace_hms_fields (d T : datetime) (h m s : Z) :
  replace_hms d h m s = Ok T ->
  T = mk_datetime (dt_ordinal d) h m s (dt_microsecond d) (dt_tz d)
  /\ 0 <= h < 24 /\ 0 <= m < 60 /\ 0 <= s < 60.
Proof.
  unfold replace_hms.
  destruct ((0 <=? h) && (h <? 24) && (0 <=? m) && (m <? 60) && (0 <=? s) && (s <? 60))
    eqn:E; [|discriminate].
  intros HT. inversion HT. split; [reflexivity|].
  repeat (apply andb_true_iff in E as [E ?]). lia.
Qed.

Lemma round_to_nearest_hour_fields (d T : datetime) :
  round_to_nearest_hour d = Ok T ->
  on_the_hour T /\ 0 <= dt_hour T < 24
  /\ T = mk_datetime (dt_ordinal d) (dt_hour T) 0 0 (dt_microsecond d) (dt_tz d).
Proof.
  unfold round_to_nearest_hour, on_the_hour.
  destruct (30 <=? dt_minute d); intros HT; apply replace_hms_fields in HT as (-> & Hh & _);
    cbn [dt_hour dt_minute dt_second]; repeat split; lia.
Qed.

(** X7: rounding is idempotent: a time [round_to_nearest_hour] returned
    rounds to itself, whatever the datetime it came from. *)
Theorem round_to_nearest_hour_idempotent (d T : datetime) :
  round_to_nearest_hour d = Ok T -> round_to_nearest_hour T = Ok T.
Proof.
  intros HT. apply round_to_nearest_hour_fields in HT as ([Hm Hs] & Hh & E).
  unfold round_to_nearest_hour. rewrite Hm. cbn [Z.leb Z.compare].
  rewrite replace_hms_ok by lia. rewrite E at 3. now rewrite E.
Qed.

Lemma round_to_nearest_hour_idempotent_example :
  round_to_nearest_hour (mk_datetime 738190 3 0 0 250 (Some 0))
  = Ok (mk_datetime 738190 3 0 0 250 (Some 0)).
Proof.
  apply (round_to_nearest_hour_idempotent (mk_datetime 738190 2 30 0 250 (Some 0))).
  reflexivity.
Defined.

(** ** Loops that may raise *)

Lemma for_fold_invariant {A S : Type} (I : S -> Prop) (body : A -> S -> result S)
  (items : list A) (s s' : S) :
  (forall a s1 s2, In a items -> I s1 -> body a s1 = Ok s2 -> I s2) ->
  I s -> for_fold body items s = Ok s' -> I s'.
Proof.
  revert s. induction items as [|a items IH]; intros s Hbody Hs; simpl.
  - intros E. now inversion E; subst.
  - destruct (body a s) as [s1|e] eqn:E1; cbn [mbind result_bind]; [|discriminate].
    apply IH.
    + intros b t1 t2 Hb. apply Hbody. now right.
    + eapply Hbody; [now left | exact Hs | exact E1].
Qed.

Lemma for_fold_ok_each {A S : Type} (body : A -> S -> result S) (items : list A) (s s' : S) :
  for_fold body items s = Ok s' ->
  forall a, In a items -> exists s1 s2, body a s1 = Ok s2.
Proof.
  revert s. induction items as [|a items IH]; intros s E b Hb; [destruct Hb|].
  simpl in E. destruct (body a s) as [s1|e] eqn:E1; cbn [mbind result_bind] in E;
    [|discriminate].
  destruct Hb as [<- | Hb]; [now exists s, s1 | now apply (IH s1)].
Qed.

(** ** The keys of the dictionary of rows *)

Section DictionaryKeys.
Context {K V : Type} (key_eqb : K -> K -> bool) (default_row : list V).

Lemma dd_lookup_none (key : K) (m : list (K * list V)) :
  dd_lookup key_eqb key m = None <-> Forall (fun k => key_eqb k key = false) (map fst m).
Proof.
  induction m as [|[k row] m IH]; simpl.
  - split; [constructor | reflexivity].
  - destruct (key_eqb k key) eqn:E.
    + split; [discriminate | intros Hf; inversion Hf; congruence].
    + rewrite IH. split; [now constructor | intros Hf; now inversion Hf].
Qed.

(** Assigning to a cell keeps the keys in the order of their first use:
    a key that is there stays where it is, a new one goes to the end. *)
Lemma dd_set_cell_keys (key : K) (idx : nat) (v : V) (m m' : list (K * list V)) :
  dd_set_cell key_eqb default_row key idx v m = Ok m' ->
  map fst m' = match dd_lookup key_eqb key m with
               | Some _ => map fst m
               | None => map fst m ++ [key]
               end.
Proof.
  revert m'. induction m as [|[k row] m IH]; intros m'; simpl.
  - destruct (list_setitem default_row idx v); cbn [mbind result_bind]; [|discriminate].
    intros E. now inversion E.
  - destruct (key_eqb k key).
    + destruct (list_setitem row idx v); cbn [mbind result_bind]; [|discriminate].
      intros E. now inversion E.
    + destruct (dd_set_cell key_eqb default_row key idx v m) as [m''|];
        cbn [mbind result_bind]; [|discriminate].
      intros E. inversion E; subst. simpl. rewrite (IH m'' eq_refl).
      now destruct (dd_lookup key_eqb key m).
Qed.

Lemma distinct_keys_snoc (key : K) (keys : list K) :
  ForallOrdPairs (fun a b => key_eqb a b = false) keys ->
  Forall (fun k => key_eqb k key = false) keys ->
  ForallOrdPairs (fun a b => key_eqb a b = false) (keys ++ [key]).
Proof.
  induction 1 as [|k keys Hk Hkeys IH]; intros Hnew; simpl.
  - repeat constructor.
  - inversion Hnew; subst. constructor; [|now apply IH].
    apply Forall_app. split; [exact Hk | now constructor].
Qed.

Lemma dd_set_cell_distinct (key : K) (idx : nat) (v : V) (m m' : list (K * list V)) :
  dd_set_cell key_eqb default_row key idx v m = Ok m' ->
  distinct_keys key_eqb m -> distinct_keys key_eqb m'.
Proof.
  unfold distinct_keys. intros E Hm. rewrite (dd_set_cell_keys _ _ _ _ _ E).
  destruct (dd_lookup key_eqb key m) eqn:El; [exact Hm|].
  apply distinct_keys_snoc; [exact Hm | now apply dd_lookup_none].
Qed.

Lemma dd_set_cell_key_Forall (P : K -> Prop) (key : K) (idx : nat) (v : V)
  (m m' : list (K * list V)) :
  dd_set_cell key_eqb default_row key idx v m = Ok m' ->
  P key -> Forall P (map fst m) -> Forall P (map fst m').
Proof.
  intros E Hkey Hm. rewrite (dd_set_cell_keys _ _ _ _ _ E).
  destruct (dd_lookup key_eqb key m); [exact Hm|].
  apply Forall_app. split; [exact Hm | now constructor].
Qed.

Lemma dd_set_cell_width (n : nat) (key : K) (idx : nat) (v : V) (m m' : list (K * list V)) :
  dd_set_cell key_eqb default_row key idx v m = Ok m' ->
  length default_row = n -> rows_width n m -> rows_width n m'.
Proof.
  unfold rows_width. intros E Hdef Hm. revert m' E.
  induction Hm as [|[k row] m Hrow Hm IH]; intros m'; simpl.
  - unfold list_setitem. destruct (idx <? length default_row)%nat;
      cbn [mbind result_bind]; [|discriminate].
    intros E. inversion E. constructor; [|constructor]. simpl.
    now rewrite length_insert.
  - destruct (key_eqb k key).
    + unfold list_setitem. destruct (idx <? length row)%nat;
        cbn [mbind result_bind]; [|discriminate].
      intros E. inversion E. constructor; [|exact Hm]. simpl.
      now rewrite length_insert.
    + destruct (dd_set_cell key_eqb default_row key idx v m) as [m''|];
        cbn [mbind result_bind]; [|discriminate].
      intros E. inversion E. constructor; [exact Hrow | now apply IH].
Qed.
End DictionaryKeys.

(** ** The table of the forecast *)

Section ForecastTable.
Context {F : Type} `{Float64 F}.
Variable parse : str -> result datetime.

Lemma shift_hours_on_the_hour (T : datetime) (h : Z) :
  on_the_hour T -> on_the_hour (shift_hours T h).
Proof.
  unfold on_the_hour, shift_hours. intros [-> ->]. cbn [dt_minute dt_second].
  replace (dt_hour T * 3600 + 0 * 60 + 0 + h * 3600) with ((dt_hour T + h) * 3600) by ring.
  set (secs := (dt_hour T + h) * 3600).
  assert (Hrem : (secs mod 86400) mod 3600 = 0).
  { rewrite Z.mod_mod_divide by (exists 24; reflexivity).
    unfold secs. apply Z.mod_mul. lia. }
  split.
  - rewrite Hrem. reflexivity.
  - rewrite Z.mod_mod_divide by (exists 1440; reflexivity).
    unfold secs. replace ((dt_hour T + h) * 3600) with ((dt_hour T + h) * 60 * 60) by ring.
    apply Z.mod_mul. lia.
Qed.

Lemma expand_hours_table (idx : nat) (T : datetime) (D : Z) (v : F)
  (m m' : list (datetime * list F)) :
  on_the_hour T -> expand_hours idx T D v m = Ok m' -> forecast_table m -> forecast_table m'.
Proof.
  intros HT E Hm. unfold expand_hours in E.
  refine (for_fold_invariant forecast_table _ _ _ _ _ Hm E).
  intros hour m1 m2 _ Hm1 E1. unfold add_hours in E1.
  destruct ((0 <? dt_ordinal (shift_hours T hour))
            && (dt_ordinal (shift_hours T hour) <=? MAXORDINAL));
    cbn [mbind result_bind] in E1; [|discriminate].
  destruct Hm1 as (Hw & Hd & Hh). repeat split.
  - eapply dd_set_cell_width; [exact E1 | | exact Hw].
    unfold nws_default_row. now rewrite List.length_map.
  - eapply dd_set_cell_distinct; [exact E1 | exact Hd].
  - eapply dd_set_cell_key_Forall; [exact E1 | | exact Hh].
    now apply shift_hours_on_the_hour.
Qed.

Lemma nws_sample_step_table (idx : nat) (s : nws_sample) (m m' : list (datetime * list F)) :
  nws_sample_step parse idx s m = Ok m' -> forecast_table m -> forecast_table m'.
Proof.
  unfold nws_sample_step.
  destruct (parse_interval parse (validTime s)) as [[time duration]|];
    cbn [mbind result_bind]; [|discriminate].
  destruct (round_to_nearest_hour time) as [T|] eqn:ET; cbn [mbind result_bind];
    [|discriminate].
  apply expand_hours_table. now apply round_to_nearest_hour_fields in ET.
Qed.

(** X8: whenever [get_model_nws_data] returns, every row of the table has
    one value per label, no two rows carry the same time, and every time
    is on the hour. *)
Theorem forecast_table_rows (data : list (string * list nws_sample))
  (table : list (datetime * list F)) :
  get_model_nws_data parse data = Ok table ->
  rows_width 5 table
  /\ distinct_keys datetime_eqb table
  /\ Forall (fun row => on_the_hour (fst row)) table.
Proof.
  intros E.
  assert (Htable : forecast_table table).
  { unfold get_model_nws_data in E.
    refine (for_fold_invariant forecast_table _ _ _ _ _
              (conj (Forall_nil _) (conj (FOP_nil _) (Forall_nil _))) E).
    intros [label_idx label_name] m1 m2 _ Hm1 E1.
    destruct (property_values data label_name) as [samples|];
      cbn [mbind result_bind] in E1; [|discriminate].
    apply (for_fold_invariant forecast_table _ _ _ _
             (fun s t1 t2 _ Ht1 Et => nws_sample_step_table label_idx s t1 t2 Et Ht1)
             Hm1 E1). }
  destruct Htable as (Hw & Hd & Hh). repeat split; [exact Hw | exact Hd |].
  exact (proj1 (List.Forall_map fst on_the_hour table) Hh).
Qed.

(** X9: [get_model_nws_data] returns a table only when the data hold the
    values of all five labels: a missing label is a [KeyError]. *)
Theorem forecast_needs_every_label (data : list (string * list nws_sample))
  (table : list (datetime * list F)) :
  get_model_nws_data parse data = Ok table ->
  Forall (fun label_name => exists samples, property_values data label_name = Ok samples)
         labels
  /\ forall label_name e, property_values data label_name = Raise e -> e = KeyError.
Proof.
  intros E. split.
  - apply Forall_forall. intros label_name Hl.
    assert (Hin : exists i, In (i, label_name) (combine (seq 0 (length labels)) labels)).
    { destruct Hl as [<-|[<-|[<-|[<-|[<-|[]]]]]];
        [exists 0%nat | exists 1%nat | exists 2%nat | exists 3%nat | exists 4%nat];
        simpl; tauto. }
    destruct Hin as [i Hin].
    destruct (for_fold_ok_each _ _ _ _ E _ Hin) as (m1 & m2 & E1).
    cbn beta iota in E1.
    destruct (property_values data label_name) as [samples|]; [now exists samples|].
    discriminate.
  - intros label_name e. clear. induction data as [|[name values] data IH]; simpl.
    + intros E. now inversion E.
    + destruct (String.eqb name label_name); [discriminate | exact IH].
Qed.
End ForecastTable.

Lemma forecast_table_rows_example :
  get_model_nws_data iso_parse example_forecast = Ok example_table
  /\ rows_width 5 example_table
  /\ distinct_keys datetime_eqb example_table
  /\ Forall (fun row => on_the_hour (fst row)) example_table.
Proof.
  assert (E : get_model_nws_data iso_parse example_forecast = Ok example_table)
    by (vm_compute; reflexivity).
  split; [exact E | exact (forecast_table_rows iso_parse example_forecast example_table E)].
Defined.

Lemma forecast_needs_every_label_example :
  Forall (fun label_name => exists samples,
            property_values example_forecast label_name = Ok samples) labels
  /\ forall label_name e, property_values example_forecast label_name = Raise e ->
                          e = KeyError.
Proof.
  apply (forecast_needs_every_label iso_parse example_forecast example_table).
  vm_compute. reflexivity.
Defined.

(** ** What a sample leaves alone *)

Section OtherLabels.
Context {F : Type} `{Float64 F}.
Variable parse : str -> result datetime.

Lemma keeps_other_cells_refl (idx : nat) (m : list (datetime * list F)) :
  keeps_other_cells idx m m.
Proof. intros k row Hrow. now exists row. Qed.

Lemma keeps_other_cells_trans (idx : nat) (m1 m2 m3 : list (datetime * list F)) :
  keeps_other_cells idx m1 m2 -> keeps_other_cells idx m2 m3 -> keeps_other_cells idx m1 m3.
Proof.
  intros H12 H23 k row Hrow.
  destruct (H12 k row Hrow) as (row2 & Hrow2 & Hlen2 & Hcells2).
  destruct (H23 k row2 Hrow2) as (row3 & Hrow3 & Hlen3 & Hcells3).
  exists row3. split; [exact Hrow3|]. split; [congruence|].
  intros j Hj. now rewrite Hcells3, Hcells2.
Qed.

Lemma dd_set_cell_other_cells (default_row : list F) (key : datetime) (idx : nat) (v : F)
  (m m' : list (datetime * list F)) :
  dd_set_cell datetime_eqb default_row key idx v m = Ok m' -> keeps_other_cells idx m m'.
Proof.
  revert m'. induction m as [|[k0 row0] m IH]; intros m' E k row Hrow; simpl in *;
    [discriminate|].
  destruct (datetime_eqb k0 key).
  - unfold list_setitem in E. destruct (idx <? length row0)%nat; cbn [mbind result_bind] in E;
      [|discriminate].
    inversion E; subst m'. simpl. destruct (datetime_eqb k0 k).
    + inversion Hrow; subst row. eexists. split; [reflexivity|].
      split; [apply length_insert|]. intros j Hj. now apply list_lookup_insert_ne.
    + now exists row.
  - destruct (dd_set_cell datetime_eqb default_row key idx v m) as [m''|];
      cbn [mbind result_bind] in E; [|discriminate].
    inversion E; subst m'. simpl. destruct (datetime_eqb k0 k).
    + now exists row.
    + now apply (IH m'' eq_refl).
Qed.

Lemma for_fold_relation {A S : Type} (R : S -> S -> Prop) (body : A -> S -> result S)
  (items : list A) (s s' : S) :
  (forall s0, R s0 s0) -> (forall s1 s2 s3, R s1 s2 -> R s2 s3 -> R s1 s3) ->
  (forall a s1 s2, body a s1 = Ok s2 -> R s1 s2) ->
  for_fold body items s = Ok s' -> R s s'.
Proof.
  intros Hrefl Htrans Hbody. revert s. induction items as [|a items IH]; intros s; simpl.
  - intros E. inversion E. apply Hrefl.
  - destruct (body a s) as [s1|] eqn:E1; cbn [mbind result_bind]; [|discriminate].
    intros E. exact (Htrans _ _ _ (Hbody _ _ _ E1) (IH _ E)).
Qed.

(** X10: whenever the step of a sample returns, every row that was in
    the table is still there, with the same number of cells, and only
    its cell of the sample's label may have changed: a sample never
    touches the values of another label and never removes a row. *)
Theorem sample_keeps_other_labels (label_idx : nat) (s : nws_sample)
  (model_data model_data' : list (datetime * list F)) :
  nws_sample_step parse label_idx s model_data = Ok model_data' ->
  keeps_other_cells label_idx model_data model_data'.
Proof.
  unfold nws_sample_step.
  destruct (parse_interval parse (validTime s)) as [[time duration]|];
    cbn [mbind result_bind]; [|discriminate].
  destruct (round_to_nearest_hour time) as [T|]; cbn [mbind result_bind]; [|discriminate].
  unfold expand_hours.
  apply (for_fold_relation (keeps_other_cells label_idx)).
  - apply keeps_other_cells_refl.
  - apply keeps_other_cells_trans.
  - intros hour m1 m2. destruct (add_hours T hour) as [t|]; cbn [mbind result_bind];
      [|discriminate].
    apply dd_set_cell_other_cells.
Qed.
End OtherLabels.

Lemma sample_keeps_other_labels_example :
  keeps_other_cells 1
    [(mk_datetime 738190 2 0 0 0 (Some 0), [230; nan; nan; nan; nan]%float)]
    [(mk_datetime 738190 2 0 0 0 (Some 0), [230; 3.5; nan; nan; nan]%float);
     (mk_datetime 738190 3 0 0 0 (Some 0), [nan; 3.5; nan; nan; nan]%float)].
Proof.
  apply (sample_keeps_other_labels iso_parse 1
           (mk_nws_sample (py "2022-02-04T02:00:00+00:00/PT2H") 3.5%float)).
  vm_compute. reflexivity.
Defined.

(** ** The merged dictionary *)

Section MergedRows.
Context {F : Type} `{Float64 F}.

Lemma set_feature_distinct (time : datetime) (name : string) (v : F)
  (h h' : list (datetime * list F)) :
  set_feature time name v h = Ok h' ->
  distinct_keys datetime_eqb h -> distinct_keys datetime_eqb h'.
Proof.
  unfold set_feature. destruct (list_index name features); cbn [mbind result_bind];
    [|discriminate].
  apply dd_set_cell_distinct.
Qed.

Lemma buoy_step_distinct (s : buoy_sample) (h h' : list (datetime * list F)) :
  buoy_step s h = Ok h' -> distinct_keys datetime_eqb h -> distinct_keys datetime_eqb h'.
Proof.
  unfold buoy_step. intros E Hh.
  destruct (set_feature (buoy_TmStamp s) "air temp" _ h) as [h1|] eqn:E1;
    cbn [mbind result_bind] in E; [|discriminate].
  destruct (set_feature (buoy_TmStamp s) "wind speed" _ h1) as [h2|] eqn:E2;
    cbn [mbind result_bind] in E; [|discriminate].
  eauto using set_feature_distinct.
Qed.

Lemma uscg_step_distinct (s : uscg_sample) (h h' : list (datetime * list F)) :
  uscg_step s h = Ok h' -> distinct_keys datetime_eqb h -> distinct_keys datetime_eqb h'.
Proof.
  unfold uscg_step. intros E Hh.
  destruct (set_feature (uscg_TmStamp s) "shortwave" _ h) as [h1|] eqn:E1;
    cbn [mbind result_bind] in E; [|discriminate].
  destruct (set_feature (uscg_TmStamp s) "atmospheric pressure" _ h1) as [h2|] eqn:E2;
    cbn [mbind result_bind] in E; [|discriminate].
  destruct (set_feature (uscg_TmStamp s) "relative humidity" _ h2) as [h3|] eqn:E3;
    cbn [mbind result_bind] in E; [|discriminate].
  eauto using set_feature_distinct.
Qed.

(** A loop whose steps write the row of their sample's time: the rows
    there are afterwards are those there were and those of the samples. *)
Lemma loop_rows {A : Type} (time_of : A -> datetime)
  (step : A -> list (datetime * list F) -> result (list (datetime * list F)))
  (samples : list A) (h : list (datetime * list F)) :
  (forall a h0, rows_width (length features) h0 ->
     exists h1, step a h0 = Ok h1 /\ rows_width (length features) h1
                /\ forall k, is_Some (dd_lookup datetime_eqb k h1)
                             <-> datetime_eqb (time_of a) k = true
                                 \/ is_Some (dd_lookup datetime_eqb k h0)) ->
  rows_width (length features) h ->
  exists h', for_fold step samples h = Ok h' /\ rows_width (length features) h'
             /\ forall k, is_Some (dd_lookup datetime_eqb k h')
                          <-> Exists (fun a => datetime_eqb (time_of a) k = true) samples
                              \/ is_Some (dd_lookup datetime_eqb k h).
Proof.
  intros Hstep. revert h. induction samples as [|a samples IH]; intros h Hw; simpl.
  - exists h. repeat split; auto. intros [Hex | Hk]; [inversion Hex | exact Hk].
  - destruct (Hstep a h Hw) as (h1 & -> & Hw1 & Hk1). cbn [mbind result_bind].
    destruct (IH h1 Hw1) as (h' & Hrun & Hw' & Hk'). exists h'. repeat split; auto.
    + intros Hk. apply Hk' in Hk as [Hex | Hk]; [left; now right|].
      apply Hk1 in Hk as [Ha | Hk]; [left; now left | now right].
    + intros [Hex | Hk]; apply Hk'.
      * inversion Hex; subst; [right; apply Hk1; now left | now left].
      * right. apply Hk1. now right.
Qed.

Lemma is_Some_after (time k : datetime) (row : list F) (o : option (list F)) :
  is_Some (if datetime_eqb time k then Some row else o)
  <-> datetime_eqb time k = true \/ is_Some o.
Proof.
  destruct (datetime_eqb time k).
  - split; [now left | intros _; now exists row].
  - split; [now right | intros [Hk | Ho]; [discriminate | exact Ho]].
Qed.

(** X11: merging the samples of the two feeds never raises, and the
    dictionary has one row of seven cells for each timestamp either
    feed reports: no two rows carry the same time, and no row carries a
    time no sample has. *)
Theorem merge_has_one_row_per_timestamp (buoy_json : list buoy_sample)
  (uscg_json : list uscg_sample) :
  exists historical,
    merge_samples buoy_json uscg_json = Ok historical
    /\ rows_width 7 historical
    /\ distinct_keys datetime_eqb historical
    /\ forall k, is_Some (dd_lookup datetime_eqb k historical)
                 <-> Exists (fun s => datetime_eqb (buoy_TmStamp s) k = true) buoy_json
                     \/ Exists (fun s => datetime_eqb (uscg_TmStamp s) k = true) uscg_json.
Proof.
  unfold merge_samples, historical_rows.
  destruct (loop_rows buoy_TmStamp buoy_step buoy_json []) as (h1 & E1 & Hw1 & Hk1).
  { intros s h0 Hw0. destruct (buoy_step_spec s h0 Hw0) as (h & E & Hw & Hk).
    exists h. repeat split; auto; rewrite Hk; apply is_Some_after. }
  { constructor. }
  destruct (loop_rows uscg_TmStamp uscg_step uscg_json h1) as (h2 & E2 & Hw2 & Hk2).
  { intros s h0 Hw0. destruct (uscg_step_spec s h0 Hw0) as (h & E & Hw & Hk).
    exists h. repeat split; auto; rewrite Hk; apply is_Some_after. }
  { exact Hw1. }
  rewrite E1. cbn [mbind result_bind]. exists h2. repeat split; auto.
  - refine (for_fold_invariant (distinct_keys datetime_eqb) _ _ _ _ _ _ E2).
    + intros s t1 t2 _ Ht1 Et. exact (uscg_step_distinct s t1 t2 Et Ht1).
    + refine (for_fold_invariant (distinct_keys datetime_eqb) _ _ _ _ _ _ E1).
      * intros s t1 t2 _ Ht1 Et. exact (buoy_step_distinct s t1 t2 Et Ht1).
      * constructor.
  - intros Hk. apply Hk2 in Hk as [Hk | Hk]; [now right|].
    apply Hk1 in Hk as [Hk | Hk]; [now left | now destruct Hk].
  - intros [Hk | Hk]; apply Hk2; [right; apply Hk1; now left | now left].
Qed.

(** Later coast-guard samples at other times leave a row as it is. *)
Lemma uscg_loop_other_times (k : datetime) (samples : list uscg_sample)
  (historical : list (datetime * list F)) :
  rows_width (length features) historical ->
  Forall (fun s' => datetime_eqb (uscg_TmStamp s') k = false) samples ->
  exists historical',
    for_fold uscg_step samples historical = Ok historical'
    /\ rows_width (length features) historical'
    /\ dd_lookup datetime_eqb k historical' = dd_lookup datetime_eqb k historical.
Proof.
  intros Hw Hother. revert historical Hw.
  induction Hother as [|s samples Hs Hother IH]; intros historical Hw; simpl.
  - now exists historical.
  - destruct (uscg_step_spec s historical Hw) as (h1 & -> & Hw1 & Hl1). simpl.
    destruct (IH h1 Hw1) as (h2 & Hrun & Hw2 & Hl2).
    exists h2. repeat split; auto. now rewrite Hl2, Hl1, Hs.
Qed.

Lemma lookup_width (n : nat) (k : datetime) (row : list F) (h : list (datetime * list F)) :
  rows_width n h -> dd_lookup datetime_eqb k h = Some row -> length row = n.
Proof.
  intros Hw. induction Hw as [|[k0 r] h Hr Hw IH]; simpl; [discriminate|].
  destruct (datetime_eqb k0 k); [intros E; now inversion E; subst | exact IH].
Qed.

(** X12: a timestamp both feeds report has a full row.  With [s] the
    last buoy sample and [u] the last coast-guard sample of one
    timestamp, the row holds, in the order of the features, incoming
    minus outgoing shortwave, the mean air temperature, the pressure
    times 100, the humidity divided by 100, the longwave, the mean wind
    speed and the mean wind direction. *)
Theorem both_feeds_fill_the_row (pre post : list buoy_sample) (s : buoy_sample)
  (pre' post' : list uscg_sample) (u : uscg_sample) :
  datetime_eqb (buoy_TmStamp s) (uscg_TmStamp u) = true ->
  Forall (fun s' => datetime_eqb (buoy_TmStamp s') (buoy_TmStamp s) = false) post ->
  Forall (fun u' => datetime_eqb (uscg_TmStamp u') (uscg_TmStamp u) = false) post' ->
  exists historical,
    merge_samples (pre ++ s :: post) (pre' ++ u :: post') = Ok historical
    /\ dd_lookup datetime_eqb (buoy_TmStamp s) historical
       = Some [f_sub (ShortWaveIn_wm2 u) (ShortWaveOut_wm2 u);
               mean2 (AirTemp_1 s) (AirTemp_2 s);
               f_mul (BP_mbar u) (f_of_Z 100);
               f_div (RH_percent u) (f_of_Z 100);
               LongWaveInCorr_wm2 u;
               mean2 (WindSpeed_1 s) (WindSpeed_2 s);
               mean2 (WindDir_1 s) (WindDir_2 s)].
Proof.
  intros Hsame Hpost Hpost'. unfold merge_samples.
  destruct (buoy_loop_ok pre []) as (h0 & Hpre & Hw0); [constructor|].
  destruct (buoy_step_spec s h0 Hw0) as (h1 & Es & Hw1 & Hl1).
  destruct (buoy_loop_other_times (buoy_TmStamp s) post h1 Hw1 Hpost) as (h2 & Epost & Hw2 & Hl2).
  rewrite Hl1, datetime_eqb_refl in Hl2.
  set (rowB := <[6%nat := mean2 (WindDir_1 s) (WindDir_2 s)]>
                 (<[5%nat := mean2 (WindSpeed_1 s) (WindSpeed_2 s)]>
                   (<[1%nat := mean2 (AirTemp_1 s) (AirTemp_2 s)]>
                     (dd_row datetime_eqb historical_default (buoy_TmStamp s) h0)))) in *.
  assert (HlenB : length rowB = 7%nat) by exact (lookup_width _ _ _ _ Hw2 Hl2).
  assert (Hcells : rowB !! 1%nat = Some (mean2 (AirTemp_1 s) (AirTemp_2 s))
                   /\ rowB !! 5%nat = Some (mean2 (WindSpeed_1 s) (WindSpeed_2 s))
                   /\ rowB !! 6%nat = Some (mean2 (WindDir_1 s) (WindDir_2 s))).
  { unfold rowB in *. rewrite !length_insert in HlenB. repeat split.
    - rewrite !list_lookup_insert_ne by lia. apply list_lookup_insert_eq. lia.
    - rewrite list_lookup_insert_ne by lia. apply list_lookup_insert_eq.
      rewrite length_insert. lia.
    - apply list_lookup_insert_eq. rewrite !length_insert. lia. }
  clearbody rowB. destruct Hcells as (Hat & Hws & Hwd).
  destruct (uscg_loop_keeps_cell (buoy_TmStamp s) 1 _ pre' h2
              ltac:(lia) ltac:(lia) ltac:(lia) ltac:(lia) Hw2
              (ex_intro _ rowB (conj Hl2 Hat))) as (h3 & row1 & E3 & Hrow1 & Hat3).
  destruct (uscg_loop_keeps_cell (buoy_TmStamp s) 5 _ pre' h2
              ltac:(lia) ltac:(lia) ltac:(lia) ltac:(lia) Hw2
              (ex_intro _ rowB (conj Hl2 Hws))) as (h3' & row5 & E3' & Hrow5 & Hws3).
  destruct (uscg_loop_keeps_cell (buoy_TmStamp s) 6 _ pre' h2
              ltac:(lia) ltac:(lia) ltac:(lia) ltac:(lia) Hw2
              (ex_intro _ rowB (conj Hl2 Hwd))) as (h3'' & row6 & E3'' & Hrow6 & Hwd3).
  rewrite E3 in E3', E3''. inversion E3'; inversion E3''; subst h3' h3''.
  rewrite Hrow1 in Hrow5, Hrow6. inversion Hrow5; inversion Hrow6; subst row5 row6.
  assert (Hw3 : rows_width (length features) h3).
  { clear - Hw2 E3. revert h2 Hw2 E3. induction pre' as [|a pre' IH]; intros h2 Hw2; simpl.
    - intros E. now inversion E; subst.
    - destruct (uscg_step_spec a h2 Hw2) as (h & -> & Hw & _). cbn [mbind result_bind].
      now apply IH. }
  destruct (uscg_step_spec u h3 Hw3) as (h4 & Eu & Hw4 & Hl4).
  destruct (uscg_loop_other_times (uscg_TmStamp u) post' h4 Hw4 Hpost')
    as (h5 & Epost' & Hw5 & Hl5).
  exists h5. split.
  - unfold historical_rows in *.
    rewrite for_fold_app, Hpre. cbn [mbind result_bind for_fold].
    rewrite Es. cbn [mbind result_bind]. rewrite Epost. cbn [mbind result_bind].
    rewrite for_fold_app, E3. cbn [mbind result_bind for_fold].
    rewrite Eu. cbn [mbind result_bind]. exact Epost'.
  - rewrite (dd_lookup_equiv datetime_eqb datetime_eqb_sym datetime_eqb_trans _ _ h5 Hsame).
    rewrite Hl5, Hl4, datetime_eqb_refl. f_equal.
    rewrite <- (dd_row_equiv datetime_eqb historical_default datetime_eqb_sym
                  datetime_eqb_trans _ _ h3 Hsame).
    unfold dd_row. rewrite Hrow1. cbn [default].
    pose proof (lookup_width _ _ _ _ Hw3 Hrow1) as Hlen1.
    destruct row1 as [|c0 [|c1 [|c2 [|c3 [|c4 [|c5 [|c6 [|]]]]]]]]; try discriminate.
    cbn in Hat3, Hws3, Hwd3. inversion Hat3; inversion Hws3; inversion Hwd3; subst.
    reflexivity.
Qed.
End MergedRows.

Lemma both_feeds_fill_the_row_example :
  exists historical,
    merge_samples ([] ++ [example_buoy_sample]) ([] ++ [example_uscg_sample]) = Ok historical
    /\ dd_lookup datetime_eqb (mk_datetime 738190 0 0 0 0 (Some 0)) historical
       = Some [190; 15; 82000; 0.5; 300; 15; 180]%float.
Proof.
  exact (both_feeds_fill_the_row [] [] example_buoy_sample [] [] example_uscg_sample
           eq_refl (Forall_nil _) (Forall_nil _)).
Defined.

(** ** Clipping and the median filter *)

Section Clipping.
Context {F : Type} `{Float64 F} `{!Float64Laws F} {roll : Rolling F}.

Lemma f_ltb_irrefl (a : F) : f_ltb a a = false.
Proof.
  destruct (f_ltb a a) eqn:E; [|reflexivity].
  pose proof (f_ltb_asym a a E). congruence.
Qed.

Lemma clip_within (lo hi x : F) : f_ltb hi lo = false -> within lo hi (clip lo hi x).
Proof.
  intros Hbounds. unfold within, clip.
  destruct (f_ltb x lo) eqn:Hlo; [split; [apply f_ltb_irrefl | exact Hbounds]|].
  destruct (f_ltb hi x) eqn:Hhi; [split; [exact Hbounds | apply f_ltb_irrefl]|].
  now split.
Qed.

Lemma clip_of_within (lo hi v : F) : within lo hi v -> clip lo hi v = v.
Proof. unfold within, clip. intros [-> ->]. reflexivity. Qed.

(** X13: when the bounds are in order and the frame has a numeric
    column for each bounded feature, the clipping stage succeeds and
    keeps the frame, and it leaves in each of these columns the values
    [clip lo hi x]: none of them is below the lower or above the upper
    bound of its feature, and clipping them once more changes nothing. *)
Theorem clip_stage_within_bounds (df : DataFrame F) :
  (forall feature lo hi, In (feature, (lo, hi)) ATTR_BOUNDS -> f_ltb hi lo = false) ->
  (forall b, In b ATTR_BOUNDS ->
             exists x, lookup_column (fst b) (df_columns df) = Some (NumCol x)) ->
  exists df',
    clip_stage df = (Ok tt, df')
    /\ same_frame df df'
    /\ forall feature lo hi x,
        In (feature, (lo, hi)) ATTR_BOUNDS ->
        lookup_column feature (df_columns df) = Some (NumCol x) ->
        exists x',
          lookup_column feature (df_columns df') = Some (NumCol x')
          /\ x' = map (clip lo hi) x
          /\ Forall (within lo hi) x'
          /\ map (clip lo hi) x' = x'.
Proof.
  intros Hbounds Hcols. destruct df as [index cols]. cbn [df_index df_columns] in *.
  destruct (pd_for_columns (fun b : string * (F * F) => fst b) (fun _ => false)
              (fun b x => map (clip (fst (snd b)) (snd (snd b))) x) (fun _ => True)
              clip_feature index) with (items := ATTR_BOUNDS (F := F)) (cols := cols)
    as (cols' & Hrun & Hnames & Hdone & Hother).
  - discriminate.
  - intros [feature [lo hi]] cols0 x _ Hx _. cbn [fst snd] in *.
    exact (clip_feature_run feature lo hi (mk_df index cols0) x Hx).
  - apply attr_bounds_names.
  - intros b Hb _. destruct (Hcols b Hb) as (x & Hx). now exists x.
  - assert (Hstage : clip_stage (mk_df index cols) = (Ok tt, mk_df index cols')) by exact Hrun.
    exists (mk_df index cols'). split; [exact Hstage|]. split.
    { pose proof (clip_stage_frame (mk_df index cols)) as Hframe.
      now rewrite Hstage in Hframe. }
    intros feature lo hi x Hin Hx. cbn [df_columns].
    assert (Hwithin : Forall (within lo hi) (map (clip lo hi) x)).
    { apply List.Forall_map. apply Forall_forall. intros v _.
      apply clip_within. exact (Hbounds feature lo hi Hin). }
    exists (map (clip lo hi) x). repeat split.
    + exact (Hdone (feature, (lo, hi)) x Hin eq_refl Hx).
    + exact Hwithin.
    + rewrite <- (List.map_id (map (clip lo hi) x)) at 2.
      apply List.map_ext_Forall. eapply Forall_impl; [|exact Hwithin].
      intros v Hv. now apply clip_of_within.
Qed.

(** Whatever the rolling median is: on a frame whose columns have
    distinct names and hold numbers apart from ['time'],
    [median_filtering] succeeds, replaces every such column by its
    rolling median over five rows, computed from the column as it was,
    and leaves ['time'] and the labels alone. *)
Lemma median_filtering_columns (df : DataFrame F) :
  List.NoDup (map fst (df_columns df)) ->
  Forall (fun nc => fst nc = "time"%string \/ exists x, snd nc = NumCol x) (df_columns df) ->
  exists df',
    median_filtering df = (Ok tt, df')
    /\ same_frame df df'
    /\ forall feature x,
        feature <> "time"%string ->
        lookup_column feature (df_columns df) = Some (NumCol x) ->
        lookup_column feature (df_columns df') = Some (NumCol (rolling_median 5 x)).
Proof.
  intros Hnodup Hcols. destruct df as [index cols]. cbn [df_index df_columns] in *.
  destruct (pd_for_columns (fun name : string => name)
              (fun name => String.eqb name "time") (fun _ x => rolling_median 5 x)
              (fun _ => True) median_filter_feature index)
    with (items := map fst cols) (cols := cols)
    as (cols' & Hrun & Hnames & Hdone & Hother).
  - intros name cols0 Htime. unfold median_filter_feature. now rewrite Htime.
  - intros name cols0 x Htime Hx _. apply String.eqb_neq in Htime.
    exact (median_filter_feature_run name (mk_df index cols0) x Htime Hx).
  - now rewrite List.map_id.
  - intros name Hin Htime. apply in_map_iff in Hin as ([n0 c] & Hn0 & Hin).
    simpl in Hn0. subst n0. rewrite Forall_forall in Hcols.
    destruct (Hcols _ Hin) as [Hname | (x & Hc)]; simpl in *.
    + subst name. discriminate Htime.
    + subst c. exists x. split; [|exact I]. now apply lookup_column_NoDup.
  - assert (Hstage : median_filtering (mk_df index cols) = (Ok tt, mk_df index cols'))
      by exact Hrun.
    exists (mk_df index cols'). split; [exact Hstage|]. split.
    { pose proof (median_filtering_frame (mk_df index cols)) as Hframe.
      now rewrite Hstage in Hframe. }
    intros feature x Htime Hx. cbn [df_columns]. apply Hdone; auto.
    + change feature with (fst (feature, NumCol x)). apply in_map.
      now apply lookup_column_In.
    + now apply String.eqb_neq.
Qed.
End Clipping.

Lemma clip_stage_within_bounds_example :
  exists df',
    clip_stage example_frame = (Ok tt, df')
    /\ lookup_column "air temp" (df_columns df') = Some (NumCol [8.5; -20; 8.75]%float)
    /\ Forall (within (-20)%float 70%float) [8.5; -20; 8.75]%float.
Proof.
  destruct (clip_stage_within_bounds example_frame) as (df' & Hrun & _ & Hcols).
  - intros feature lo hi Hin. cbn [In ATTR_BOUNDS] in Hin.
    repeat (destruct Hin as [Hin | Hin]; [inversion Hin; subst; vm_compute; reflexivity|]).
    destruct Hin.
  - intros b Hb. cbn [In ATTR_BOUNDS] in Hb.
    repeat (destruct Hb as [<- | Hb]; [eexists; reflexivity|]). destruct Hb.
  - destruct (Hcols "air temp"%string (-20)%float 70%float [8.5; -20; 8.75]%float)
      as (x' & Hx' & -> & Hwithin & _).
    + cbn [In ATTR_BOUNDS]. do 4 right. left. reflexivity.
    + reflexivity.
    + exists df'. split; [exact Hrun|]. split; [exact Hx' | exact Hwithin].
Defined.

Section DirectMedian.
Context {F : Type} `{Float64 F}.

(** X14: on a frame whose columns have distinct names and hold numbers
    apart from ['time'], [median_filtering] succeeds and leaves ['time']
    and the labels alone; in every other column [x] the new value of row
    [i] is the median of the observations of the centered window of five
    rows around [i], taken from [x] as it was: the middle one of the
    sorted observations, the half sum of the two middle ones when their
    number is even, NaN without an observation. *)
Theorem median_filtering_replaces_columns (df : DataFrame F) :
  List.NoDup (map fst (df_columns df)) ->
  Forall (fun nc => fst nc = "time"%string \/ exists x, snd nc = NumCol x) (df_columns df) ->
  exists df',
    median_filtering (roll := direct_rolling) df = (Ok tt, df')
    /\ same_frame df df'
    /\ forall feature x,
        feature <> "time"%string ->
        lookup_column feature (df_columns df) = Some (NumCol x) ->
        exists x',
          lookup_column feature (df_columns df') = Some (NumCol x')
          /\ length x' = length x
          /\ forall i, (i < length x)%nat ->
                x' !! i = Some (middle_value (observations x (centered_rows 5 (length x) i))).
Proof.
  intros Hnodup Hcols.
  destruct (median_filtering_columns (roll := direct_rolling) df Hnodup Hcols)
    as (df' & Hrun & Hsame & Hvalues).
  exists df'. split; [exact Hrun|]. split; [exact Hsame|].
  intros feature x Htime Hx. eexists. split; [exact (Hvalues feature x Htime Hx)|].
  cbn [rolling_median direct_rolling]. split; [apply rolling_with_length|].
  intros i Hi. rewrite rolling_with_lookup by exact Hi.
  now rewrite window_at_centered, median_of_middle.
Qed.
End DirectMedian.

Lemma median_filtering_replaces_columns_example :
  exists df',
    median_filtering (roll := direct_rolling) example_frame = (Ok tt, df')
    /\ lookup_column "air temp" (df_columns df') = Some (NumCol [8.5; 8.5; 8.5]%float)
    /\ lookup_column "longwave" (df_columns df') = Some (NumCol [287.75; 287.75; 287.75]%float).
Proof.
  destruct (median_filtering_replaces_columns example_frame example_frame_names)
    as (df' & Hrun & _ & Hvalues).
  - repeat (apply Forall_cons; [first [left; reflexivity | right; eexists; reflexivity]|]).
    apply Forall_nil.
  - exists df'. split; [exact Hrun|]. split.
    + destruct (Hvalues "air temp"%string [8.5; -20; 8.75]%float)
        as (x' & Hx' & Hlen & Hrows); [discriminate | reflexivity|].
      rewrite Hx'. do 2 f_equal.
      pose proof (Hrows 0%nat ltac:(simpl; lia)) as H0.
      pose proof (Hrows 1%nat ltac:(simpl; lia)) as H1.
      pose proof (Hrows 2%nat ltac:(simpl; lia)) as H2.
      destruct x' as [|a [|b [|c [|]]]]; try discriminate Hlen.
      vm_compute in H0, H1, H2. inversion H0; inversion H1; inversion H2. reflexivity.
    + destruct (Hvalues "longwave"%string [125.5; 450; nan]%float)
        as (x' & Hx' & Hlen & Hrows); [discriminate | reflexivity|].
      rewrite Hx'. do 2 f_equal.
      pose proof (Hrows 0%nat ltac:(simpl; lia)) as H0.
      pose proof (Hrows 1%nat ltac:(simpl; lia)) as H1.
      pose proof (Hrows 2%nat ltac:(simpl; lia)) as H2.
      destruct x' as [|a [|b [|c [|]]]]; try discriminate Hlen.
      vm_compute in H0, H1, H2. inversion H0; inversion H1; inversion H2. reflexivity.
Defined.
(** ** Sorting by time *)

Section SortingFacts.
Context {A : Type} (leb : A -> A -> bool).

Lemma insert_sorted_perm (x : A) (l : list A) : Permutation (insert_sorted leb x l) (x :: l).
Proof.
  induction l as [|y l IH]; simpl; [reflexivity|].
  destruct (leb x y); [reflexivity|].
  rewrite IH. apply perm_swap.
Qed.

Lemma isort_perm (l : list A) : Permutation (isort leb l) l.
Proof.
  induction l as [|x l IH]; simpl; [reflexivity|].
  rewrite insert_sorted_perm. now constructor.
Qed.

(** Where [leb] compares keys, insertion sort puts the keys in order. *)
Lemma insert_sorted_sorted (key : A -> Z) (x : A) (l : list A) :
  (forall b, In b l -> leb x b = (key x <=? key b)) ->
  StronglySorted (fun a b => key a <= key b) l ->
  StronglySorted (fun a b => key a <= key b) (insert_sorted leb x l).
Proof.
  intros Hleb Hl. induction Hl as [|y l Hl IH Hy]; simpl.
  - repeat constructor.
  - rewrite (Hleb y (or_introl eq_refl)). destruct (key x <=? key y) eqn:E.
    + apply Z.leb_le in E. constructor; [now constructor|].
      constructor; [exact E|]. eapply Forall_impl; [|exact Hy]. intros b Hb. simpl in Hb. lia.
    + apply Z.leb_gt in E. constructor.
      * apply IH. intros b Hb. apply Hleb. now right.
      * apply Forall_forall. intros b Hb. apply In_insert_sorted in Hb as [-> | Hb]; [lia|].
        rewrite Forall_forall in Hy. now apply Hy.
Qed.

Lemma isort_sorted (key : A -> Z) (l : list A) :
  (forall a b, In a l -> In b l -> leb a b = (key a <=? key b)) ->
  StronglySorted (fun a b => key a <= key b) (isort leb l).
Proof.
  induction l as [|x l IH]; intros Hleb; simpl; [constructor|].
  apply insert_sorted_sorted.
  - intros b Hb. apply In_isort in Hb. apply Hleb; [now left | now right].
  - apply IH. intros a b Ha Hb. apply Hleb; now right.
Qed.
End SortingFacts.

Section SortByTime.
Context {F : Type} `{Float64 F}.

Lemma lookup_column_map (f : column F -> column F) (name : string)
  (cols : list (string * column F)) :
  lookup_column name (map (fun nc => (fst nc, f (snd nc))) cols)
  = f <$> lookup_column name cols.
Proof.
  induction cols as [|[n c] cols IH]; simpl; [reflexivity|].
  destruct (String.eqb n name); [reflexivity | exact IH].
Qed.

Lemma sorted_take (ts : list datetime) (order : list nat) :
  Forall (fun i => (i < length ts)%nat) order ->
  StronglySorted (fun i j => default 0 (instant <$> ts !! i) <= default 0 (instant <$> ts !! j))
    order ->
  StronglySorted (fun a b => instant a <= instant b) (omap (fun i => ts !! i) order).
Proof.
  intros Hrange Hsorted. induction Hsorted as [|i order Hsorted IH Hi]; [constructor|].
  inversion Hrange as [|? ? Hlt Hrange']; subst.
  destruct (lookup_lt_is_Some_2 ts i Hlt) as [t Ht].
  cbn. rewrite Ht. cbn. constructor; [now apply IH|].
  rewrite Ht in Hi. cbn in Hi. clear IH Hsorted Hrange. revert Hrange'.
  induction Hi as [|j order Hj Hi IH]; intros Hrange'; [constructor|].
  inversion Hrange' as [|? ? Hlt' Hrange'']; subst.
  destruct (lookup_lt_is_Some_2 ts j Hlt') as [t' Ht'].
  cbn. rewrite Ht'. cbn. rewrite Ht' in Hj. cbn in Hj. constructor; [exact Hj | now apply IH].
Qed.

(** Sorting by time on a frame with a ['time'] column of datetimes. *)
Lemma sort_by_time_run (df : DataFrame F) (ts : list datetime) :
  frame_wf df ->
  lookup_column "time" (df_columns df) = Some (TimeCol ts) ->
  let order := isort (column_leb (TimeCol ts)) (seq 0 (length (df_index df))) in
  pd_sort_by_time df
  = (Ok tt, mk_df (range_index (length (df_index df)))
              (map (fun nc => (fst nc, take_rows order (snd nc))) (df_columns df)))
  /\ length (omap (fun i => ts !! i) order) = length ts
  /\ StronglySorted (fun a b => instant a <= instant b) (omap (fun i => ts !! i) order).
Proof.
  intros Hwf Htime order.
  assert (Hperm : Permutation order (seq 0 (length (df_index df)))) by apply isort_perm.
  assert (Hlen : length ts = length (df_index df)).
  { unfold frame_wf in Hwf. rewrite Forall_forall in Hwf.
    exact (Hwf _ (lookup_column_In _ _ _ Htime)). }
  assert (Hrange : Forall (fun i => (i < length ts)%nat) order).
  { apply Forall_forall. intros i Hi. apply In_isort in Hi. apply in_seq in Hi. lia. }
  split; [|split].
  - unfold pd_sort_by_time. rewrite Htime. fold order.
    now rewrite (Permutation_length Hperm), List.length_seq.
  - rewrite omap_lookup_length by exact Hrange.
    now rewrite (Permutation_length Hperm), List.length_seq.
  - apply sorted_take; [exact Hrange|]. apply isort_sorted.
    intros i j Hi Hj. apply in_seq in Hi, Hj.
    destruct (lookup_lt_is_Some_2 ts i ltac:(lia)) as [a Ha].
    destruct (lookup_lt_is_Some_2 ts j ltac:(lia)) as [b Hb].
    cbn. now rewrite Ha, Hb.
Qed.

(** X15: sorting by time succeeds on a frame with a ['time'] column of
    datetimes: the rows are relabelled 0, 1, 2, ..., every column is
    rearranged by one and the same permutation of the row positions, and
    afterwards the times are in ascending order of their instants. *)
Theorem sort_by_time_sorts (df : DataFrame F) (ts : list datetime) :
  frame_wf df ->
  lookup_column "time" (df_columns df) = Some (TimeCol ts) ->
  exists order ts',
    pd_sort_by_time df
    = (Ok tt, mk_df (range_index (length (df_index df)))
                (map (fun nc => (fst nc, take_rows order (snd nc))) (df_columns df)))
    /\ Permutation order (seq 0 (length (df_index df)))
    /\ lookup_column "time" (map (fun nc => (fst nc, take_rows order (snd nc))) (df_columns df))
       = Some (TimeCol ts')
    /\ length ts' = length ts
    /\ StronglySorted (fun a b => instant a <= instant b) ts'.
Proof.
  intros Hwf Htime.
  destruct (sort_by_time_run df ts Hwf Htime) as (Hrun & Hlen & Hsorted).
  exists (isort (column_leb (TimeCol ts)) (seq 0 (length (df_index df)))).
  eexists. split; [exact Hrun|]. split; [apply isort_perm|]. split; [|split].
  - rewrite lookup_column_map, Htime. reflexivity.
  - exact Hlen.
  - exact Hsorted.
Qed.
End SortByTime.

Lemma sort_by_time_sorts_example :
  exists order ts',
    pd_sort_by_time example_frame
    = (Ok tt, mk_df (range_index 3)
                (map (fun nc => (fst nc, take_rows order (snd nc))) (df_columns example_frame)))
    /\ Permutation order (seq 0 3)
    /\ lookup_column "time"
         (map (fun nc => (fst nc, take_rows order (snd nc))) (df_columns example_frame))
       = Some (TimeCol ts')
    /\ length ts' = 3%nat
    /\ StronglySorted (fun a b => instant a <= instant b) ts'.
Proof.
  apply (sort_by_time_sorts example_frame example_times).
  - repeat constructor.
  - reflexivity.
Defined.

(** ** The cleaning stages on frames of numbers *)

Section CleaningReturns.
Context {F : Type} `{Float64 F} {roll : Rolling F}.

Lemma lookup_column_names (name : string) (cols : list (string * column F)) :
  In name (map fst cols) -> exists c, lookup_column name cols = Some c.
Proof.
  induction cols as [|[n c] cols IH]; simpl; [intros []|].
  destruct (String.eqb n name) eqn:E; [intros _; now exists c|].
  intros [Hn | Hin]; [|now apply IH].
  subst n. now rewrite String.eqb_refl in E.
Qed.

Lemma numeric_lookup (df : DataFrame F) (feature : string) :
  numeric_frame df -> In feature (map fst (df_columns df)) -> feature <> "time"%string ->
  exists x, lookup_column feature (df_columns df) = Some (NumCol x)
            /\ length x = length (df_index df).
Proof.
  intros [Hwf Hnum] Hin Htime.
  destruct (lookup_column_names feature (df_columns df) Hin) as [c Hc].
  pose proof (lookup_column_In _ _ _ Hc) as Hc'.
  rewrite Forall_forall in Hnum. destruct (Hnum _ Hc') as [Hname | (x & Hx)]; simpl in *.
  - contradiction.
  - subst c. exists x. split; [exact Hc|]. exact (wf_column_length df feature x Hwf Hc).
Qed.

Lemma feature_frame_replace (index : list Z) (names : list string)
  (cols : list (string * column F)) (feature : string) (x x' : list F) :
  feature_frame index names (mk_df index cols) ->
  lookup_column feature cols = Some (NumCol x) -> length x' = length x ->
  feature_frame index names (mk_df index (replace_column feature (NumCol x') cols)).
Proof.
  intros (_ & Hnames & Hwf & Hnum) Hx Hlen. cbn [df_index df_columns] in *.
  pose proof (wf_column_length (mk_df index cols) feature x Hwf Hx) as Hxlen.
  cbn [df_index] in Hxlen.
  split; [reflexivity|]. split; [|split]; cbn [df_index df_columns].
  - now rewrite (replace_column_names _ _ _ _ Hx).
  - unfold frame_wf in *. cbn [df_index df_columns] in *.
    apply replace_column_Forall; [|exact Hwf]. intros n. cbn. lia.
  - apply replace_column_Forall; [|exact Hnum]. intros n. right. now exists x'.
Qed.

Lemma pd_for_invariant {A : Type} (I : DataFrame F -> Prop) (items : list A)
  (body : A -> PD F unit) (df : DataFrame F) :
  (forall a df0, In a items -> I df0 -> exists df1, body a df0 = (Ok tt, df1) /\ I df1) ->
  I df -> exists df', pd_for items body df = (Ok tt, df') /\ I df'.
Proof.
  revert df. induction items as [|a items IH]; intros df Hbody Hdf.
  - now exists df.
  - destruct (Hbody a df (or_introl eq_refl) Hdf) as (df1 & E1 & Hdf1).
    destruct (IH df1) as (df' & E' & Hdf'); [|exact Hdf1|].
    + intros b df0 Hb. apply Hbody. now right.
    + exists df'. split; [|exact Hdf']. cbn [pd_for]. unfold pd_bind at 1. now rewrite E1.
Qed.

Lemma median_filtering_returns (index : list Z) (names : list string) (df : DataFrame F) :
  feature_frame index names df ->
  exists df', median_filtering df = (Ok tt, df') /\ feature_frame index names df'.
Proof.
  intros Hdf.
  assert (Hrun : median_filtering df = pd_for names median_filter_feature df).
  { unfold median_filtering. pd_unfold. destruct Hdf as (_ & -> & _). reflexivity. }
  rewrite Hrun. apply pd_for_invariant; [|exact Hdf].
  intros feature [index0 cols] Hin (Hindex & Hnames & Hnum).
  cbn [df_index df_columns] in Hindex, Hnames.
  subst index0. destruct (String.eqb feature "time") eqn:Htime.
  - exists (mk_df index cols). unfold median_filter_feature. rewrite Htime.
    split; [reflexivity | exact (conj eq_refl (conj Hnames Hnum))].
  - apply String.eqb_neq in Htime.
    destruct (numeric_lookup (mk_df index cols) feature Hnum) as (x & Hx & Hlen);
      [cbn [df_columns]; now rewrite Hnames | exact Htime|].
    rewrite (median_filter_feature_run feature _ x Htime Hx). eexists. split; [reflexivity|].
    cbn [df_index df_columns]. apply (feature_frame_replace index names cols feature x).
    + exact (conj eq_refl (conj Hnames Hnum)).
    + exact Hx.
    + apply rolling_median_length.
Qed.

Lemma clip_stage_returns (index : list Z) (names : list string) (df : DataFrame F) :
  (forall b, In b (ATTR_BOUNDS (F := F)) -> In (fst b) names) ->
  feature_frame index names df ->
  exists df', clip_stage df = (Ok tt, df') /\ feature_frame index names df'.
Proof.
  intros Hbounds Hdf. unfold clip_stage. apply pd_for_invariant; [|exact Hdf].
  intros [feature [lo hi]] [index0 cols] Hin (Hindex & Hnames & Hnum).
  cbn [df_index df_columns] in Hindex, Hnames. subst index0.
  destruct (numeric_lookup (mk_df index cols) feature Hnum) as (x & Hx & Hlen).
  { cbn [df_columns]. rewrite Hnames. exact (Hbounds _ Hin). }
  { pose proof (attr_bounds_not_time (F := F)) as Hnot. rewrite Forall_forall in Hnot.
    exact (Hnot _ Hin). }
  rewrite (clip_feature_run feature lo hi _ x Hx). eexists. split; [reflexivity|].
  cbn [df_index df_columns]. apply (feature_frame_replace index names cols feature x).
  - exact (conj eq_refl (conj Hnames Hnum)).
  - exact Hx.
  - apply List.length_map.
Qed.

Lemma sigma_stage_returns (n : nat) (names : list string) (df : DataFrame F) :
  feature_frame (range_index (S n)) names df ->
  exists df', sigma_stage df = (Ok tt, df') /\ feature_frame (range_index (S n)) names df'.
Proof.
  intros Hdf.
  assert (Hrun : sigma_stage df = pd_for names sigma_repair_feature df).
  { unfold sigma_stage. pd_unfold. destruct Hdf as (_ & -> & _). reflexivity. }
  rewrite Hrun. apply pd_for_invariant; [|exact Hdf].
  intros feature [index0 cols] Hin (Hindex & Hnames & Hnum).
  cbn [df_index df_columns] in Hindex, Hnames.
  subst index0. destruct (String.eqb feature "time") eqn:Htime.
  - exists (mk_df (range_index (S n)) cols). unfold sigma_repair_feature. rewrite Htime.
    split; [reflexivity | exact (conj eq_refl (conj Hnames Hnum))].
  - pose proof Htime as Hne. apply String.eqb_neq in Hne.
    destruct (numeric_lookup (mk_df (range_index (S n)) cols) feature Hnum)
      as (x & Hx & Hlen); [cbn [df_columns]; now rewrite Hnames | exact Hne|].
    cbn [df_index df_columns] in Hx, Hlen. rewrite range_index_length in Hlen.
    rewrite (sigma_repair_feature_default_index n feature cols x Htime Hx Hlen).
    eexists. split; [reflexivity|].
    apply (feature_frame_replace (range_index (S n)) names cols feature x).
    + exact (conj eq_refl (conj Hnames Hnum)).
    + exact Hx.
    + apply sigma_passes_length.
      * apply rolling_mean_length.
      * now rewrite length_insert, rolling_std_length.
Qed.

Lemma bound_stage_returns (index : list Z) (names : list string) (df : DataFrame F) :
  (forall b, In b (ATTR_BOUNDS (F := F)) -> In (fst b) names) ->
  feature_frame index names df ->
  exists df', bound_stage df = (Ok tt, df') /\ feature_frame index names df'.
Proof.
  intros Hbounds Hdf. unfold bound_stage. apply pd_for_invariant; [|exact Hdf].
  intros [feature [lo hi]] [index0 cols] Hin (Hindex & Hnames & Hnum).
  cbn [df_index df_columns] in Hindex, Hnames. subst index0.
  destruct (String.eqb feature "shortwave") eqn:Hshort.
  - exists (mk_df index cols). unfold bound_repair_feature. rewrite Hshort.
    split; [reflexivity | exact (conj eq_refl (conj Hnames Hnum))].
  - apply String.eqb_neq in Hshort.
    destruct (numeric_lookup (mk_df index cols) feature Hnum) as (x & Hx & Hlen).
    { cbn [df_columns]. rewrite Hnames. exact (Hbounds _ Hin). }
    { pose proof (attr_bounds_not_time (F := F)) as Hnot. rewrite Forall_forall in Hnot.
      exact (Hnot _ Hin). }
    rewrite (bound_repair_feature_run feature lo hi _ x Hshort Hx). cbv zeta.
    eexists. split; [reflexivity|].
    cbn [df_index df_columns]. apply (feature_frame_replace index names cols feature x).
    + exact (conj eq_refl (conj Hnames Hnum)).
    + exact Hx.
    + apply bound_passes_length.
Qed.

Lemma remove_outliers_returns (n : nat) (names : list string) (df : DataFrame F) :
  (forall b, In b (ATTR_BOUNDS (F := F)) -> In (fst b) names) ->
  feature_frame (range_index (S n)) names df ->
  exists df', remove_outliers df = (Ok tt, df')
              /\ feature_frame (range_index (S n)) names df'.
Proof.
  intros Hbounds Hdf. unfold remove_outliers, mbind, pd_mbind.
  destruct (median_filtering_returns _ _ df Hdf) as (df1 & E1 & Hdf1).
  destruct (clip_stage_returns _ _ df1 Hbounds Hdf1) as (df2 & E2 & Hdf2).
  destruct (sigma_stage_returns _ _ df2 Hdf2) as (df3 & E3 & Hdf3).
  destruct (bound_stage_returns _ _ df3 Hbounds Hdf3) as (df4 & E4 & Hdf4).
  destruct (median_filtering_returns _ _ df4 Hdf4) as (df5 & E5 & Hdf5).
  exists df5. split; [|exact Hdf5].
  unfold pd_bind at 1. rewrite E1. unfold pd_bind at 1. rewrite E2.
  unfold pd_bind at 1. rewrite E3. unfold pd_bind at 1. now rewrite E4.
Qed.
Lemma remove_outliers_keeps : keeps_frame (remove_outliers (F := F)).
Proof.
  unfold remove_outliers.
  apply keeps_frame_bind; [apply median_filtering_frame | intros _].
  apply keeps_frame_bind; [apply clip_stage_frame | intros _].
  apply keeps_frame_bind; [apply sigma_stage_frame | intros _].
  apply keeps_frame_bind; [apply bound_stage_frame | intros _].
  apply median_filtering_frame.
Qed.
End CleaningReturns.

(** ** The pipeline on feeds with a complete row *)

Section PipelineReturns.
Context {F : Type} `{Float64 F} `{Float64Trig F} {roll : Rolling F}.

Lemma merge_samples_width (buoy_json : list buoy_sample) (uscg_json : list uscg_sample)
  (historical : list (datetime * list F)) :
  merge_samples buoy_json uscg_json = Ok historical -> rows_width 7 historical.
Proof.
  unfold merge_samples. intros E.
  destruct (for_fold buoy_step buoy_json []) as [h1|] eqn:E1; cbn [mbind result_bind] in E;
    [|discriminate].
  refine (for_fold_invariant (rows_width 7) _ _ _ _ _ _ E).
  - intros s t1 t2 _ Ht1 Et. destruct (uscg_step_spec s t1 Ht1) as (t & Et' & Ht & _).
    rewrite Et in Et'. inversion Et'; subst. exact Ht.
  - refine (for_fold_invariant (rows_width 7) _ _ _ _ _ _ E1); [|constructor].
    intros s t1 t2 _ Ht1 Et. destruct (buoy_step_spec s t1 Ht1) as (t & Et' & Ht & _).
    rewrite Et in Et'. inversion Et'; subst. exact Ht.
Qed.

(** A row is complete when none of its cells is NaN. *)
Lemma incomplete_cell (row : list F) :
  existsb f_isnan row = true ->
  exists j x, (j < length row)%nat /\ row !! j = Some x /\ f_isnan x = true.
Proof.
  induction row as [|c row IH]; simpl; [discriminate|].
  destruct (f_isnan c) eqn:Hc.
  - intros _. exists 0%nat, c. repeat split; [lia | exact Hc].
  - intros Hrow. destruct (IH Hrow) as (j & x & Hj & Hx & Hnan).
    exists (S j), x. repeat split; [lia | exact Hx | exact Hnan].
Qed.

(** The flags of the frame built from the dictionary are those of its
    rows. *)
Lemma isnull_any_frame_of_rows (historical : list (datetime * list F)) :
  rows_width 7 historical ->
  isnull_any (frame_of_rows historical) = map (fun kr => existsb f_isnan (snd kr)) historical.
Proof.
  intros Hw. unfold isnull_any, frame_of_rows. cbn [df_index df_columns].
  rewrite range_index_length.
  assert (Hgen : forall start (rest : list (datetime * list F)),
             (forall i kr, rest !! i = Some kr -> historical !! (start + i)%nat = Some kr) ->
             map (fun i =>
                    existsb (fun nc : string * column F => cell_isnull (snd nc) i)
                      (("time"%string, TimeCol (map fst historical))
                       :: map (fun jn => (snd jn,
                                          NumCol (map (fun r => nth (fst jn) (snd r) f_nan)
                                                    historical)))
                            (combine (seq 0 (length features)) features)))
                 (seq start (length rest))
             = map (fun kr => existsb f_isnan (snd kr)) rest).
  { intros start rest. revert start. induction rest as [|kr rest IH]; intros start Hsub;
      [reflexivity|].
    cbn [length seq map]. f_equal.
    - pose proof (Hsub 0%nat kr eq_refl) as Hkr. rewrite Nat.add_0_r in Hkr.
      assert (Hlen : length (snd kr) = 7%nat).
      { unfold rows_width in Hw. rewrite Forall_forall in Hw. apply Hw.
        apply list_elem_of_In. eapply list_elem_of_lookup_2. exact Hkr. }
      cbn [features length seq combine map existsb fst snd cell_isnull].
      rewrite !lookup_map, Hkr. cbn [fmap option_fmap option_map].
      destruct (snd kr) as [|c0 [|c1 [|c2 [|c3 [|c4 [|c5 [|c6 [|]]]]]]]]; try discriminate.
      cbn [nth existsb]. reflexivity.
    - apply IH. intros i kr' Hi. replace (S start + i)%nat with (start + S i)%nat by lia.
      now apply Hsub. }
  apply (Hgen 0%nat historical). intros i kr Hi. exact Hi.
Qed.

(** On the labels 0, 1, 2, ... the trim returns, and keeps the rows
    that are not flagged. *)
Lemma trim_default_run (df : DataFrame F) :
  df_index df = range_index (length (df_index df)) ->
  trim_nan_rows df
  = (Ok tt, mk_df (keep_by (map negb (isnull_any df)) (df_index df))
              (map (fun nc => (fst nc, keep_column (map negb (isnull_any df)) (snd nc)))
                 (df_columns df))).
Proof.
  intros Hindex.
  assert (Hlen : length (isnull_any df) = length (df_index df)).
  { unfold isnull_any. now rewrite List.length_map, List.length_seq. }
  assert (Hkeep : map (fun l => negb (existsb (Z.eqb l) (flagged_positions (isnull_any df))))
                      (df_index df)
                  = map negb (isnull_any df)).
  { rewrite Hindex, <- Hlen. apply keep_unflagged_positions. }
  assert (Hcheck : forallb (fun l => existsb (Z.eqb l) (df_index df))
                     (flagged_positions (isnull_any df)) = true).
  { rewrite Hindex, <- Hlen. apply flagged_in_range_index. }
  unfold trim_nan_rows, pd_drop_rows. now rewrite Hcheck, Hkeep.
Qed.

Lemma keep_column_numeric (keep : list bool) (index : list Z)
  (cols : list (string * column F)) :
  numeric_frame (mk_df index cols) ->
  numeric_frame (mk_df (keep_by keep index)
                   (map (fun nc => (fst nc, keep_column keep (snd nc))) cols)).
Proof.
  intros [Hwf Hnum]. split.
  - unfold frame_wf in *. cbn [df_index df_columns] in *. apply List.Forall_map.
    eapply Forall_impl; [|exact Hwf]. intros [n [ts|xs]] Hnc; simpl in *;
      now apply keep_by_length.
  - cbn [df_columns] in *. apply List.Forall_map. eapply Forall_impl; [|exact Hnum].
    intros [n c] [Hn | (x & Hx)]; simpl in *; [now left|].
    subst c. right. now eexists.
Qed.

Lemma keep_by_filter {A B : Type} (p : A -> bool) (l : list A) (xs : list B) :
  length xs = length l -> length (keep_by (map p l) xs) = length (List.filter p l).
Proof.
  revert xs. induction l as [|a l IH]; intros [|x xs] Hlen; simpl in *; try discriminate;
    [reflexivity|].
  destruct (p a); simpl; rewrite IH by lia; reflexivity.
Qed.

Lemma keep_by_shorter {A : Type} (keep : list bool) (xs : list A) :
  (length (keep_by keep xs) <= length xs)%nat.
Proof.
  revert xs. induction keep as [|k keep IH]; intros [|x xs]; simpl; try lia.
  specialize (IH xs). destruct k; simpl; lia.
Qed.

Lemma keep_by_sorted {A : Type} (R : A -> A -> Prop) (keep : list bool) (xs : list A) :
  StronglySorted R xs -> StronglySorted R (keep_by keep xs).
Proof.
  intros Hxs. revert keep. induction Hxs as [|x xs Hxs IH Hx]; intros [|k keep]; simpl;
    try constructor.
  destruct k; [|apply IH]. constructor; [apply IH|].
  clear - Hx. revert keep. induction Hx as [|y xs Hy Hx IH]; intros [|k keep]; simpl;
    try constructor.
  destruct k; [constructor; [exact Hy | apply IH] | apply IH].
Qed.

(** What the trim keeps of a numeric column holds no NaN. *)
Lemma kept_values_not_nan (df : DataFrame F) (name : string) (ys : list F) :
  frame_wf df -> In (name, NumCol ys) (df_columns df) ->
  Forall (fun x => f_isnan x = false) (keep_by (map negb (isnull_any df)) ys).
Proof.
  intros Hwf Hin. apply keep_by_Forall.
  assert (Hys : length ys = length (df_index df)).
  { unfold frame_wf in Hwf. rewrite Forall_forall in Hwf. exact (Hwf _ Hin). }
  unfold isnull_any.
  assert (Hgen : forall start (zs : list F) m,
             length zs = m ->
             (forall j x, zs !! j = Some x -> ys !! (start + j)%nat = Some x) ->
             Forall2 (fun k x => k = true -> f_isnan x = false)
               (map negb (map (fun i => existsb (fun nc => cell_isnull (snd nc) i)
                                            (df_columns df)) (seq start m))) zs).
  { intros start zs. revert start. induction zs as [|z zs IH]; intros start m Hm Hsub;
      subst m; simpl; constructor.
    - intros Hk. apply negb_true_iff in Hk.
      apply not_true_is_false. intros Hnan.
      assert (existsb (fun nc => cell_isnull (snd nc) start) (df_columns df) = true);
        [|congruence].
      apply existsb_exists. exists (name, NumCol ys). split; [exact Hin|].
      simpl. specialize (Hsub 0%nat z eq_refl). rewrite Nat.add_0_r in Hsub.
      now rewrite Hsub.
    - apply IH; [reflexivity|]. intros j x Hj.
      replace (S start + j)%nat with (start + S j)%nat by lia. now apply Hsub. }
  rewrite <- Hys. apply Hgen; [reflexivity|].
  intros j x Hj. exact Hj.
Qed.
End PipelineReturns.

Section PipelineTheorem.
Context {F : Type} `{Float64 F} `{Float64Trig F} {roll : Rolling F}.

Lemma frame_of_rows_features (historical : list (datetime * list F)) :
  feature_frame (range_index (length historical)) ("time"%string :: features)
    (frame_of_rows historical).
Proof.
  split; [reflexivity|]. split; [reflexivity|]. split.
  - apply frame_of_rows_shape.
  - unfold frame_of_rows. cbn [df_columns features length seq combine map fst snd].
    repeat (apply Forall_cons; [first [left; reflexivity | right; eexists; reflexivity]|]).
    apply Forall_nil.
Qed.

Lemma take_rows_numeric (order : list nat) (n : nat) (index : list Z)
  (cols : list (string * column F)) :
  frame_wf (mk_df (range_index n) (map (fun nc => (fst nc, take_rows order (snd nc))) cols)) ->
  numeric_frame (mk_df index cols) ->
  numeric_frame (mk_df (range_index n)
                   (map (fun nc => (fst nc, take_rows order (snd nc))) cols)).
Proof.
  intros Hwf [_ Hnum]. split; [exact Hwf|].
  cbn [df_columns] in *. apply List.Forall_map. eapply Forall_impl; [|exact Hnum].
  intros [name c] [Hn | (x & Hx)]; simpl in *; [now left|].
  subst c. right. now eexists.
Qed.

Lemma attr_bounds_are_features (b : string * (F * F)) :
  In b ATTR_BOUNDS -> In (fst b) ("time"%string :: features).
Proof.
  cbn [In ATTR_BOUNDS features].
  intros Hb. repeat (destruct Hb as [<- | Hb]; [cbn [fst]; tauto|]). destruct Hb.
Qed.

Lemma complete_rows_kept (historical : list (datetime * list F)) :
  Exists (fun kr => Forall (fun x => f_isnan x = false) (snd kr)) historical ->
  (0 < length (List.filter (fun kr => negb (existsb f_isnan (snd kr))) historical))%nat.
Proof.
  induction 1 as [kr historical Hkr | kr historical _ IH]; simpl.
  - replace (existsb f_isnan (snd kr)) with false; [simpl; lia|].
    symmetry. apply not_true_is_false. intros Hex. apply existsb_exists in Hex as (x & Hx & Hnan).
    rewrite Forall_forall in Hkr. rewrite (Hkr x Hx) in Hnan. discriminate.
  - destruct (negb _); simpl; lia.
Qed.

(** The last two steps of the pipeline on a cleaned frame. *)
Lemma wind_and_trim_return (n : nat) (df3 : DataFrame F) (ts : list datetime) :
  feature_frame (range_index (S n)) ("time"%string :: features) df3 ->
  lookup_column "time" (df_columns df3) = Some (TimeCol ts) ->
  StronglySorted (fun a b => instant a <= instant b) ts ->
  exists df4 df5 ts',
    decompose_wind df3 = (Ok tt, df4)
    /\ trim_nan_rows df4 = (Ok tt, df5)
    /\ map fst (df_columns df5)
       = ["time"; "shortwave"; "air temp"; "atmospheric pressure"; "relative humidity";
          "longwave"; "wind u"; "wind v"]%string
    /\ frame_wf df5
    /\ (length (df_index df5) <= S n)%nat
    /\ lookup_column "time" (df_columns df5) = Some (TimeCol ts')
    /\ StronglySorted (fun a b => instant a <= instant b) ts'
    /\ forall name xs, In (name, NumCol xs) (df_columns df5) ->
                       Forall (fun x => f_isnan x = false) xs.
Proof.
  destruct df3 as [index cols]. intros (Hindex & Hnames & Hwf & Hnum) Htime Hsorted.
  cbn [df_index df_columns] in *. subst index.
  unfold features in Hnames.
  destruct cols as [|[n0 c0] [|[n1 c1] [|[n2 c2] [|[n3 c3] [|[n4 c4] [|[n5 c5] [|[n6 c6]
                   [|[n7 c7] [|]]]]]]]]]; try discriminate Hnames.
  cbn [map fst] in Hnames. inversion Hnames; subst; clear Hnames.
  cbn [lookup_column String.eqb Ascii.eqb Bool.eqb] in Htime. inversion Htime; subst c0.
  apply Forall_cons_iff in Hnum as [_ Hnum].
  repeat match goal with
         | Hf : Forall _ (_ :: _) |- _ =>
             let Hh := fresh "Hh" in
             apply Forall_cons_iff in Hf as [Hh Hf]; cbn [fst snd] in Hh;
             destruct Hh as [Hh | (? & ->)]; [discriminate Hh|]
         end.
  clear Hnum Htime. rename x into sw, x0 into at_, x1 into bp, x2 into rh, x3 into lw,
    x4 into speed, x5 into direction.
  set (df3 := mk_df (range_index (S n)) _) in *.
  pose proof (decompose_wind_run df3 direction speed eq_refl eq_refl) as Hwind.
  destruct (decompose_wind_shape df3 _ Hwf Hwind) as [Hwf4 Hindex4].
  set (df4 := mk_df (df_index df3) _) in *.
  assert (Hcols4 : df_columns df4
                   = [("time"%string, TimeCol ts); ("shortwave"%string, NumCol sw);
                      ("air temp"%string, NumCol at_);
                      ("atmospheric pressure"%string, NumCol bp);
                      ("relative humidity"%string, NumCol rh);
                      ("longwave"%string, NumCol lw);
                      ("wind u"%string, NumCol (wind_component f_sin direction speed));
                      ("wind v"%string, NumCol (wind_component f_cos direction speed))])
    by reflexivity.
  assert (Hdefault : df_index df4 = range_index (length (df_index df4))).
  { rewrite Hindex4. unfold df3. cbn [df_index]. now rewrite range_index_length. }
  pose proof (trim_default_run df4 Hdefault) as Htrim.
  set (keep := map negb (isnull_any df4)) in *.
  exists df4. eexists. exists (keep_by keep ts).
  split; [exact Hwind|]. split; [exact Htrim|]. cbn [df_index df_columns].
  rewrite Hcols4. cbn [map fst snd keep_column].
  split; [reflexivity|]. split; [|split; [|split; [|split]]].
  - pose proof (trim_nan_rows_wf df4 Hwf4) as Hwf5. rewrite Htrim in Hwf5.
    cbn [snd] in Hwf5. rewrite Hcols4 in Hwf5. exact Hwf5.
  - etransitivity; [apply keep_by_shorter|]. rewrite Hindex4. unfold df3. cbn [df_index].
    now rewrite range_index_length.
  - reflexivity.
  - now apply keep_by_sorted.
  - intros name xs Hin.
    assert (Hfrom : exists ys, In (name, NumCol ys) (df_columns df4) /\ xs = keep_by keep ys).
    { rewrite Hcols4. cbn [In] in Hin.
      repeat (destruct Hin as [Hin | Hin];
              [inversion Hin; subst; eexists; (split; [|reflexivity]); cbn [In]; tauto|]).
      destruct Hin. }
    destruct Hfrom as (ys & Hys & ->). exact (kept_values_not_nan df4 name ys Hwf4 Hys).
Qed.

(** The pipeline on a dictionary with a complete row. *)
Lemma clean_frame_returns (historical : list (datetime * list F)) :
  rows_width 7 historical ->
  Exists (fun kr => Forall (fun x => f_isnan x = false) (snd kr)) historical ->
  exists df ts,
    clean_frame (frame_of_rows historical) = (Ok tt, df)
    /\ map fst (df_columns df)
       = ["time"; "shortwave"; "air temp"; "atmospheric pressure"; "relative humidity";
          "longwave"; "wind u"; "wind v"]%string
    /\ frame_wf df
    /\ (length (df_index df)
        <= length (List.filter (fun kr => negb (existsb f_isnan (snd kr))) historical))%nat
    /\ lookup_column "time" (df_columns df) = Some (TimeCol ts)
    /\ StronglySorted (fun a b => instant a <= instant b) ts
    /\ forall name xs, In (name, NumCol xs) (df_columns df) ->
                       Forall (fun x => f_isnan x = false) xs.
Proof.
  intros Hw Hcomplete.
  set (p := fun kr : datetime * list F => negb (existsb f_isnan (snd kr))).
  pose proof (complete_rows_kept historical Hcomplete) as Hkept. fold p in Hkept.
  destruct (length (List.filter p historical)) as [|n] eqn:Hn; [lia|]. clear Hkept.
  (* the first trim *)
  destruct (frame_of_rows_features historical) as (Hindex0 & Hnames0 & Hwf0 & Hnum0).
  pose proof (trim_default_run (frame_of_rows historical)
                (proj2 (frame_of_rows_shape historical))) as Htrim.
  rewrite (isnull_any_frame_of_rows historical Hw), List.map_map in Htrim.
  fold p in Htrim.
  set (df1 := mk_df (keep_by (map p historical) (df_index (frame_of_rows historical))) _)
    in Htrim.
  assert (Hnum1 : numeric_frame df1).
  { apply keep_column_numeric. split; [exact Hwf0 | exact Hnum0]. }
  assert (Hlen1 : length (df_index df1) = S n).
  { unfold df1. cbn [df_index]. rewrite Hindex0, keep_by_filter; [exact Hn|].
    apply range_index_length. }
  assert (Hnames1 : map fst (df_columns df1) = "time"%string :: features).
  { unfold df1. cbn [df_columns]. now rewrite List.map_map. }
  assert (Htime1 : lookup_column "time" (df_columns df1)
                   = Some (TimeCol (keep_by (map p historical) (map fst historical)))).
  { unfold df1. cbn [df_columns]. now rewrite lookup_column_map. }
  (* the sort *)
  destruct (sort_by_time_run df1 _ (proj1 Hnum1) Htime1) as (Hsort & _ & Hsorted2).
  set (order := isort _ _) in Hsort, Hsorted2.
  set (ts2 := omap _ order) in Hsorted2.
  set (df2 := mk_df (range_index (length (df_index df1))) _) in Hsort.
  assert (Hff2 : feature_frame (range_index (S n)) ("time"%string :: features) df2).
  { split; [unfold df2; cbn [df_index]; now rewrite Hlen1|]. split.
    - unfold df2. cbn [df_columns]. now rewrite List.map_map.
    - apply (take_rows_numeric order _ (df_index df1) (df_columns df1)).
      + exact (proj1 (sort_by_time_shape df1 df2 (proj1 Hnum1) Hsort)).
      + exact Hnum1. }
  assert (Htime2 : lookup_column "time" (df_columns df2) = Some (TimeCol ts2)).
  { unfold df2. cbn [df_columns]. now rewrite lookup_column_map, Htime1. }
  (* the cleaning *)
  destruct (remove_outliers_returns n _ df2 attr_bounds_are_features Hff2)
    as (df3 & Hclean & Hff3).
  assert (Htime3 : lookup_column "time" (df_columns df3) = Some (TimeCol ts2)).
  { pose proof (remove_outliers_keeps df2) as (_ & _ & Hsame & _).
    rewrite Hclean in Hsame. cbn [snd] in Hsame. now rewrite Hsame. }
  (* the wind vector and the second trim *)
  destruct (wind_and_trim_return n df3 ts2 Hff3 Htime3 Hsorted2)
    as (df4 & df5 & ts5 & Hwind & Htrim5 & Hnames5 & Hwf5 & Hlen5 & Htime5 & Hsorted5 & Hnan5).
  exists df5, ts5. split.
  - unfold clean_frame, mbind, pd_mbind.
    unfold pd_bind at 1. rewrite Htrim. unfold pd_bind at 1. rewrite Hsort.
    unfold pd_bind at 1. rewrite Hclean. unfold pd_bind at 1. now rewrite Hwind.
  - repeat split; assumption.
Qed.

Lemma complete_or_incomplete (historical : list (datetime * list F)) :
  rows_width 7 historical ->
  Exists (fun kr => Forall (fun x => f_isnan x = false) (snd kr)) historical
  \/ Forall (fun kr => exists j x, (j < length features)%nat
                                   /\ snd kr !! j = Some x /\ f_isnan x = true) historical.
Proof.
  induction 1 as [|kr historical Hkr Hw [IH | IH]]; [right; constructor | left | ].
  - now apply Exists_cons_tl.
  - destruct (existsb f_isnan (snd kr)) eqn:E.
    + right. constructor; [|exact IH].
      destruct (incomplete_cell _ E) as (j & x & Hj & Hx & Hnan).
      exists j, x. split; [|now split]. cbn [features length]. lia.
    + left. apply Exists_cons_hd. apply Forall_forall. intros x Hx.
      apply not_true_is_false. intros Hnan.
      assert (existsb f_isnan (snd kr) = true) by (apply existsb_exists; eauto).
      congruence.
Qed.

(** X16: when some timestamp has all seven values, the pipeline returns
    a frame.  Its columns are ['time'], the five features that are not
    wind, ['wind u'] and ['wind v'], with one cell per row; no value is
    NaN; the times are in ascending order; and it has at most as many
    rows as there are complete timestamps. *)
Theorem complete_row_gives_a_frame (buoy_json : list buoy_sample)
  (uscg_json : list uscg_sample) (historical : list (datetime * list F)) :
  merge_samples buoy_json uscg_json = Ok historical ->
  Exists (fun kr => Forall (fun x => f_isnan x = false) (snd kr)) historical ->
  exists df ts,
    get_model_historical_data buoy_json uscg_json = Ok df
    /\ map fst (df_columns df)
       = ["time"; "shortwave"; "air temp"; "atmospheric pressure"; "relative humidity";
          "longwave"; "wind u"; "wind v"]%string
    /\ frame_wf df
    /\ (length (df_index df)
        <= length (List.filter (fun kr => negb (existsb f_isnan (snd kr))) historical))%nat
    /\ lookup_column "time" (df_columns df) = Some (TimeCol ts)
    /\ StronglySorted (fun a b => instant a <= instant b) ts
    /\ forall name xs, In (name, NumCol xs) (df_columns df) ->
                       Forall (fun x => f_isnan x = false) xs.
Proof.
  intros Hmerge Hcomplete.
  destruct (clean_frame_returns historical (merge_samples_width _ _ _ Hmerge) Hcomplete)
    as (df & ts & Hrun & Hrest).
  exists df, ts. split; [|exact Hrest].
  unfold get_model_historical_data. rewrite Hmerge. cbn [mbind result_bind].
  now rewrite Hrun.
Qed.

(** X17: [get_model_historical_data] returns a frame exactly when some
    timestamp of the merged feeds has all seven values; otherwise it
    raises [ValueError]. *)
Theorem historical_data_returns_iff (buoy_json : list buoy_sample)
  (uscg_json : list uscg_sample) (historical : list (datetime * list F)) :
  merge_samples buoy_json uscg_json = Ok historical ->
  ((exists df, get_model_historical_data buoy_json uscg_json = Ok df)
   <-> Exists (fun kr => Forall (fun x => f_isnan x = false) (snd kr)) historical)
  /\ (forall e, get_model_historical_data buoy_json uscg_json = Raise e -> e = ValueError).
Proof.
  intros Hmerge. pose proof (merge_samples_width _ _ _ Hmerge) as Hw.
  destruct (complete_or_incomplete historical Hw) as [Hcomplete | Hincomplete].
  - destruct (clean_frame_returns historical Hw Hcomplete) as (df & ts & Hrun & _).
    assert (Hdf : get_model_historical_data buoy_json uscg_json = Ok df).
    { unfold get_model_historical_data. rewrite Hmerge. cbn [mbind result_bind].
      now rewrite Hrun. }
    split; [split; [intros _; exact Hcomplete | intros _; now exists df]|].
    intros e He. rewrite Hdf in He. discriminate.
  - pose proof (no_complete_row_raises buoy_json uscg_json historical Hmerge Hincomplete)
      as Hraise.
    split.
    + split; [intros [df Hdf]; rewrite Hraise in Hdf; discriminate|].
      intros Hcomplete. exfalso.
      apply Exists_exists in Hcomplete as (kr & Hin & Hkr).
      rewrite Forall_forall in Hincomplete.
      destruct (Hincomplete kr Hin) as (j & x & _ & Hx & Hnan).
      rewrite Forall_forall in Hkr.
      assert (Hx' : In x (snd kr)).
      { apply list_elem_of_In. eapply list_elem_of_lookup_2. exact Hx. }
      rewrite (Hkr x Hx') in Hnan. discriminate.
    + intros e He. rewrite Hraise in He. now inversion He.
Qed.
End PipelineTheorem.

Lemma example_historical_merged :
  merge_samples [example_buoy_reading] [example_uscg_reading] = Ok example_historical.
Proof. reflexivity. Qed.

Lemma example_historical_complete :
  Exists (fun kr => Forall (fun x => f_isnan x = false) (snd kr)) example_historical.
Proof.
  apply Exists_cons_hd. cbn [snd example_historical].
  repeat (apply Forall_cons; [|]); try apply Forall_nil;
    cbn [f_isnan f_sub f_mul f_div f_add f_of_Z ideal64 mean2 xlift2 xdiv];
    repeat match goal with
           | |- context [Req_EM_T ?a ?b] => destruct (Req_EM_T a b); [lra|]
           end;
    reflexivity.
Qed.

Lemma complete_row_gives_a_frame_example :
  exists df ts,
    get_model_historical_data [example_buoy_reading] [example_uscg_reading] = Ok df
    /\ map fst (df_columns df)
       = ["time"; "shortwave"; "air temp"; "atmospheric pressure"; "relative humidity";
          "longwave"; "wind u"; "wind v"]%string
    /\ frame_wf df
    /\ (length (df_index df)
        <= length (List.filter (fun kr => negb (existsb f_isnan (snd kr)))
                     example_historical))%nat
    /\ lookup_column "time" (df_columns df) = Some (TimeCol ts)
    /\ StronglySorted (fun a b => instant a <= instant b) ts
    /\ forall name xs, In (name, NumCol xs) (df_columns df) ->
                       Forall (fun x => f_isnan x = false) xs.
Proof.
  exact (complete_row_gives_a_frame [example_buoy_reading] [example_uscg_reading]
           example_historical example_historical_merged example_historical_complete).
Defined.

Lemma historical_data_returns_iff_example :
  ((exists df,
       get_model_historical_data [example_buoy_reading] [example_uscg_reading] = Ok df)
   <-> Exists (fun kr => Forall (fun x => f_isnan x = false) (snd kr)) example_historical)
  /\ (forall e, get_model_historical_data [example_buoy_reading] [example_uscg_reading]
                = Raise e -> e = ValueError).
Proof.
  exact (historical_data_returns_iff [example_buoy_reading] [example_uscg_reading]
           example_historical example_historical_merged).
Defined.

(** ** When the cleaning returns *)

Section CleaningEdges.
Context {F : Type} `{Float64 F} {roll : Rolling F}.

(** X18: [remove_outliers] returns on every frame that has at least one
    row, the labels 0, 1, 2, ..., a column for each bounded feature and
    numbers in every column but ['time'], with one cell per row; the
    result is such a frame again, with the same labels, column names and
    times. *)
Theorem remove_outliers_succeeds (n : nat) (names : list string) (df : DataFrame F) :
  (forall b, In b (ATTR_BOUNDS (F := F)) -> In (fst b) names) ->
  feature_frame (range_index (S n)) names df ->
  exists df',
    remove_outliers df = (Ok tt, df')
    /\ feature_frame (range_index (S n)) names df'
    /\ same_frame df df'.
Proof.
  intros Hbounds Hdf.
  destruct (remove_outliers_returns n names df Hbounds Hdf) as (df' & Hrun & Hdf').
  exists df'. split; [exact Hrun|]. split; [exact Hdf'|].
  pose proof (remove_outliers_keeps df) as Hsame. now rewrite Hrun in Hsame.
Qed.

(** Stage 3 on labels without 0: the first column of numbers is refused. *)
Lemma sigma_loop_raises (index : list Z) (cols : list (string * column F))
  (items : list string) :
  numeric_frame (mk_df index cols) ->
  existsb (Z.eqb 0) index = false ->
  (forall a, In a items -> In a (map fst cols)) ->
  Exists (fun a => a <> "time"%string) items ->
  pd_for items sigma_repair_feature (mk_df index cols)
  = (Raise ValueError, mk_df index cols).
Proof.
  intros Hnum Hzero Hitems Hex. induction Hex as [a items Ha | a items Hex IH].
  - cbn [pd_for]. unfold pd_bind at 1.
    destruct (numeric_lookup (mk_df index cols) a Hnum) as (x & Hx & _);
      [apply Hitems; now left | exact Ha|].
    rewrite (sigma_repair_feature_run a (mk_df index cols) x Ha Hx). cbv zeta.
    rewrite series_lt_misaligned; [reflexivity|].
    cbn [s_index df_index]. now apply sigma_bands_misaligned.
  - cbn [pd_for]. unfold pd_bind at 1.
    destruct (String.eqb a "time") eqn:Ea.
    + unfold sigma_repair_feature at 1. rewrite Ea. cbn [mret pd_mret pd_ret].
      apply IH. intros b Hb. apply Hitems. now right.
    + apply String.eqb_neq in Ea.
      destruct (numeric_lookup (mk_df index cols) a Hnum) as (x & Hx & _);
        [apply Hitems; now left | exact Ea|].
      rewrite (sigma_repair_feature_run a (mk_df index cols) x Ea Hx). cbv zeta.
      rewrite series_lt_misaligned; [reflexivity|].
      cbn [s_index df_index]. now apply sigma_bands_misaligned.
Qed.

(** X19: [remove_outliers] needs the label 0.  On a frame of numbers
    with a column for each bounded feature whose labels do not hold 0
    (as after rows were dropped without relabelling), stage 3 raises
    [ValueError]: [std[0] = 0] adds a row to [std], and the comparison
    with the bands is refused. *)
Theorem remove_outliers_needs_label_zero (index : list Z) (names : list string)
  (df : DataFrame F) :
  (forall b, In b (ATTR_BOUNDS (F := F)) -> In (fst b) names) ->
  feature_frame index names df ->
  existsb (Z.eqb 0) index = false ->
  fst (remove_outliers df) = Raise ValueError.
Proof.
  intros Hbounds Hdf Hzero. unfold remove_outliers, mbind, pd_mbind.
  destruct (median_filtering_returns _ _ df Hdf) as (df1 & E1 & Hdf1).
  destruct (clip_stage_returns _ _ df1 Hbounds Hdf1) as (df2 & E2 & Hdf2).
  unfold pd_bind at 1. rewrite E1. unfold pd_bind at 1. rewrite E2.
  unfold pd_bind at 1.
  destruct df2 as [index2 cols2]. destruct Hdf2 as (Hindex2 & Hnames2 & Hnum2).
  cbn [df_index df_columns] in Hindex2, Hnames2. subst index2.
  assert (Hsigma : sigma_stage (mk_df index cols2) = (Raise ValueError, mk_df index cols2)).
  { unfold sigma_stage. pd_unfold. cbn [df_columns].
    apply sigma_loop_raises; auto. rewrite Hnames2.
    apply Exists_exists. exists "shortwave"%string. split; [|discriminate].
    apply (Hbounds ("shortwave"%string, (f_div (f_of_Z (-1)) (f_of_Z 1000), f_of_Z 1300))).
    cbn [In ATTR_BOUNDS]. tauto. }
  now rewrite Hsigma.
Qed.
End CleaningEdges.

Lemma example_frame_features :
  forall index, length index = 3%nat ->
  feature_frame index ("time"%string :: features) (mk_df index (df_columns example_frame)).
Proof.
  intros index Hlen. split; [reflexivity|]. split; [reflexivity|]. split.
  - unfold frame_wf. cbn [df_index df_columns example_frame]. rewrite Hlen.
    repeat constructor.
  - cbn [df_columns example_frame].
    repeat (apply Forall_cons; [first [left; reflexivity | right; eexists; reflexivity]|]).
    apply Forall_nil.
Qed.

Lemma remove_outliers_succeeds_example :
  exists df',
    remove_outliers (roll := direct_rolling) example_frame = (Ok tt, df')
    /\ feature_frame (range_index 3) ("time"%string :: features) df'
    /\ same_frame example_frame df'.
Proof.
  apply (remove_outliers_succeeds (roll := direct_rolling) 2 ("time"%string :: features)
           example_frame).
  - apply attr_bounds_are_features.
  - exact (example_frame_features (range_index 3) eq_refl).
Defined.

Lemma remove_outliers_needs_label_zero_example :
  fst (remove_outliers (roll := direct_rolling) example_gapped_frame) = Raise ValueError.
Proof.
  apply (remove_outliers_needs_label_zero (roll := direct_rolling) [1; 2; 3]
           ("time"%string :: features) example_gapped_frame).
  - apply attr_bounds_are_features.
  - exact (example_frame_features [1; 2; 3] eq_refl).
  - reflexivity.
Defined.

(** ** The store of forecasts *)

Section Store.
Context {F : Type} `{Float64 F}.
Variable lookup_error : exn.

Lemma rows_before_filter (earliest_date : datetime) (db kept : list (datetime * list F)) :
  rows_before earliest_date db = Ok kept ->
  kept = List.filter (fun r => instant (fst r) <? instant earliest_date) db.
Proof.
  revert kept. induction db as [|r db IH]; intros kept; simpl.
  - intros E. now inversion E.
  - unfold datetime_ltb.
    destruct (dt_tz (fst r)), (dt_tz earliest_date); cbn [mbind result_bind];
      try discriminate.
    all: destruct (rows_before earliest_date db) as [rest|]; cbn [mbind result_bind];
      [|discriminate].
    all: intros E; inversion E; rewrite (IH rest eq_refl); reflexivity.
Qed.

Lemma rows_before_app (earliest_date : datetime) (a b : list (datetime * list F)) :
  rows_before earliest_date (a ++ b)
  = (ka ← rows_before earliest_date a; kb ← rows_before earliest_date b; Ok (ka ++ kb)).
Proof.
  induction a as [|r a IH]; simpl.
  - destruct (rows_before earliest_date b); reflexivity.
  - destruct (datetime_ltb (fst r) earliest_date) as [keep|]; cbn [mbind result_bind];
      [|reflexivity].
    rewrite IH. destruct (rows_before earliest_date a) as [ka|]; cbn [mbind result_bind];
      [|reflexivity].
    destruct (rows_before earliest_date b) as [kb|]; cbn [mbind result_bind];
      [|reflexivity].
    now destruct keep.
Qed.

(** Rows that are all before the date are all kept. *)
Lemma rows_before_all (earliest_date : datetime) (db kept : list (datetime * list F)) :
  rows_before earliest_date db = Ok kept -> rows_before earliest_date kept = Ok kept.
Proof.
  revert kept. induction db as [|r db IH]; intros kept; simpl.
  - intros E. now inversion E.
  - destruct (datetime_ltb (fst r) earliest_date) as [keep|] eqn:Er;
      cbn [mbind result_bind]; [|discriminate].
    destruct (rows_before earliest_date db) as [rest|]; cbn [mbind result_bind];
      [|discriminate].
    intros E. inversion E. destruct keep; [|now apply IH].
    simpl. rewrite Er. cbn [mbind result_bind]. now rewrite (IH rest eq_refl).
Qed.

(** Aware rows none of which is before the date are all dropped. *)
Lemma rows_before_none (earliest_date : datetime) (db : list (datetime * list F)) :
  dt_tz earliest_date <> None ->
  Forall (fun r => dt_tz (fst r) <> None /\ instant earliest_date <= instant (fst r)) db ->
  rows_before earliest_date db = Ok [].
Proof.
  intros He. induction 1 as [|r db [Hr Hle] Hdb IH]; simpl; [reflexivity|].
  unfold datetime_ltb. destruct (dt_tz (fst r)), (dt_tz earliest_date); try contradiction.
  cbn [mbind result_bind]. rewrite IH. cbn [mbind result_bind].
  replace (instant (fst r) <? instant earliest_date) with false; [reflexivity|].
  symmetry. apply Z.ltb_ge. exact Hle.
Qed.

(** X20: what [retrieve] leaves in the store.  Without a store it is
    the forecast.  With one, when [retrieve] returns, the forecast has a
    first row, and the store is its old rows whose time is strictly
    before the time of that row, in their order, followed by the whole
    forecast. *)
Theorem retrieve_appends_forecast (nws_data : list (datetime * list F)) :
  retrieve lookup_error None nws_data = Ok nws_data
  /\ forall old db,
      retrieve lookup_error (Some old) nws_data = Ok db ->
      exists first rest,
        nws_data = first :: rest
        /\ db = List.filter (fun r => instant (fst r) <? instant (fst first)) old ++ nws_data.
Proof.
  split; [reflexivity|]. intros old db. unfold retrieve.
  destruct nws_data as [|first rest]; [discriminate|]. cbv zeta.
  destruct (rows_before (fst first) old) as [kept|] eqn:E; cbn [mbind result_bind];
    [|discriminate].
  intros Hdb. inversion Hdb. exists first, rest. split; [reflexivity|].
  now rewrite (rows_before_filter _ _ _ E).
Qed.

(** X21: retrieving the same forecast once more leaves the store as it
    is, when the forecast's times carry a zone and none of them is
    before the time of its first row. *)
Theorem retrieve_idempotent (db0 : option (list (datetime * list F)))
  (first : datetime * list F) (rest db : list (datetime * list F)) :
  Forall (fun r => dt_tz (fst r) <> None /\ instant (fst first) <= instant (fst r))
         (first :: rest) ->
  retrieve lookup_error db0 (first :: rest) = Ok db ->
  retrieve lookup_error (Some db) (first :: rest) = Ok db.
Proof.
  intros Hforecast. pose proof Hforecast as Hfirst.
  apply Forall_cons_iff in Hfirst as [[Hfirst _] _].
  pose proof (rows_before_none (fst first) (first :: rest) Hfirst Hforecast) as Hnone.
  destruct db0 as [old|]; unfold retrieve; cbv zeta.
  - destruct (rows_before (fst first) old) as [kept|] eqn:E; cbn [mbind result_bind];
      [|discriminate].
    intros Hdb. inversion Hdb; subst db.
    rewrite rows_before_app, (rows_before_all _ _ _ E), Hnone. cbn [mbind result_bind].
    now rewrite app_nil_r.
  - intros Hdb. inversion Hdb; subst db. rewrite Hnone. reflexivity.
Qed.
End Store.

Lemma retrieve_appends_forecast_example :
  retrieve KeyError None example_table = Ok example_table
  /\ forall old db,
      retrieve KeyError (Some old) example_table = Ok db ->
      exists first rest,
        example_table = first :: rest
        /\ db = List.filter (fun r => instant (fst r) <? instant (fst first)) old
                ++ example_table.
Proof. exact (retrieve_appends_forecast KeyError example_table). Defined.

Lemma retrieve_idempotent_example :
  retrieve KeyError (Some example_table) example_table = Ok example_table.
Proof.
  apply (retrieve_idempotent KeyError None
           (mk_datetime 738190 2 0 0 0 (Some 0), [230; nan; nan; nan; nan]%float)
           [(mk_datetime 738190 3 0 0 0 (Some 0), [230; 3.5; -0.5; 22; 51]%float)]).
  - repeat constructor; simpl; try discriminate; unfold instant; simpl; lia.
  - reflexivity.
Defined.
